(** * shut / pliz / shore: package model, source metadata, installer
      requirements and file updates

    A shallow embedding of the Python sources

      - [src/shut/model/package.py]         ([_get_file_in_directory],
        [PackageModel.get_readme], [PackageModel.get_license],
        [PythonPackageMetadata])
      - [src/shut/commands/pkg/install.py]  ([collect_installable_requirements])
      - [src/shut/commands/pkg/update.py]   ([update_package], [update])
      - [src/pliz/commands/render.py]       ([_get_package_consistency_checks],
        [RenderCommand.execute])

    Python [str] values are Rocq [string]s, one character per code point
    below 256.  Exceptions are values of [exn]; a call that may raise
    returns [result A]. *)

From Stdlib Require Import Ascii String List Bool Arith Lia Permutation Sorted.
From stdpp Require Import base option list strings pretty gmap fin_maps.

Local Open Scope string_scope.
Local Open Scope list_scope.

(** ** Exceptions and fallible results *)

Inductive exn : Type :=
| KeyError (key : string)
| ValueError (msg : string)
| TypeError (msg : string)
| AttributeError (msg : string)
| OSError (msg : string).

Inductive result (A : Type) : Type :=
| Ok (a : A)
| Raise (e : exn).

Arguments Ok {A} a.
Arguments Raise {A} e.

Definition bind {A B : Type} (r : result A) (k : A -> result B) : result B :=
  match r with
  | Ok a => k a
  | Raise e => Raise e
  end.

Notation "'let*' x ':=' r 'in' k" := (bind r (fun x => k))
  (at level 10, x pattern, r at level 100, k at level 200).

(** ** Python [str] helpers *)

Module PyStr.

(** [sub in s] for strings. *)
Definition contains (s sub : string) : Prop :=
  exists pre post : string, s = pre +:+ sub +:+ post.

(** [s.startswith(p)] *)
Definition startswith (s p : string) : bool := String.prefix p s.

(** [s.endswith("/")] *)
Fixpoint ends_with_char (c : ascii) (s : string) : bool :=
  match s with
  | EmptyString => false
  | String a EmptyString => Ascii.eqb a c
  | String _ rest => ends_with_char c rest
  end.

(** [s.split(sep)] for a one-character separator: never the empty list. *)
Fixpoint split (sep : ascii) (s : string) : list string :=
  match s with
  | EmptyString => [EmptyString]
  | String c rest =>
      if Ascii.eqb c sep then EmptyString :: split sep rest
      else match split sep rest with
           | [] => [String c EmptyString]
           | w :: ws => String c w :: ws
           end
  end.

(** [sep.join(parts)] *)
Fixpoint join (sep : string) (parts : list string) : string :=
  match parts with
  | [] => EmptyString
  | [p] => p
  | p :: rest => p +:+ sep +:+ join sep rest
  end.

(** [parts[:-1]] and [parts[-1]]; the latter raises on an empty list,
    which [split] never returns. *)
Definition init (parts : list string) : list string := removelast parts.
Definition last (parts : list string) : string := List.last parts EmptyString.

(** [s.rstrip("/")] for a one-character set. *)
Fixpoint rstrip (c : ascii) (s : string) : string :=
  match s with
  | EmptyString => EmptyString
  | String a rest =>
      match rstrip c rest with
      | EmptyString => if Ascii.eqb a c then EmptyString else String a EmptyString
      | r => String a r
      end
  end.

(** [s == c * len(s)] *)
Fixpoint all_char (c : ascii) (s : string) : bool :=
  match s with
  | EmptyString => true
  | String a rest => Ascii.eqb a c && all_char c rest
  end.

(** [sorted(names)]: Python compares [str] by code point, which is
    [String.leb]; insertion keeps equal names in their order. *)
Fixpoint insert_sorted (x : string) (l : list string) : list string :=
  match l with
  | [] => [x]
  | y :: rest => if String.leb x y then x :: l else y :: insert_sorted x rest
  end.

Definition sorted (l : list string) : list string :=
  fold_right insert_sorted [] l.

End PyStr.

(** ** [posixpath] *)

Module Posixpath.

Definition sep : ascii := "/"%char.

(** One round of the loop of [posixpath.join]. *)
Definition join_step (path b : string) : string :=
  if PyStr.startswith b "/" then b
  else if (String.eqb path "" || PyStr.ends_with_char sep path)%bool then path +:+ b
  else path +:+ "/" +:+ b.

(** [os.path.join(a, *p)] *)
Definition join (a : string) (p : list string) : string :=
  fold_left join_step p a.

(** [p[:i], p[i:]] for [i = p.rfind("/") + 1]; [None] when there is no
    slash. *)
Fixpoint cut_last_sep (p : string) : option (string * string) :=
  match p with
  | EmptyString => None
  | String c rest =>
      match cut_last_sep rest with
      | Some (h, t) => Some (String c h, t)
      | None => if Ascii.eqb c sep then Some (String c EmptyString, rest) else None
      end
  end.

(** [os.path.split(p)] *)
Definition split (p : string) : string * string :=
  let '(head, tail) :=
    match cut_last_sep p with
    | Some ht => ht
    | None => (EmptyString, p)
    end in
  if (negb (String.eqb head "") && negb (PyStr.all_char sep head))%bool
  then (PyStr.rstrip sep head, tail)
  else (head, tail).

(** [os.path.dirname(p)] *)
Definition dirname (p : string) : string := fst (split p).

End Posixpath.

(** ** The parts of the operating system the package model reads *)

(** Python expression nodes ([ast.expr]) as far as [ast.literal_eval]
    tells them apart; every other node class is an [EOther]. *)
Inductive constant : Type :=
| CNone
| CEllipsis
| CBool (b : bool)
| CInt (n : Z)
| CFloat (token : string)
| CComplex (token : string)
| CStr (s : string)
| CBytes (s : string).

Inductive unaryop : Type := UAdd | USub | Not | Invert.

Inductive operator : Type := Add | Sub | Mult | Div | OtherOp (name : string).

#[local] Set Warnings "-register-all".

Inductive expr : Type :=
| EConstant (value : constant)
| ETuple (elts : list expr)
| EList (elts : list expr)
| ESet (elts : list expr)
| EDict (keys : list (option expr)) (values : list expr)
| ECall (func : expr) (args : list expr) (keywords : list (option string * expr))
| EName (id : string)
| EUnaryOp (op : unaryop) (operand : expr)
| EBinOp (left : expr) (op : operator) (right : expr)
| EOther (class : string) (children : list expr).

Record Os : Type := {
  (** [os.listdir(path)] *)
  listdir : string -> result (list string);
  (** [os.path.isfile(path)] *)
  isfile : string -> bool;
  (** [os.path.abspath(path)] *)
  abspath : string -> string;
  (** [shore.util.ast.load_module_members(filename)]: the top-level
      assignments of the file, name to right-hand side. *)
  load_module_members : string -> result (gmap string expr)
}.

(** Truth value of an [Optional[str]]: [None] and [''] are false. *)
Definition truthy (o : option string) : bool :=
  match o with
  | Some s => negb (String.eqb s "")
  | None => false
  end.

(** ** [shut.model.package] *)

Module Package.

Section GetFileInDirectory.
Variables (directory prefix : string) (preferred : list string).

(** The [for ... else] loop of [_get_file_in_directory] over the
    names still to visit, with the [choices] collected so far. *)
Fixpoint scan (names choices : list string) : option string :=
  match names with
  | [] =>
      match choices with
      | c :: _ => Some c
      | [] => None
      end
  | name :: rest =>
      if bool_decide (name ∈ preferred) then
        Some (Posixpath.join directory [name])
      else if PyStr.startswith name prefix then scan rest (choices ++ [name])
      else scan rest choices
  end.

Definition _get_file_in_directory (os : Os) : result (option string) :=
  let* names := listdir os directory in
  Ok (scan (PyStr.sorted names) []).
End GetFileInDirectory.

Record PackageData : Type := {
  name : string;
  modulename : option string;
  readme : option string;
  source_directory : string
}.

(** [str.replace('-', '_')] *)
Fixpoint replace_dash (s : string) : string :=
  match s with
  | EmptyString => EmptyString
  | String c rest =>
      String (if Ascii.eqb c "-"%char then "_"%char else c) (replace_dash rest)
  end.

Definition get_modulename (self : PackageData) : string :=
  match modulename self with
  | Some m => if String.eqb m "" then replace_dash (name self) else m
  | None => replace_dash (name self)
  end.

Record PackageModel : Type := {
  filename : string;
  data : PackageData;
  (** The attribute [self.readme] read by [get_readme]; no field of
      [PackageModel] has that name. *)
  self_readme : result string
}.



End Package.

(** ** [ast.literal_eval], as [Lib/ast.py] of CPython 3.9 and later has it *)

Module LiteralEval.

(** What [literal_eval] returns.  [VSet items] is [set(items)] and
    [VDict items] is [dict(items)]; arithmetic on [float] and [complex]
    operands stays symbolic. *)
Inductive value : Type :=
| VConst (c : constant)
| VTuple (items : list value)
| VList (items : list value)
| VSet (items : list value)
| VDict (items : list (value * value))
| VNeg (v : value)
| VAdd (l r : value)
| VSub (l r : value).

Inductive numkind : Type := KInt | KFloat | KComplex.

(** [type(v)] for the numbers [_convert_signed_num] produces. *)
Fixpoint kind_of (v : value) : option numkind :=
  match v with
  | VConst (CInt _) => Some KInt
  | VConst (CFloat _) => Some KFloat
  | VConst (CComplex _) => Some KComplex
  | VNeg v' => kind_of v'
  | VAdd _ _ | VSub _ _ => Some KComplex
  | _ => None
  end.

(** The type that makes [hash(v)] raise, if any. *)
Fixpoint unhashable_type (v : value) : option string :=
  match v with
  | VList _ => Some "list"
  | VSet _ => Some "set"
  | VDict _ => Some "dict"
  | VTuple items =>
      (fix first (l : list value) : option string :=
         match l with
         | [] => None
         | x :: rest =>
             match unhashable_type x with
             | Some t => Some t
             | None => first rest
             end
         end) items
  | _ => None
  end.

Definition unhashable (t : string) : exn :=
  TypeError ("unhashable type: '" +:+ t +:+ "'").

(** [_raise_malformed_node]; the message goes on with the line and the
    [repr] of the node, which no caller in this repository reads. *)
Definition malformed : exn := ValueError "malformed node or string".

Definition _convert_num (node : expr) : result value :=
  match node with
  | EConstant (CInt n) => Ok (VConst (CInt n))
  | EConstant (CFloat t) => Ok (VConst (CFloat t))
  | EConstant (CComplex t) => Ok (VConst (CComplex t))
  | _ => Raise malformed
  end.

(** [- operand] *)
Definition negate (v : value) : value :=
  match v with
  | VConst (CInt n) => VConst (CInt (- n))
  | _ => VNeg v
  end.

Definition _convert_signed_num (node : expr) : result value :=
  match node with
  | EUnaryOp UAdd operand => _convert_num operand
  | EUnaryOp USub operand =>
      let* v := _convert_num operand in Ok (negate v)
  | _ => _convert_num node
  end.

Definition is_set_call (func : expr) (args : list expr)
    (keywords : list (option string * expr)) : bool :=
  match func, args, keywords with
  | EName id, [], [] => String.eqb id "set"
  | _, _, _ => false
  end.

Definition real_plus_complex (l r : value) : bool :=
  match kind_of l, kind_of r with
  | Some (KInt | KFloat), Some KComplex => true
  | _, _ => false
  end.

(** [tuple(it)] and [list(it)] for an iterator [it] of conversions:
    the items in order, up to the first that raises. *)
Fixpoint collect (it : list (result value)) : result (list value) :=
  match it with
  | [] => Ok []
  | r :: rest =>
      let* v := r in
      let* vs := collect rest in Ok (v :: vs)
  end.

(** [set(it)]: each item is hashed as the iterator delivers it. *)
Fixpoint collect_set (it : list (result value)) : result (list value) :=
  match it with
  | [] => Ok []
  | r :: rest =>
      let* v := r in
      match unhashable_type v with
      | Some t => Raise (unhashable t)
      | None => let* vs := collect_set rest in Ok (v :: vs)
      end
  end.

(** [dict(zip(ks, vs))]: a key, then its value, then the key is
    hashed; [zip] stops at the shorter iterator. *)
Fixpoint collect_dict (ks vs : list (result value))
    : result (list (value * value)) :=
  match ks, vs with
  | k :: ks', v :: vs' =>
      let* kv := k in
      let* vv := v in
      match unhashable_type kv with
      | Some t => Raise (unhashable t)
      | None => let* kvs := collect_dict ks' vs' in Ok ((kv, vv) :: kvs)
      end
  | _, _ => Ok []
  end.

Fixpoint _convert (node : expr) : result value :=
  (* [map(_convert, nodes)] *)
  let map_convert :=
    fix each (nodes : list expr) : list (result value) :=
      match nodes with
      | [] => []
      | e :: rest => _convert e :: each rest
      end in
  (* [map(_convert, node.keys)], where the key of a [**] item is [None] *)
  let map_convert_keys :=
    fix each (nodes : list (option expr)) : list (result value) :=
      match nodes with
      | [] => []
      | Some e :: rest => _convert e :: each rest
      | None :: rest => Raise malformed :: each rest
      end in
  match node with
  | EConstant c => Ok (VConst c)
  | ETuple elts => let* vs := collect (map_convert elts) in Ok (VTuple vs)
  | EList elts => let* vs := collect (map_convert elts) in Ok (VList vs)
  | ESet elts => let* vs := collect_set (map_convert elts) in Ok (VSet vs)
  | ECall func args keywords =>
      if is_set_call func args keywords then Ok (VSet [])
      else _convert_signed_num node
  | EDict keys values =>
      if negb (Nat.eqb (List.length keys) (List.length values)) then Raise malformed
      else
        let* kvs := collect_dict (map_convert_keys keys) (map_convert values) in
        Ok (VDict kvs)
  | EBinOp lhs Add rhs =>
      let* l := _convert_signed_num lhs in
      let* r := _convert_num rhs in
      if real_plus_complex l r then Ok (VAdd l r) else _convert_signed_num node
  | EBinOp lhs Sub rhs =>
      let* l := _convert_signed_num lhs in
      let* r := _convert_num rhs in
      if real_plus_complex l r then Ok (VSub l r) else _convert_signed_num node
  | _ => _convert_signed_num node
  end.

(** [ast.literal_eval(node)] for a node that is no [str] and no
    [ast.Expression]. *)
Definition literal_eval (node : expr) : result value := _convert node.

End LiteralEval.

(** A double quote, for messages. *)
Definition dquote : string := String "034"%char EmptyString.

(** ** [shut.model.package.PythonPackageMetadata] *)

Module Metadata.
Import LiteralEval.

Record PythonPackageMetadata : Type := {
  source_directory : string;
  modulename : string;
  _filename : option string;
  _author : option value;
  _version : option value
}.

(** [PythonPackageMetadata(source_directory, modulename)] *)
Definition init (source_directory modulename : string) : PythonPackageMetadata :=
  {| source_directory := source_directory; modulename := modulename;
     _filename := None; _author := None; _version := None |}.

Definition set_filename (self : PythonPackageMetadata) (f : string)
    : PythonPackageMetadata :=
  {| source_directory := source_directory self; modulename := modulename self;
     _filename := Some f; _author := _author self; _version := _version self |}.

Definition set_metadata (self : PythonPackageMetadata) (author version : option value)
    : PythonPackageMetadata :=
  {| source_directory := source_directory self; modulename := modulename self;
     _filename := _filename self; _author := author; _version := version |}.

(** The three names [filename] tries, before they are joined to the
    source directory. *)
Definition choices (self : PythonPackageMetadata) : list string :=
  let parts := PyStr.split "."%char (modulename self) in
  [ PyStr.last parts +:+ ".py";
    Posixpath.join (PyStr.last parts) ["__version__.py"];
    Posixpath.join (PyStr.last parts) ["__init__.py"] ].

Definition prefix (self : PythonPackageMetadata) : string :=
  PyStr.join "/" (PyStr.init (PyStr.split "."%char (modulename self))).

(** The path a choice stands for. *)
Definition candidate (self : PythonPackageMetadata) (choice : string) : string :=
  Posixpath.join (source_directory self) [prefix self; choice].

(** The [for filename in choices] loop: the first candidate that is a
    file. *)
Fixpoint first_file (os : Os) (self : PythonPackageMetadata) (cs : list string)
    : option string :=
  match cs with
  | [] => None
  | c :: rest =>
      if isfile os (candidate self c) then Some (candidate self c)
      else first_file os self rest
  end.

Definition not_determined (m : string) : exn :=
  ValueError ("Entry file for package " +:+ dquote +:+ m +:+ dquote
              +:+ " could not be determined").

(** [filename] past the cache test. *)
Definition lookup_filename (os : Os) (self : PythonPackageMetadata)
    : PythonPackageMetadata * result string :=
  match first_file os self (choices self) with
  | Some f => (set_filename self f, Ok f)
  | None => (self, Raise (not_determined (modulename self)))
  end.

(** The property [filename]: the object after the call and what the
    call returns. *)
Definition filename (os : Os) (self : PythonPackageMetadata)
    : PythonPackageMetadata * result string :=
  match _filename self with
  | Some f =>
      if truthy (Some f) then (self, Ok f) else lookup_filename os self
  | None => lookup_filename os self
  end.

Definition module_only : exn := ValueError "this package is in module-only form".

(** The property [package_directory]. *)
Definition package_directory (os : Os) (self : PythonPackageMetadata)
    : PythonPackageMetadata * result string :=
  let '(self, r) := filename os self in
  (self,
   let* f := r in
   let '(dirname, basename) := Posixpath.split f in
   if negb (bool_decide (basename ∈ ["__init__.py"; "__version__.py"]))
   then Raise module_only
   else Ok dirname).

Definition non_literal : value := VConst (CStr "<Non-literal expression>").

(** [if key in members: try: x = ast.literal_eval(members[key])
    except ValueError: x = '<Non-literal expression>'], with [x = None]
    before. *)
Definition eval_member (members : gmap string expr) (key : string)
    : result (option value) :=
  match members !! key with
  | None => Ok None
  | Some node =>
      match literal_eval node with
      | Ok v => Ok (Some v)
      | Raise (ValueError _) => Ok (Some non_literal)
      | Raise e => Raise e
      end
  end.

Definition _load_metadata (os : Os) (self : PythonPackageMetadata)
    : PythonPackageMetadata * result unit :=
  let '(self, r) := filename os self in
  match (let* f := r in
         let* members := load_module_members os f in
         let* version := eval_member members "__version__" in
         let* author := eval_member members "__author__" in
         Ok (author, version)) with
  | Ok (author, version) => (set_metadata self author version, Ok tt)
  | Raise e => (self, Raise e)
  end.

End Metadata.

(** ** [shut.commands.pkg.install] *)

Module Install.

Inductive VendoredType : Type := Path | Git.

Section Requirements.
(** [shut.model.version.Version], [VersionSelector] and the registry
    [Requirement] are declared outside these files; [matches] is
    [VersionSelector.matches], [str_version] and [str_selector] are
    [str()] on them. *)
Variables Version VersionSelector Requirement : Type.
Variable matches : VersionSelector -> Version -> bool.
Variable str_version : Version -> string.
Variable str_selector : VersionSelector -> string.

(** An entry of a [RequirementsList]. *)
Inductive entry : Type :=
| Registry (r : Requirement)
| VendoredRequirement (type : VendoredType) (location : string).

(** Modelled from the spec: [RequirementsList.vendored_reqs], declared
    in [shut.model.requirements]: filters to only path/VCS-vendored
    entries, preserving order. *)
Definition vendored_reqs (reqs : list entry) : list entry :=
  List.filter (fun e => match e with
                        | VendoredRequirement _ _ => true
                        | Registry _ => false
                        end) reqs.

(** What [collect_installable_requirements] reads of a package. *)
Record package : Type := {
  name : string;
  version : Version;
  get_directory : string;
  requirements : list entry;
  test_requirements : list entry
}.

Record InterdependencyRef : Type := {
  package_name : string;
  version_selector : VersionSelector
}.

(** The module global [project]: [project.monorepo], the result of
    [project.monorepo.get_inter_dependencies_for] when there is a
    monorepo, and [project.packages]. *)
Record Project : Type := {
  monorepo : option (package -> list InterdependencyRef);
  packages : list package
}.

(** [{p.name: p for p in project.packages}]: a later package replaces
    an earlier one of the same name. *)
Definition project_packages (ps : list package) : gmap string package :=
  fold_left (fun m p => <[name p := p]> m) ps ∅.

Definition skip_note (dep : package) (ref : InterdependencyRef) : string :=
  "note: skipping inter-dependency on package " +:+ dquote +:+ name dep +:+ dquote
  +:+ " because the version selector " +:+ str_selector (version_selector ref)
  +:+ " does not match the present version " +:+ str_version (version dep).

(** The state of the loop: the requirements and the lines written to
    [sys.stderr] so far. *)
Definition loop_state : Type := list entry * list string.

(** One round of [for ref in ...get_inter_dependencies_for(package)]. *)
Definition inter_dep_step (index : gmap string package)
    (st : loop_state) (ref : InterdependencyRef) : result loop_state :=
  let '(reqs, stderr) := st in
  match index !! package_name ref with
  | None => Raise (KeyError (package_name ref))
  | Some dep =>
      if negb (matches (version_selector ref) (version dep)) then
        Ok (reqs, stderr ++ [skip_note dep ref])
      else
        Ok (VendoredRequirement Path (get_directory dep) :: reqs, stderr)
  end.

(** The whole loop; a [KeyError] leaves what was written to
    [sys.stderr] before it. *)
Fixpoint inter_dep_loop (index : gmap string package)
    (refs : list InterdependencyRef) (st : loop_state)
    : list string * result (list entry) :=
  match refs with
  | [] => (snd st, Ok (fst st))
  | ref :: rest =>
      match inter_dep_step index st ref with
      | Ok st' => inter_dep_loop index rest st'
      | Raise e => (snd st, Raise e)
      end
  end.

(** The requirements before the inter-dependencies are looked at. *)
Definition own_requirements (pkg : package) (extra : gset string) : list entry :=
  (if bool_decide ("test" ∈ extra) then test_requirements pkg else [])
  ++ [VendoredRequirement Path (get_directory pkg)]
  ++ vendored_reqs (requirements pkg).

(** [collect_installable_requirements(package, inter_deps, extra)]:
    the lines written to [sys.stderr] and the result. *)
Definition collect_installable_requirements (project : Project)
    (pkg : package) (inter_deps : bool) (extra : gset string)
    : list string * result (list entry) :=
  let reqs := own_requirements pkg extra in
  match monorepo project with
  | Some get_inter_dependencies_for =>
      if inter_deps then
        inter_dep_loop (project_packages (packages project))
          (get_inter_dependencies_for pkg) (reqs, [])
      else ([], Ok reqs)
  | None => ([], Ok reqs)
  end.
End Requirements.

Arguments Registry {Requirement} r.
Arguments VendoredRequirement {Requirement} type location.
Arguments vendored_reqs {Requirement} reqs.
Arguments Build_package {Version Requirement}.
Arguments name {Version Requirement} p.
Arguments version {Version Requirement} p.
Arguments get_directory {Version Requirement} p.
Arguments requirements {Version Requirement} p.
Arguments test_requirements {Version Requirement} p.
Arguments Build_InterdependencyRef {VersionSelector}.
Arguments package_name {VersionSelector} i.
Arguments version_selector {VersionSelector} i.
Arguments Build_Project {Version VersionSelector Requirement}.
Arguments monorepo {Version VersionSelector Requirement} p.
Arguments packages {Version VersionSelector Requirement} p.
Arguments project_packages {Version Requirement} ps.
Arguments skip_note {Version VersionSelector Requirement}.
Arguments inter_dep_step {Version VersionSelector Requirement}.
Arguments inter_dep_loop {Version VersionSelector Requirement}.
Arguments own_requirements {Version Requirement}.
Arguments collect_installable_requirements {Version VersionSelector Requirement}.

End Install.

(** ** Files to render and the file system they are written to *)

Record FileToRender : Type := {
  (** the target path *)
  file_name : string;
  (** the text its rendering function writes *)
  file_content : string
}.

(** The regular files of the file system, path to content. *)
Abbreviation FileSystem := (gmap string string).

(** ** [shut.commands.commons.new], which is not among the sources *)

Module Commons.

Inductive report : Type :=
| Described (path : string)
| Written (path : string)
| Conflict (path : string).

(** Modelled from the spec: the [write] step of the file engine,
    declared in [shut.commands.commons.new] with [write_files]: if
    [dry], produce only a description of the write (path) and perform no
    I/O.  If not dry and the target exists and differs from the rendered
    content and [force] is false, the write is skipped and reported as a
    conflict.  If [force] is true, the target is replaced
    unconditionally. *)
Definition write_file (directory : string) (force dry : bool)
    (file : FileToRender) (fs : FileSystem) : FileSystem * report :=
  let path := Posixpath.join directory [file_name file] in
  if dry then (fs, Described path)
  else
    match fs !! path with
    | Some old =>
        if (negb (String.eqb old (file_content file)) && negb force)%bool
        then (fs, Conflict path)
        else (<[path := file_content file]> fs, Written path)
    | None => (<[path := file_content file]> fs, Written path)
    end.

(** Modelled from the spec: [write_files(files, directory, force, dry)],
    declared in [shut.commands.commons.new]: the [write] step for each
    file in turn. *)
Fixpoint write_files (files : list FileToRender) (directory : string)
    (force dry : bool) (fs : FileSystem) : FileSystem * list report :=
  match files with
  | [] => (fs, [])
  | file :: rest =>
      let '(fs1, r) := write_file directory force dry file fs in
      let '(fs2, rs) := write_files rest directory force dry fs1 in
      (fs2, r :: rs)
  end.

End Commons.

(** ** [shut.commands.pkg.update] *)

Module Update.

Section Commands.
(** [PackageModel], [shut.update.get_files],
    [PackageModel.get_directory] and
    [shut.commands.commons.new.write_files] as the command sees them. *)
Variable PackageModel : Type.
Variable get_files : PackageModel -> list FileToRender.
Variable get_directory : PackageModel -> string.
Variable write_files :
  list FileToRender -> string -> bool -> bool -> FileSystem
  -> FileSystem * list Commons.report.

(** [update_package(package, dry)] *)
Definition update_package (package : PackageModel) (dry : bool)
    (fs : FileSystem) : FileSystem * list Commons.report :=
  let files := get_files package in
  write_files files (get_directory package) true dry fs.

(** The default of [update_package]'s parameter [dry]. *)
Definition update_package_dry_default : bool := false.

(** The command [update(dry)], for the package that
    [project.load_or_exit] loaded: it calls [update_package(package)]. *)
Definition update (dry : bool) (package : PackageModel)
    (fs : FileSystem) : FileSystem * list Commons.report :=
  update_package package update_package_dry_default fs.
End Commands.

Arguments update_package {PackageModel} get_files get_directory write_files package dry fs.
Arguments update {PackageModel} get_files get_directory write_files dry package fs.

End Update.

(** ** [repr] of a [str] *)

Module PyRepr.

Definition hex_digit (n : nat) : ascii :=
  match String.get n "0123456789abcdef" with
  | Some c => c
  | None => "0"%char
  end.

Definition hex_escape (n : nat) : string :=
  "\x" +:+ String (hex_digit (n / 16)) (String (hex_digit (n mod 16)) EmptyString).

(** Code points below 256 that [str.isprintable] rejects. *)
Definition nonprintable (n : nat) : bool :=
  (Nat.ltb n 32 || (Nat.leb 127 n && Nat.leb n 160) || Nat.eqb n 173)%bool.

Definition escape_char (quote c : ascii) : string :=
  let n := nat_of_ascii c in
  if (Ascii.eqb c quote || Ascii.eqb c "\"%char)%bool then String "\"%char (String c EmptyString)
  else if Nat.eqb n 9 then "\t"
  else if Nat.eqb n 10 then "\n"
  else if Nat.eqb n 13 then "\r"
  else if nonprintable n then hex_escape n
  else String c EmptyString.

Fixpoint escape (quote : ascii) (s : string) : string :=
  match s with
  | EmptyString => EmptyString
  | String c rest => escape_char quote c +:+ escape quote rest
  end.

Fixpoint has_char (c : ascii) (s : string) : bool :=
  match s with
  | EmptyString => false
  | String a rest => (Ascii.eqb a c || has_char c rest)%bool
  end.

(** Single quotes, unless the string has one and has no double quote. *)
Definition quote_for (s : string) : ascii :=
  if (has_char "'"%char s && negb (has_char "034"%char s))%bool
  then "034"%char else "'"%char.

Definition repr (s : string) : string :=
  let q := quote_for s in
  String q (escape q s) +:+ String q EmptyString.

End PyRepr.

(** ** [pliz.commands.render] *)

Module Render.

(** What [package.load_entry_file_data()] returns. *)
Record EntryFileData : Type := {
  author : string;
  version : string
}.

(** What the checks read of a package: [load_entry_file_data()],
    [str(package.package.author)] and [package.package.version]. *)
Record Package : Type := {
  load_entry_file_data : result EntryFileData;
  package_author : string;
  package_version : string
}.

Definition inconsistent_author (found declared : string) : string :=
  "Inconsistent package author (" +:+ PyRepr.repr found +:+ " != "
  +:+ PyRepr.repr declared +:+ ")".

Definition inconsistent_version (found declared : string) : string :=
  "Inconsistent package version (" +:+ PyRepr.repr found +:+ " != "
  +:+ PyRepr.repr declared +:+ ")".

(** [list(_get_package_consistency_checks(package))] *)
Definition _get_package_consistency_checks (package : Package)
    : result (list string) :=
  let* data := load_entry_file_data package in
  Ok ((if negb (String.eqb (author data) (package_author package))
       then [inconsistent_author (author data) (package_author package)]
       else [])
      ++
      (if negb (String.eqb (version data) (package_version package))
       then [inconsistent_version (version data) (package_version package)]
       else [])).

Section Execute.
(** [pliz.core.plugins.write_to_disk]: the file system it leaves, and the
    exception it raises, if it raises one. *)
Variable write_to_disk : FileToRender -> FileSystem -> FileSystem * option exn.

(** The loop of [RenderCommand.execute] over the files to render:
    the file system, the lines printed, and the exception that ends the
    loop, if a write raises. *)
Fixpoint render_files (dry : bool) (files : list FileToRender)
    (fs : FileSystem) : FileSystem * list string * option exn :=
  match files with
  | [] => (fs, [], None)
  | file :: rest =>
      let line := "  " +:+ file_name file in
      if negb dry then
        match write_to_disk file fs with
        | (fs1, Some e) => (fs1, [line], Some e)
        | (fs1, None) =>
            let '(fs2, out, e) := render_files dry rest fs1 in
            (fs2, line :: out, e)
        end
      else
        let '(fs2, out, e) := render_files dry rest fs in
        (fs2, line :: out, e)
  end.

(** [RenderCommand.execute] once the plugin has listed its [files]. *)
Definition execute (dry : bool) (files : list FileToRender)
    (fs : FileSystem) : FileSystem * list string * option exn :=
  let '(fs', out, e) := render_files dry files fs in
  (fs', ("Rendering " +:+ pretty (List.length files) +:+ " file(s)") :: out, e).
End Execute.

End Render.

(** * Vocabulary of the properties *)

(** [a <= b] on [str]. *)
Definition le_str (a b : string) : Prop := String.leb a b = true.

(** [name in preferred] and [name.startswith(prefix)], as the loop of
    [_get_file_in_directory] tests them. *)
Definition is_preferred (preferred : list string) (n : string) : bool :=
  bool_decide (n ∈ preferred).

Definition has_prefix (prefix n : string) : bool := PyStr.startswith n prefix.

(** The path requirement that stands for a sibling. *)
Definition sibling {Version Requirement : Type}
    (dep : Install.package Version Requirement) : Install.entry Requirement :=
  Install.VendoredRequirement Install.Path (Install.get_directory dep).

(** [sub in s], decided. *)
Fixpoint containsb (s sub : string) : bool :=
  (String.prefix sub s ||
   match s with
   | EmptyString => false
   | String _ rest => containsb rest sub
   end)%bool.

(** The warning about the version, by its opening words. *)
Definition is_version_warning (w : string) : bool :=
  PyStr.startswith w "Inconsistent package version (".

(** Characters that [repr] writes as they are inside single quotes. *)
Definition plain_char (c : ascii) : bool :=
  negb (Ascii.eqb c "'"%char || Ascii.eqb c "\"%char
        || PyRepr.nonprintable (nat_of_ascii c)).

Fixpoint plain (s : string) : bool :=
  match s with
  | EmptyString => true
  | String c rest => plain_char c && plain rest
  end.

(** Numbers as [literal_eval] reads them: a constant [int], [float] or
    [complex], with a sign in front if any. *)
Definition is_number (e : expr) : bool :=
  match e with
  | EConstant (CInt _ | CFloat _ | CComplex _) => true
  | _ => false
  end.

Definition is_signed_number (e : expr) : bool :=
  match e with
  | EUnaryOp (UAdd | USub) operand => is_number operand
  | _ => is_number e
  end.

(** Expressions made of the literal structures only: constants, tuples,
    lists, sets and dicts of them, [set()], signed numbers, and a signed
    number plus or minus a number. *)
Fixpoint only_literals (node : expr) : bool :=
  match node with
  | EConstant _ => true
  | ETuple elts | EList elts | ESet elts => forallb only_literals elts
  | EDict keys values =>
      forallb (fun k => match k with
                        | Some e => only_literals e
                        | None => false
                        end) keys
      && forallb only_literals values
  | ECall func args keywords => LiteralEval.is_set_call func args keywords
  | EUnaryOp _ _ => is_signed_number node
  | EBinOp lhs (Add | Sub) rhs => is_signed_number lhs && is_number rhs
  | _ => false
  end.

(** [_convert] on a key of a dict node. *)
Definition convert_key (k : option expr) : result LiteralEval.value :=
  match k with
  | Some e => LiteralEval._convert e
  | None => Raise LiteralEval.malformed
  end.

(** Induction on expressions, with the hypothesis for every node of a
    child list. *)
Section ExprInduction.
Variable P : expr -> Prop.

Definition P_key (k : option expr) : Prop :=
  match k with
  | Some e => P e
  | None => True
  end.

Hypothesis HConstant : forall c, P (EConstant c).
Hypothesis HTuple : forall elts, List.Forall P elts -> P (ETuple elts).
Hypothesis HList : forall elts, List.Forall P elts -> P (EList elts).
Hypothesis HSet : forall elts, List.Forall P elts -> P (ESet elts).
Hypothesis HDict : forall keys values,
  List.Forall P_key keys -> List.Forall P values -> P (EDict keys values).
Hypothesis HCall : forall func args keywords,
  P func -> List.Forall P args -> List.Forall (fun kw => P (snd kw)) keywords ->
  P (ECall func args keywords).
Hypothesis HName : forall id, P (EName id).
Hypothesis HUnaryOp : forall op operand, P operand -> P (EUnaryOp op operand).
Hypothesis HBinOp : forall lhs op rhs, P lhs -> P rhs -> P (EBinOp lhs op rhs).
Hypothesis HOther : forall class children, List.Forall P children -> P (EOther class children).

Fixpoint expr_nested_ind (e : expr) : P e :=
  let all :=
    fix all (l : list expr) : List.Forall P l :=
      match l with
      | [] => @List.Forall_nil _ P
      | x :: rest => @List.Forall_cons _ P x rest (expr_nested_ind x) (all rest)
      end in
  match e with
  | EConstant c => HConstant c
  | ETuple elts => HTuple elts (all elts)
  | EList elts => HList elts (all elts)
  | ESet elts => HSet elts (all elts)
  | EDict keys values =>
      HDict keys values
        ((fix all_keys (l : list (option expr)) : List.Forall P_key l :=
            match l with
            | [] => @List.Forall_nil _ P_key
            | Some x :: rest =>
                @List.Forall_cons _ P_key (Some x) rest (expr_nested_ind x) (all_keys rest)
            | None :: rest => @List.Forall_cons _ P_key None rest I (all_keys rest)
            end) keys)
        (all values)
  | ECall func args keywords =>
      HCall func args keywords (expr_nested_ind func) (all args)
        ((fix all_kw (l : list (option string * expr))
            : List.Forall (fun kw => P (snd kw)) l :=
            match l with
            | [] => @List.Forall_nil _ (fun kw => P (snd kw))
            | kw :: rest =>
                @List.Forall_cons _ (fun kw => P (snd kw)) kw rest
                  (expr_nested_ind (snd kw)) (all_kw rest)
            end) keywords)
  | EName id => HName id
  | EUnaryOp op operand => HUnaryOp op operand (expr_nested_ind operand)
  | EBinOp lhs op rhs => HBinOp lhs op rhs (expr_nested_ind lhs) (expr_nested_ind rhs)
  | EOther class children => HOther class children (all children)
  end.
End ExprInduction.

(** * Vocabulary of the further properties *)

Section InterDependencyVocabulary.
Context {Version VersionSelector Requirement : Type}.
Variable matches : VersionSelector -> Version -> bool.
Variable str_version : Version -> string.
Variable str_selector : VersionSelector -> string.
Variable index : gmap string (Install.package Version Requirement).

(** The siblings whose version the references admit, in the order of the
    references. *)
Fixpoint admitted (refs : list (Install.InterdependencyRef VersionSelector))
    : list (Install.entry Requirement) :=
  match refs with
  | [] => []
  | r :: rest =>
      match index !! Install.package_name r with
      | Some dep =>
          if matches (Install.version_selector r) (Install.version dep)
          then sibling dep :: admitted rest
          else admitted rest
      | None => admitted rest
      end
  end.

(** The notes for the references whose sibling has another version, in
    the order of the references. *)
Fixpoint skipped (refs : list (Install.InterdependencyRef VersionSelector))
    : list string :=
  match refs with
  | [] => []
  | r :: rest =>
      match index !! Install.package_name r with
      | Some dep =>
          if matches (Install.version_selector r) (Install.version dep)
          then skipped rest
          else Install.skip_note str_version str_selector dep r :: skipped rest
      | None => skipped rest
      end
  end.
End InterDependencyVocabulary.

(** A path requirement, of any location. *)
Definition is_path {Requirement : Type} (e : Install.entry Requirement) : bool :=
  match e with
  | Install.VendoredRequirement Install.Path _ => true
  | _ => false
  end.

(** ** [shut.model.package]: the accessors the claims leave out *)

Module MetadataAccess.
Import LiteralEval Metadata.

(** [PackageModel.get_python_package_metadata] *)
Definition get_python_package_metadata (self : Package.PackageModel)
    : PythonPackageMetadata :=
  Metadata.init
    (Posixpath.join (Posixpath.dirname (Package.filename self))
       [Package.source_directory (Package.data self)])
    (Package.get_modulename (Package.data self)).

Section Truth.
(** [bool(x)] for [x] a [float] or a [complex], which the values keep
    symbolic. *)
Variable nonzero : value -> bool.

(** [bool(v)] *)
Fixpoint truthy_value (v : value) : bool :=
  match v with
  | VConst CNone => false
  | VConst CEllipsis => true
  | VConst (CBool b) => b
  | VConst (CInt n) => negb (Z.eqb n 0)
  | VConst (CFloat _) | VConst (CComplex _) => nonzero v
  | VConst (CStr s) | VConst (CBytes s) => negb (String.eqb s "")
  | VTuple items | VList items | VSet items =>
      match items with
      | [] => false
      | _ :: _ => true
      end
  | VDict items =>
      match items with
      | [] => false
      | _ :: _ => true
      end
  | VNeg v' => truthy_value v'
  | VAdd _ _ | VSub _ _ => nonzero v
  end.

(** [bool(x)] for a stored field, [None] when nothing is stored. *)
Definition truthy_field (x : option value) : bool :=
  match x with
  | Some v => truthy_value v
  | None => false
  end.

(** The property [author]. *)
Definition author (os : Os) (self : PythonPackageMetadata)
    : PythonPackageMetadata * result (option value) :=
  if negb (truthy_field (_author self)) then
    let '(self', r) := _load_metadata os self in
    (self', let* _ := r in Ok (_author self'))
  else (self, Ok (_author self)).

(** The property [version]. *)
Definition version (os : Os) (self : PythonPackageMetadata)
    : PythonPackageMetadata * result (option value) :=
  if negb (truthy_field (_version self)) then
    let '(self', r) := _load_metadata os self in
    (self', let* _ := r in Ok (_version self'))
  else (self, Ok (_version self)).
End Truth.

End MetadataAccess.

(** ** More [str] methods *)

Module PyStrMore.

(** [c.lower()] for one character below 256 *)
Definition lower_char (c : ascii) : ascii :=
  let n := nat_of_ascii c in
  if ((Nat.leb 65 n && Nat.leb n 90)
      || (Nat.leb 192 n && Nat.leb n 222 && negb (Nat.eqb n 215)))%bool
  then ascii_of_nat (n + 32) else c.

(** [s.lower()] *)
Fixpoint lower (s : string) : string :=
  match s with
  | EmptyString => EmptyString
  | String c rest => String (lower_char c) (lower rest)
  end.

(** [c.isspace()] for one character below 256 *)
Definition isspace (c : ascii) : bool :=
  let n := nat_of_ascii c in
  ((Nat.leb 9 n && Nat.leb n 13) || (Nat.leb 28 n && Nat.leb n 32)
   || Nat.eqb n 133 || Nat.eqb n 160)%bool.

(** [s.lstrip()] *)
Fixpoint lstrip (s : string) : string :=
  match s with
  | EmptyString => EmptyString
  | String c rest => if isspace c then lstrip rest else s
  end.

(** [s.rstrip()] *)
Fixpoint rstrip (s : string) : string :=
  match s with
  | EmptyString => EmptyString
  | String c rest =>
      match rstrip rest with
      | EmptyString => if isspace c then EmptyString else String c EmptyString
      | r => String c r
      end
  end.

(** [s.strip()] *)
Definition strip (s : string) : string := rstrip (lstrip s).

(** [s[n:]] *)
Fixpoint drop (n : nat) (s : string) : string :=
  match n, s with
  | O, _ => s
  | S n', String _ rest => drop n' rest
  | S _, EmptyString => EmptyString
  end.

(** [s.partition(sep)[::2]] for a one-character separator *)
Fixpoint partition (sep : ascii) (s : string) : string * string :=
  match s with
  | EmptyString => (EmptyString, EmptyString)
  | String c rest =>
      if Ascii.eqb c sep then (EmptyString, rest)
      else let '(head, tail) := partition sep rest in (String c head, tail)
  end.

End PyStrMore.

(** ** [pliz.commands.render]: the warnings and the renderer options *)

Module RenderMore.

Section Warnings.
(** [termcolor.colored(text, attrs=['bold'])] *)
Variable bold : string -> string.

(** What [_get_package_warnings] reads of a package beyond what the
    consistency checks read: whether [package.package.author],
    [.license] and [.url] are true as conditions. *)
Record WarnedPackage : Type := {
  checked : Render.Package;
  has_author : bool;
  has_license : bool;
  has_url : bool
}.

(** The warnings for the fields that are not set. *)
Definition missing_fields (package : WarnedPackage) : list string :=
  (if negb (has_author package) then ["missing " +:+ bold "$.package.author"] else [])
  ++ (if negb (has_license package) then ["missing " +:+ bold "$.package.license"] else [])
  ++ (if negb (has_url package) then ["missing " +:+ bold "$.package.url"] else []).

(** The generator [_get_package_warnings(package)]: what it yields, and
    the exception that ends it, if one does. *)
Definition _get_package_warnings (package : WarnedPackage)
    : list string * option exn :=
  match Render._get_package_consistency_checks (checked package) with
  | Ok checks => (missing_fields package ++ checks, None)
  | Raise e => (missing_fields package, Some e)
  end.
End Warnings.

(** What [handle_unknown_args] ends with: the configuration it hands to
    the plugin, [parser.error(msg)], which prints and exits, or the
    [OverflowError] of [int(float('inf'))]. *)
Inductive outcome (A : Type) : Type :=
| Done (a : A)
| ParserError (msg : string)
| Overflow.

Arguments Done {A} a.
Arguments ParserError {A} msg.
Arguments Overflow {A}.

(** What [for f in (float, int): try: v = f(v) except ValueError: pass]
    leaves in [v]: the string itself, an [int], a [float] (for a NaN), or
    nothing when [int] raises [OverflowError]. *)
Inductive coerced : Type :=
| Unchanged
| AsInt (n : Z)
| AsFloat (token : string)
| Overflows.

Section Options.
(** The values that the options have by default. *)
Variable Default : Type.
(** The two conversions of the standard library, as above. *)
Variable coerce : string -> coerced.
(** [len(plugin_cls.options)] *)
Variable plugin_options_len : nat.

Inductive optvalue : Type :=
| OBool (b : bool)
| OStr (s : string)
| OInt (n : Z)
| OFloat (token : string)
| ODefault (d : Default).

Record PluginOption : Type := {
  name : string;
  required : bool;
  get_default : Default
}.

(** [{o.name: o.get_default() for o in options if not o.required}] *)
Definition defaults (options : list PluginOption) : gmap string optvalue :=
  fold_left (fun m o => if negb (required o)
                        then <[name o := ODefault (get_default o)]> m else m)
    options ∅.

Definition true_words : list string := ["true"; "yes"; "1"; "y"; "on"; "enabled"].
Definition false_words : list string := ["false"; "no"; "0"; "n"; "off"; "disabled"].

(** The conversion of an option's text [v]. *)
Definition convert (v : string) : outcome optvalue :=
  let word := PyStrMore.strip (PyStrMore.lower v) in
  if bool_decide (word ∈ true_words) then Done (OBool true)
  else if bool_decide (word ∈ false_words) then Done (OBool false)
  else match coerce v with
       | Unchanged => Done (OStr v)
       | AsInt n => Done (OInt n)
       | AsFloat t => Done (OFloat t)
       | Overflows => Overflow
       end.

(** The variables of the [while True] loop. *)
Record state : Type := {
  queue : list string;
  it : list string;
  config : gmap string optvalue;
  pos_args : list string
}.

(** How a round ends: [break], the next round, [parser.error(msg)], or
    the [OverflowError]. *)
Inductive round : Type :=
| Break
| Continue (st : state)
| Error (msg : string)
| Overflowed.

(** [item = queue.pop(0) if queue else next(it, None)] *)
Definition next_item (st : state) : option string * list string * list string :=
  match queue st with
  | q :: qs => (Some q, qs, it st)
  | [] =>
      match it st with
      | x :: xs => (Some x, [], xs)
      | [] => (None, [], [])
      end
  end.

(** One round of the loop. *)
Definition step (st : state) : round :=
  let '(item, queue1, it1) := next_item st in
  match item with
  | None => Break
  | Some item =>
      if negb (PyStr.startswith item "--") then
        if bool_decide (config st = ∅) then
          Continue {| queue := queue1; it := it1; config := config st;
                      pos_args := pos_args st ++ [item] |}
        else Error ("unexpected argument " +:+ PyRepr.repr item)
      else
        let '(k, v, queue2, it2) :=
          if PyRepr.has_char "="%char item then
            let '(k, v) := PyStrMore.partition "="%char (PyStrMore.drop 2 item) in
            (k, v, queue1, it1)
          else
            match it1 with
            | x :: xs =>
                if PyStr.startswith x "--"
                then (PyStrMore.drop 2 item, "true", queue1 ++ [x], xs)
                else (PyStrMore.drop 2 item, x, queue1, xs)
            | [] => (PyStrMore.drop 2 item, "true", queue1, [])
            end in
        match convert v with
        | Done value =>
            Continue {| queue := queue2; it := it2; config := <[k := value]> (config st);
                        pos_args := pos_args st |}
        | ParserError msg => Error msg
        | Overflow => Overflowed
        end
  end.

(** The loop, for at most [fuel] rounds. *)
Fixpoint loop (fuel : nat) (st : state) : option (outcome state) :=
  match fuel with
  | O => None
  | S fuel' =>
      match step st with
      | Break => Some (Done st)
      | Continue st' => loop fuel' st'
      | Error msg => Some (ParserError msg)
      | Overflowed => Some Overflow
      end
  end.

(** [for option, value in zip(options, pos_args)] *)
Fixpoint assign_positional (options : list PluginOption) (values : list string)
    (cfg : gmap string optvalue) : outcome (gmap string optvalue) :=
  match options, values with
  | option :: options', value :: values' =>
      match cfg !! name option with
      | Some _ =>
          ParserError ("duplicate argument value for option " +:+ dquote
                       +:+ name option +:+ dquote)
      | None => assign_positional options' values' (<[name option := OStr value]> cfg)
      end
  | _, _ => Done cfg
  end.

(** What follows the loop. *)
Definition finish (options : list PluginOption) (st : state)
    : outcome (gmap string optvalue) :=
  if Nat.ltb (List.length options) (List.length (pos_args st)) then
    ParserError ("expected at max " +:+ pretty plugin_options_len
                 +:+ " positional arguments, got " +:+ pretty (List.length (pos_args st)))
  else assign_positional options (pos_args st) (config st).

(** [handle_unknown_args], for the options of the plugin and the
    arguments [argv]: the configuration the plugin is made with.  [None]
    when the rounds allowed do not suffice. *)
Definition handle_unknown_args (options : list PluginOption) (argv : list string)
    : option (outcome (gmap string optvalue)) :=
  match loop (2 * List.length argv + 1)
          {| queue := []; it := argv; config := defaults options; pos_args := [] |} with
  | Some (Done st) => Some (finish options st)
  | Some (ParserError msg) => Some (ParserError msg)
  | Some Overflow => Some Overflow
  | None => None
  end.
End Options.

Arguments OBool {Default} b.
Arguments OStr {Default} s.
Arguments OInt {Default} n.
Arguments OFloat {Default} token.
Arguments ODefault {Default} d.
Arguments name {Default} p.
Arguments required {Default} p.
Arguments get_default {Default} p.
Arguments Build_PluginOption {Default}.
Arguments defaults {Default} options.
Arguments convert {Default} coerce v.
Arguments queue {Default} s.
Arguments it {Default} s.
Arguments config {Default} s.
Arguments pos_args {Default} s.
Arguments Build_state {Default}.
Arguments next_item {Default} st.
Arguments step {Default} coerce st.
Arguments loop {Default} coerce fuel st.
Arguments assign_positional {Default} options values cfg.
Arguments finish {Default} plugin_options_len options st.
Arguments handle_unknown_args {Default} coerce plugin_options_len options argv.

End RenderMore.

(** ** Vocabulary for the renderer options *)

Section ParseDirect.
Import RenderMore.
Variable Default : Type.
Variable coerce : string -> coerced.

(** The arguments read from left to right, without a queue: an option
    written [--k] takes the next argument as its value unless that one is
    an option itself. *)
Fixpoint parse_direct (argv : list string) (cfg : gmap string (optvalue Default))
    (pos : list string) : outcome (gmap string (optvalue Default) * list string) :=
  match argv with
  | [] => Done (cfg, pos)
  | item :: rest =>
      if negb (PyStr.startswith item "--") then
        if bool_decide (cfg = ∅) then parse_direct rest cfg (pos ++ [item])
        else ParserError ("unexpected argument " +:+ PyRepr.repr item)
      else if PyRepr.has_char "="%char item then
        let '(k, v) := PyStrMore.partition "="%char (PyStrMore.drop 2 item) in
        match convert coerce v with
        | Done value => parse_direct rest (<[k := value]> cfg) pos
        | ParserError msg => ParserError msg
        | Overflow => Overflow
        end
      else
        match rest with
        | x :: xs =>
            if PyStr.startswith x "--" then
              match convert coerce "true" with
              | Done value => parse_direct rest (<[PyStrMore.drop 2 item := value]> cfg) pos
              | ParserError msg => ParserError msg
              | Overflow => Overflow
              end
            else
              match convert coerce x with
              | Done value => parse_direct xs (<[PyStrMore.drop 2 item := value]> cfg) pos
              | ParserError msg => ParserError msg
              | Overflow => Overflow
              end
        | [] =>
            match convert coerce "true" with
            | Done value => Done (<[PyStrMore.drop 2 item := value]> cfg, pos)
            | ParserError msg => ParserError msg
            | Overflow => Overflow
            end
        end
  end.

(** The state the loop ends in for what the direct reading returns. *)
Definition final_state (o : outcome (gmap string (optvalue Default) * list string))
    : outcome (state Default) :=
  match o with
  | Done (cfg, pos) => Done {| queue := []; it := []; config := cfg; pos_args := pos |}
  | ParserError msg => ParserError msg
  | Overflow => Overflow
  end.

(** An option and its value, written [--k=v]. *)
Definition option_arg (kv : string * string) : string :=
  "--" +:+ fst kv +:+ "=" +:+ snd kv.

(** The options set one after the other, a later one over an earlier
    one of the same name. *)
Fixpoint set_options (kvs : list (string * string)) (cfg : gmap string (optvalue Default))
    : outcome (gmap string (optvalue Default)) :=
  match kvs with
  | [] => Done cfg
  | (k, v) :: rest =>
      match convert coerce v with
      | Done value => set_options rest (<[k := value]> cfg)
      | ParserError msg => ParserError msg
      | Overflow => Overflow
      end
  end.
End ParseDirect.

Arguments parse_direct {Default} coerce argv cfg pos.
Arguments final_state {Default} o.
Arguments set_options {Default} coerce kvs cfg.

(** ** [shore.__main__]: the files of a new package *)

Module ShoreNew.

(** [s.replace(a, b)] for single characters *)
Fixpoint replace_char (a b : ascii) (s : string) : string :=
  match s with
  | EmptyString => EmptyString
  | String c rest => String (if Ascii.eqb c a then b else c) (replace_char a b rest)
  end.

(** [new_comps[-1] == '..'] *)
Definition last_is_dotdot (comps : list string) : bool :=
  match List.rev comps with
  | c :: _ => String.eqb c ".."
  | [] => false
  end.

(** The loop of [posixpath.normpath] over the components. *)
Fixpoint norm_comps (initial_slashes : nat) (comps new_comps : list string)
    : list string :=
  match comps with
  | [] => new_comps
  | comp :: rest =>
      if (String.eqb comp "" || String.eqb comp ".")%bool then
        norm_comps initial_slashes rest new_comps
      else if (negb (String.eqb comp "..")
               || (Nat.eqb initial_slashes 0
                   && match new_comps with [] => true | _ :: _ => false end)
               || last_is_dotdot new_comps)%bool then
        norm_comps initial_slashes rest (new_comps ++ [comp])
      else
        match new_comps with
        | [] => norm_comps initial_slashes rest new_comps
        | _ :: _ => norm_comps initial_slashes rest (removelast new_comps)
        end
  end.

(** ['/' * n] *)
Fixpoint slashes (n : nat) : string :=
  match n with
  | O => EmptyString
  | S n' => String "/"%char (slashes n')
  end.

(** [os.path.normpath(path)] *)
Definition normpath (path : string) : string :=
  if String.eqb path "" then "."
  else
    let initial_slashes :=
      if PyStr.startswith path "/" then
        if (PyStr.startswith path "//" && negb (PyStr.startswith path "///"))%bool
        then 2 else 1
      else 0 in
    let comps := norm_comps initial_slashes (PyStr.split "/"%char path) [] in
    let joined := slashes initial_slashes +:+ PyStr.join "/" comps in
    if String.eqb joined "" then "." else joined.

(** What [_render_namespace_file] writes. *)
Definition namespace_source : string :=
  "__path__ = __import__('pkgutil').extend_path(__path__, __name__)" +:+ String "010"%char "".

(** The second loop of [_get_files], [for item in args.name.split('.')[:-1]],
    over the items left, with the [parts] appended so far. *)
Fixpoint namespace_loop (directory : string) (items parts : list string)
    : list FileToRender :=
  match items with
  | [] => []
  | item :: rest =>
      let parts' := parts ++ [item] in
      {| file_name := normpath (Posixpath.join directory ("src" :: parts' ++ ["__init__.py"]));
         file_content := namespace_source |}
      :: namespace_loop directory rest parts'
  end.

Section New.
(** [walk_package_resources('shore', 'templates/new')], the
    [jinja2.Template(s).render(name=...)] of a file name and the rendered
    content of a template file, which its callback writes when it returns *)
Variable templates : list string.
Variable render_name : string -> string -> string.
Variable render_file : string -> string.
(** [shore.core.plugins.write_to_disk], which opens the file and calls
    its callback: the file system it leaves, and the exception that it or
    the callback raises, if one is raised. *)
Variable write_to_disk : FileToRender -> FileSystem -> FileSystem * option exn.

(** [args.directory] after [if not args.directory: args.directory = args.name] *)
Definition directory_of (directory : option string) (name : string) : string :=
  if truthy directory then default name directory else name.

(** The files of the generator [_get_files], in the order [_new] receives
    them.  [_new] writes each file before the generator goes on, so each
    callback reads the [source_filename] of its own round. *)
Definition _get_files (directory name : string) : list FileToRender :=
  List.map (fun source_filename =>
              {| file_name :=
                   normpath (Posixpath.join directory
                               [render_name source_filename
                                  (replace_char "."%char "/"%char name)]);
                 file_content := render_file ("templates/new/" +:+ source_filename) |})
    templates
  ++ namespace_loop directory (PyStr.init (PyStr.split "."%char name)) [].

(** The loop [for file in _get_files()] of [_new]: the file system, the
    lines printed, and the exception that ends the loop, if a write
    raises. *)
Fixpoint new_loop (files : list FileToRender) (fs : FileSystem)
    : FileSystem * list string * option exn :=
  match files with
  | [] => (fs, [], None)
  | file :: rest =>
      match write_to_disk file fs with
      | (fs1, Some e) => (fs1, [file_name file], Some e)
      | (fs1, None) =>
          let '(fs2, out, e) := new_loop rest fs1 in
          (fs2, file_name file :: out, e)
      end
  end.

(** [_new] *)
Definition _new (directory : option string) (name : string) (fs : FileSystem)
    : FileSystem * list string * option exn :=
  new_loop (_get_files (directory_of directory name) name) fs.
End New.

End ShoreNew.

(** The number of times a character occurs. *)
Fixpoint count_char (c : ascii) (s : string) : nat :=
  match s with
  | EmptyString => 0
  | String a rest => (if Ascii.eqb a c then 1 else 0) + count_char c rest
  end.

(** ** Writes that return *)

Section Writes.
Variable write_to_disk : FileToRender -> FileSystem -> FileSystem * option exn.

(** The file system after the files have been written one after the
    other. *)
Definition written (files : list FileToRender) (fs : FileSystem) : FileSystem :=
  fold_left (fun fs file => fst (write_to_disk file fs)) files fs.

(** No write of the files raises, when they are written one after the
    other. *)
Definition all_written (files : list FileToRender) (fs : FileSystem) : Prop :=
  forall before file after,
    files = before ++ file :: after ->
    snd (write_to_disk file (written before fs)) = None.
End Writes.

(** * Example inputs *)

(** The right-hand side [({[]}, f())]. *)
Definition unhashable_then_call : expr :=
  ETuple [ESet [EList []]; ECall (EName "f") [] []].

(** A module [pkg.py] under [src] with [__version__ = ({[]}, f())]. *)
Definition example_os_unhashable : Os := {|
  listdir := fun d => Raise (OSError d);
  isfile := fun p => String.eqb p "src/pkg.py";
  abspath := fun p => p;
  load_module_members := fun _ => Ok {["__version__" := unhashable_then_call]}
|}.

(** An operating system with one package directory, [pkg]. *)
Definition example_os : Os := {|
  listdir := fun d =>
    if String.eqb d "pkg" then Ok ["setup.py"; "README.txt"; "README.md"; "LICENSE.rst"]
    else if String.eqb d "bare" then Ok ["setup.py"; "README.html"; "README.adoc"]
    else Raise (OSError d);
  isfile := fun p => String.eqb p "pkg/src/pkg/__init__.py";
  abspath := fun p => p;
  load_module_members := fun _ => Ok ∅
|}.

(** A source directory [src] where the module [a.b] is the one file
    [a.b.py], and one where it is the package [a/b]. *)
Definition example_os_dotted : Os := {|
  listdir := fun d => Raise (OSError d);
  isfile := fun p => String.eqb p "src/a.b.py";
  abspath := fun p => p;
  load_module_members := fun _ => Ok ∅
|}.

Definition example_os_nested : Os := {|
  listdir := fun d => Raise (OSError d);
  isfile := fun p => (String.eqb p "src/a/b/__version__.py"
                      || String.eqb p "src/a/b/__init__.py")%bool;
  abspath := fun p => p;
  load_module_members := fun _ => Ok ∅
|}.




(** A monorepo with the packages [a], [b] and [c]. *)

(** A selector that is a prefix of the versions it admits. *)
Definition prefix_selector (selector version : string) : bool :=
  String.prefix selector version.

Definition pkg_a : Install.package string string :=
  Install.Build_package "a" "0.3.0" "repo/a"
    [Install.Registry "requests"; Install.VendoredRequirement Install.Git "git+https://example.org/x.git"]
    [Install.Registry "pytest"].

Definition pkg_b : Install.package string string :=
  Install.Build_package "b" "2.0.0" "repo/b" [] [].

Definition pkg_c : Install.package string string :=
  Install.Build_package "c" "1.2.0" "repo/c" [] [].

Definition ref_b : Install.InterdependencyRef string := Install.Build_InterdependencyRef "b" "1.".
Definition ref_c : Install.InterdependencyRef string := Install.Build_InterdependencyRef "c" "1.".
Definition ref_unknown : Install.InterdependencyRef string :=
  Install.Build_InterdependencyRef "zzz" "1.".

(** [a] depends on [c] and on [b]; [c] has a version that matches, [b]
    has not. *)
Definition example_project : Install.Project string string string :=
  Install.Build_Project (Some (fun _ => [ref_c; ref_b])) [pkg_a; pkg_b; pkg_c].


(** [a] depends on [c] and on a package the monorepo has not. *)
Definition example_project_unknown : Install.Project string string string :=
  Install.Build_Project (Some (fun _ => [ref_c; ref_unknown])) [pkg_a; pkg_b; pkg_c].

(** A package whose only generated file is [setup.py]. *)
Definition example_files (_ : unit) : list FileToRender :=
  [{| file_name := "setup.py"; file_content := "import setuptools" |}].

(** The versions of the spec's scenario. *)
Definition example_mismatch : Render.Package := {|
  Render.load_entry_file_data := Ok {| Render.author := "A"; Render.version := "1.0.1" |};
  Render.package_author := "A";
  Render.package_version := "1.0.0"
|}.

(** A source file with [__version__ = '1\\0']: the three characters [1],
    backslash, [0]. *)
Definition example_escaped : Render.Package := {|
  Render.load_entry_file_data := Ok {| Render.author := "A"; Render.version := "1\0" |};
  Render.package_author := "A";
  Render.package_version := "1.0"
|}.

(** [a] depends on [b], on [c] and on [c] again with another selector;
    the monorepo has two packages named [c]. *)
Definition pkg_c_old : Install.package string string :=
  Install.Build_package "c" "0.9.0" "repo/c-old" [] [].

Definition ref_c_exact : Install.InterdependencyRef string :=
  Install.Build_InterdependencyRef "c" "1.2".

Definition example_project_twice : Install.Project string string string :=
  Install.Build_Project (Some (fun _ => [ref_b; ref_c; ref_c_exact]))
    [pkg_a; pkg_c_old; pkg_b; pkg_c].

(** [a] depends on [b], on a package the monorepo has not, and on [c]. *)
Definition example_project_unknown_middle : Install.Project string string string :=
  Install.Build_Project (Some (fun _ => [ref_b; ref_unknown; ref_c])) [pkg_a; pkg_b; pkg_c].

(** A package file [pkg/package.yaml] for the module [my_pkg], and an
    operating system where [pkg/src/my_pkg.py] assigns a version and calls
    a function for the author. *)
Definition example_model : Package.PackageModel := {|
  Package.filename := "pkg/package.yaml";
  Package.data := {| Package.name := "my-pkg"; Package.modulename := None;
                     Package.readme := None; Package.source_directory := "src" |};
  Package.self_readme := Raise (AttributeError "readme")
|}.

Definition example_os_module : Os := {|
  listdir := fun d => Raise (OSError d);
  isfile := fun p => String.eqb p "pkg/src/my_pkg.py";
  abspath := fun p => p;
  load_module_members := fun _ =>
    Ok {["__version__" := EConstant (CStr "1.0.1");
         "__author__" := ECall (EName "get_author") [] []]}
|}.

(** An operating system without any file. *)
Definition example_os_empty : Os := {|
  listdir := fun d => Raise (OSError d);
  isfile := fun _ => false;
  abspath := fun p => p;
  load_module_members := fun f => Raise (OSError f)
|}.

(** The same module, with an author that cannot be hashed. *)
Definition example_os_bad_author : Os := {|
  listdir := fun d => Raise (OSError d);
  isfile := fun p => String.eqb p "pkg/src/my_pkg.py";
  abspath := fun p => p;
  load_module_members := fun _ =>
    Ok {["__version__" := EConstant (CStr "1.0.1");
         "__author__" := ESet [EList []]]}
|}.

(** The module [my_pkg] with a computed version and no author. *)
Definition example_os_computed : Os := {|
  listdir := fun d => Raise (OSError d);
  isfile := fun p => String.eqb p "pkg/src/my_pkg.py";
  abspath := fun p => p;
  load_module_members := fun _ =>
    Ok {["__version__" := EBinOp (EName "base") Add (EConstant (CStr ".dev"))]}
|}.

(** The module [my_pkg] with a literal version and a literal author. *)
Definition example_os_literal : Os := {|
  listdir := fun d => Raise (OSError d);
  isfile := fun p => String.eqb p "pkg/src/my_pkg.py";
  abspath := fun p => p;
  load_module_members := fun _ =>
    Ok {["__version__" := EConstant (CStr "1.0.1");
         "__author__" := EConstant (CStr "Ada")]}
|}.

(** The module [my_pkg] with an author and no version. *)
Definition example_os_no_version : Os := {|
  listdir := fun d => Raise (OSError d);
  isfile := fun p => String.eqb p "pkg/src/my_pkg.py";
  abspath := fun p => p;
  load_module_members := fun _ => Ok {["__author__" := EConstant (CStr "Ada")]}
|}.

(** A plugin with an optional option [debug] and a required option
    [name], one with required options only, and a standard library that
    converts the text [7] only. *)
Definition example_options : list (RenderMore.PluginOption string) :=
  [RenderMore.Build_PluginOption "debug" false "off";
   RenderMore.Build_PluginOption "name" true ""].

Definition example_required_options : list (RenderMore.PluginOption string) :=
  [RenderMore.Build_PluginOption "name" true "";
   RenderMore.Build_PluginOption "license" true ""].

Definition example_coerce (v : string) : RenderMore.coerced :=
  if String.eqb v "7" then RenderMore.AsInt 7 else RenderMore.Unchanged.

(** [shore new a.b.c pkg] with two templates *)
Definition example_templates : list string := ["setup.py"; "src/{{name}}/__init__.py"].
Definition example_render_name (template name : string) : string :=
  if String.eqb template "src/{{name}}/__init__.py" then "src/" +:+ name +:+ "/__init__.py"
  else template.

(** * Properties *)

(** ** Strings and paths *)

Example split_module : PyStr.split "."%char "a.b" = ["a"; "b"].
Proof. reflexivity. Qed.

Example split_empty : PyStr.split "."%char "" = [""].
Proof. reflexivity. Qed.

Example join_three : Posixpath.join "src" [""; "pkg.py"] = "src/pkg.py".
Proof. reflexivity. Qed.

Example join_absolute : Posixpath.join "src" ["a"; "/b.py"] = "/b.py".
Proof. reflexivity. Qed.

Example split_path : Posixpath.split "src/pkg/__init__.py" = ("src/pkg", "__init__.py").
Proof. reflexivity. Qed.

Example split_root : Posixpath.split "//x" = ("//", "x").
Proof. reflexivity. Qed.

Example sorted_names :
  PyStr.sorted ["b"; "README.md"; "a"; "LICENSE"] = ["LICENSE"; "README.md"; "a"; "b"].
Proof. reflexivity. Qed.

Section StringOrder.

Lemma ascii_compare_lt_trans (a b c : ascii) :
  Ascii.compare a b = Lt -> Ascii.compare b c = Lt -> Ascii.compare a c = Lt.
Proof.
  unfold Ascii.compare. rewrite !N.compare_lt_iff. apply N.lt_trans.
Qed.

Lemma string_compare_not_gt_trans (s1 : string) :
  forall s2 s3,
    String.compare s1 s2 <> Gt -> String.compare s2 s3 <> Gt ->
    String.compare s1 s3 <> Gt.
Proof.
  induction s1 as [|a s1 IH]; intros [|b s2] [|c s3]; simpl; try congruence.
  destruct (Ascii.compare a b) eqn:Hab; try congruence.
  - apply Ascii.compare_eq_iff in Hab. subst b.
    destruct (Ascii.compare a c) eqn:Hac; try congruence. apply IH.
  - destruct (Ascii.compare b c) eqn:Hbc; try congruence.
    + apply Ascii.compare_eq_iff in Hbc. subst c. rewrite Hab. congruence.
    + rewrite (ascii_compare_lt_trans _ _ _ Hab Hbc). congruence.
Qed.

Lemma leb_not_gt (s1 s2 : string) :
  String.leb s1 s2 = true <-> String.compare s1 s2 <> Gt.
Proof. unfold String.leb. destruct (String.compare s1 s2); split; congruence. Qed.

Lemma leb_trans (s1 s2 s3 : string) :
  String.leb s1 s2 = true -> String.leb s2 s3 = true -> String.leb s1 s3 = true.
Proof. rewrite !leb_not_gt. apply string_compare_not_gt_trans. Qed.

Lemma leb_refl (s : string) : String.leb s s = true.
Proof. destruct (String.leb_total s s); assumption. Qed.

End StringOrder.

Section Sorted.

Lemma insert_sorted_perm (x : string) (l : list string) :
  Permutation (x :: l) (PyStr.insert_sorted x l).
Proof.
  induction l as [|y l IH]; simpl; [reflexivity|].
  destruct (String.leb x y); [reflexivity|].
  rewrite perm_swap. now apply perm_skip.
Qed.

Lemma sorted_perm (l : list string) : Permutation l (PyStr.sorted l).
Proof.
  induction l as [|x l IH]; simpl; [constructor|].
  rewrite <- insert_sorted_perm. now apply perm_skip.
Qed.

Lemma sorted_In (l : list string) (x : string) : In x (PyStr.sorted l) <-> In x l.
Proof.
  split; apply Permutation_in; [symmetry|]; apply sorted_perm.
Qed.

Lemma insert_sorted_sorted (x : string) (l : list string) :
  StronglySorted le_str l -> StronglySorted le_str (PyStr.insert_sorted x l).
Proof.
  induction 1 as [|y l Hs IH Hy]; simpl.
  - repeat constructor.
  - destruct (String.leb x y) eqn:Hxy.
    + constructor; [now constructor|].
      constructor; [exact Hxy|].
      eapply List.Forall_impl; [|exact Hy].
      intros z Hz. exact (leb_trans _ _ _ Hxy Hz).
    + constructor; [exact IH|].
      assert (Hyx : le_str y x).
      { destruct (String.leb_total x y) as [H|H]; [congruence|exact H]. }
      eapply Permutation_Forall; [apply insert_sorted_perm|].
      now constructor.
Qed.

Lemma sorted_sorted (l : list string) : StronglySorted le_str (PyStr.sorted l).
Proof.
  induction l as [|x l IH]; simpl; [constructor|].
  now apply insert_sorted_sorted.
Qed.

End Sorted.

(** ** [_get_file_in_directory] *)

Section GetFileInDirectoryFacts.
Import Package.

Variables (directory prefix : string).

Lemma is_preferred_In (preferred : list string) (n : string) :
  is_preferred preferred n = true <-> In n preferred.
Proof.
  unfold is_preferred. rewrite bool_decide_eq_true. apply list_elem_of_In.
Qed.

Lemma is_preferred_not_In (preferred : list string) (n : string) :
  is_preferred preferred n = false <-> ~ In n preferred.
Proof.
  unfold is_preferred. rewrite bool_decide_eq_false, list_elem_of_In. reflexivity.
Qed.

(** The loop, read as a search: the first preferred name wins, whatever
    was collected before it; without one, the first collected name. *)
Lemma scan_find (preferred names choices : list string) :
  scan directory prefix preferred names choices =
  match List.find (is_preferred preferred) names with
  | Some n => Some (Posixpath.join directory [n])
  | None => head (choices ++ List.filter (has_prefix prefix) names)
  end.
Proof.
  revert choices. induction names as [|name rest IH]; intros choices; simpl.
  - rewrite app_nil_r. now destruct choices.
  - unfold is_preferred at 1. destruct (bool_decide (name ∈ preferred)); [reflexivity|].
    unfold has_prefix at 1. destruct (PyStr.startswith name prefix).
    + rewrite IH. now rewrite <- app_assoc.
    + apply IH.
Qed.

Lemma head_filter_find (p : string -> bool) (l : list string) :
  head (List.filter p l) = List.find p l.
Proof.
  induction l as [|x l IH]; simpl; [reflexivity|]. now destruct (p x).
Qed.

(** In a sorted list, [find] returns the least name that passes. *)
Lemma find_sorted_least (p : string -> bool) (l : list string) (n : string) :
  StronglySorted le_str l -> List.find p l = Some n ->
  In n l /\ p n = true /\ forall m, In m l -> p m = true -> le_str n m.
Proof.
  induction 1 as [|x l Hs IH Hx]; simpl; [discriminate|].
  destruct (p x) eqn:Hpx; intros Hfind.
  - injection Hfind as <-. repeat split; [now left|exact Hpx|].
    intros m [<-|Hm] _; [apply leb_refl|].
    rewrite List.Forall_forall in Hx. now apply Hx.
  - destruct (IH Hfind) as (Hin & Hpn & Hleast).
    repeat split; [now right|exact Hpn|].
    intros m [<-|Hm] Hpm; [congruence|now apply Hleast].
Qed.

Lemma find_some_of_In (p : string -> bool) (l : list string) (n : string) :
  In n l -> p n = true -> exists m, List.find p l = Some m.
Proof.
  intros Hin Hp. destruct (List.find p l) as [m|] eqn:Hfind; [now exists m|].
  pose proof (List.find_none _ _ Hfind _ Hin). congruence.
Qed.

Lemma find_none_of_all (p : string -> bool) (l : list string) :
  (forall n, In n l -> p n = false) -> List.find p l = None.
Proof.
  intros Hall. destruct (List.find p l) as [m|] eqn:Hfind; [|reflexivity].
  apply List.find_some in Hfind as [Hin Hp]. rewrite (Hall _ Hin) in Hp. discriminate.
Qed.

(** A preferred name of the listing: the least of them, joined to the
    directory. *)
Lemma get_file_preferred (os : Os) (preferred listing : list string) :
  listdir os directory = Ok listing ->
  (exists n, In n listing /\ In n preferred) ->
  exists n, In n listing /\ In n preferred /\
    (forall m, In m listing -> In m preferred -> le_str n m) /\
    _get_file_in_directory directory prefix preferred os
      = Ok (Some (Posixpath.join directory [n])).
Proof.
  intros Hls (n0 & Hin0 & Hpref0). unfold _get_file_in_directory. rewrite Hls. simpl.
  rewrite scan_find.
  destruct (find_some_of_In (is_preferred preferred) (PyStr.sorted listing) n0)
    as [n Hfind].
  { now apply sorted_In. }
  { now apply is_preferred_In. }
  rewrite Hfind.
  destruct (find_sorted_least _ _ _ (sorted_sorted listing) Hfind) as (Hin & Hp & Hleast).
  exists n. repeat split.
  - now apply sorted_In.
  - now apply is_preferred_In.
  - intros m Hm Hpm. apply Hleast; [now apply sorted_In|now apply is_preferred_In].
Qed.

(** No preferred name in the listing: the least name with the prefix,
    as the listing has it, or [None]. *)
Lemma get_file_fallback (os : Os) (preferred listing : list string) :
  listdir os directory = Ok listing ->
  (forall n, In n listing -> ~ In n preferred) ->
  ((exists n, In n listing /\ (has_prefix prefix) n = true) ->
     exists n, In n listing /\ (has_prefix prefix) n = true /\
       (forall m, In m listing -> (has_prefix prefix) m = true -> le_str n m) /\
       _get_file_in_directory directory prefix preferred os = Ok (Some n)) /\
  ((forall n, In n listing -> (has_prefix prefix) n = false) ->
     _get_file_in_directory directory prefix preferred os = Ok None).
Proof.
  intros Hls Hnone. unfold _get_file_in_directory. rewrite Hls. simpl.
  rewrite scan_find.
  rewrite (find_none_of_all (is_preferred preferred)).
  2:{ intros n Hn. apply is_preferred_not_In, Hnone. now apply sorted_In. }
  simpl. rewrite head_filter_find. split.
  - intros (n0 & Hin0 & Hp0).
    destruct (find_some_of_In (has_prefix prefix) (PyStr.sorted listing) n0) as [n Hfind];
      [now apply sorted_In|exact Hp0|].
    destruct (find_sorted_least _ _ _ (sorted_sorted listing) Hfind)
      as (Hin & Hp & Hleast).
    exists n. rewrite Hfind. repeat split; [now apply sorted_In|exact Hp|].
    intros m Hm Hpm. apply Hleast; [now apply sorted_In|exact Hpm].
  - intros Hall. rewrite find_none_of_all; [reflexivity|].
    intros n Hn. apply Hall. now apply sorted_In.
Qed.

(** Only membership in the preferred list is read, not positions. *)
Lemma get_file_preferred_order (os : Os) (preferred preferred' : list string) :
  (forall n, In n preferred <-> In n preferred') ->
  _get_file_in_directory directory prefix preferred' os
    = _get_file_in_directory directory prefix preferred os.
Proof.
  intros Hsame. unfold _get_file_in_directory.
  destruct (listdir os directory) as [names|e]; [simpl|reflexivity].
  f_equal. rewrite !scan_find.
  assert (Hext : forall l, List.find (is_preferred preferred') l
                           = List.find (is_preferred preferred) l).
  { induction l as [|x l IH]; simpl; [reflexivity|].
    assert (is_preferred preferred' x = is_preferred preferred x) as ->.
    { destruct (is_preferred preferred x) eqn:H.
      - apply is_preferred_In, Hsame, is_preferred_In, H.
      - apply is_preferred_not_In. intros H'.
        apply is_preferred_not_In in H. apply H, Hsame, H'. }
    now rewrite IH. }
  now rewrite Hext.
Qed.

End GetFileInDirectoryFacts.

(** C8: [_get_file_in_directory] walks the sorted listing and returns at
    the first name that is in the preferred list, wherever that name stands
    in the preferred list: the result is the least preferred name of the
    listing, joined to the directory, and the same for every preferred list
    with the same members.  Only when the listing has no preferred name is
    the result the least name that starts with the prefix, and [None] when
    there is none. *)
Theorem get_file_in_directory_first_preferred
    (os : Os) (directory prefix : string) (preferred listing : list string) :
  listdir os directory = Ok listing ->
  ((exists n, In n listing /\ In n preferred) ->
     exists n, In n listing /\ In n preferred /\
       (forall m, In m listing -> In m preferred -> String.leb n m = true) /\
       Package._get_file_in_directory directory prefix preferred os
         = Ok (Some (Posixpath.join directory [n]))) /\
  (forall preferred', (forall n, In n preferred <-> In n preferred') ->
     Package._get_file_in_directory directory prefix preferred' os
       = Package._get_file_in_directory directory prefix preferred os) /\
  ((forall n, In n listing -> ~ In n preferred) ->
     (exists n, In n listing /\ PyStr.startswith n prefix = true) ->
     exists n, In n listing /\ PyStr.startswith n prefix = true /\
       (forall m, In m listing -> PyStr.startswith m prefix = true ->
                  String.leb n m = true) /\
       Package._get_file_in_directory directory prefix preferred os = Ok (Some n)) /\
  ((forall n, In n listing -> ~ In n preferred) ->
     (forall n, In n listing -> PyStr.startswith n prefix = false) ->
     Package._get_file_in_directory directory prefix preferred os = Ok None).
Proof.
  intros Hls. split; [|split; [|split]].
  - apply get_file_preferred, Hls.
  - intros preferred'. apply get_file_preferred_order.
  - intros Hnone. apply (get_file_fallback directory prefix os preferred listing Hls Hnone).
  - intros Hnone. apply (get_file_fallback directory prefix os preferred listing Hls Hnone).
Qed.

(** In [pkg], [README.md] sorts before [README.txt] and is returned,
    although it is not the first preferred name in every order. *)
Lemma get_file_in_directory_first_preferred_witness :
  listdir example_os "pkg" = Ok ["setup.py"; "README.txt"; "README.md"; "LICENSE.rst"] /\
  Package._get_file_in_directory "pkg" "README." ["README.txt"; "README.md"] example_os
    = Ok (Some "pkg/README.md").
Proof.
  split; [reflexivity|].
  destruct (get_file_in_directory_first_preferred example_os "pkg" "README."
              ["README.md"; "README.txt"]
              ["setup.py"; "README.txt"; "README.md"; "LICENSE.rst"] eq_refl)
    as (_ & Horder & _).
  rewrite (Horder ["README.txt"; "README.md"]).
  - reflexivity.
  - intros n. simpl. tauto.
Defined.







(** ** [PythonPackageMetadata] *)

Section PathFacts.

Lemma append_cons (x : ascii) (a b : string) :
  String x a +:+ b = String x (a +:+ b).
Proof. reflexivity. Qed.

Lemma append_nil (b : string) : "" +:+ b = b.
Proof. reflexivity. Qed.

Lemma append_assoc (a b c : string) : (a +:+ b) +:+ c = a +:+ b +:+ c.
Proof.
  induction a as [|x a IH]; [reflexivity|].
  rewrite !append_cons. now rewrite IH.
Qed.

Lemma append_empty_r (a : string) : a +:+ "" = a.
Proof.
  induction a as [|x a IH]; [reflexivity|].
  rewrite append_cons. now rewrite IH.
Qed.

Lemma contains_middle (pre s post : string) : PyStr.contains (pre +:+ s +:+ post) s.
Proof. now exists pre, post. Qed.

Lemma ends_with_char_append (c : ascii) (a : string) :
  PyStr.ends_with_char c (a +:+ String c "") = true.
Proof.
  induction a as [|x a IH]; [apply Ascii.eqb_refl|].
  rewrite append_cons. simpl.
  destruct (a +:+ String c "") eqn:E; [|exact IH].
  destruct a; discriminate.
Qed.

(** An empty component between two others changes nothing. *)
Lemma join_empty_middle (a c : string) :
  Posixpath.join a [""; c] = Posixpath.join a [c].
Proof.
  unfold Posixpath.join. simpl. unfold Posixpath.join_step at 2. simpl.
  destruct (String.eqb a "") eqn:Ha; simpl.
  - apply String.eqb_eq in Ha. subst a. reflexivity.
  - destruct (PyStr.ends_with_char Posixpath.sep a) eqn:Hend.
    + now rewrite append_empty_r.
    + unfold Posixpath.join_step. rewrite Ha, Hend. simpl.
      destruct (PyStr.startswith c "/"); [reflexivity|].
      change (a +:+ "/" +:+ "") with (a +:+ String Posixpath.sep "").
      rewrite ends_with_char_append.
      destruct (String.eqb (a +:+ String Posixpath.sep "") ""); simpl.
      all: now rewrite append_assoc.
Qed.

(** A name without the separator is one part. *)
Lemma split_no_sep (sep : ascii) (s : string) :
  PyRepr.has_char sep s = false -> PyStr.split sep s = [s].
Proof.
  induction s as [|c s IH]; simpl; [reflexivity|].
  rewrite Ascii.eqb_sym. destruct (Ascii.eqb sep c) eqn:E; simpl; [discriminate|].
  intros H. now rewrite (IH H).
Qed.

End PathFacts.

Section MetadataFacts.
Import Metadata.

Variable os : Os.

Lemma filename_uncached (self : PythonPackageMetadata) :
  truthy (_filename self) = false ->
  filename os self = lookup_filename os self.
Proof.
  unfold filename. destruct (_filename self) as [f|]; [|reflexivity].
  now intros ->.
Qed.

(** Once a file name is stored, [filename] returns it without looking at
    the file system. *)
Lemma filename_cached (self : PythonPackageMetadata) (f : string) :
  _filename self = Some f -> truthy (Some f) = true ->
  filename os self = (self, Ok f).
Proof. intros Hf Ht. unfold filename. now rewrite Hf, Ht. Qed.

Lemma first_file_three (self : PythonPackageMetadata) (a b c : string) :
  first_file os self [a; b; c] =
  if isfile os (candidate self a) then Some (candidate self a)
  else if isfile os (candidate self b) then Some (candidate self b)
  else if isfile os (candidate self c) then Some (candidate self c)
  else None.
Proof. reflexivity. Qed.

End MetadataFacts.

(** C6, amended: on an object that has no entry file stored, the lookup
    splits the module name at its dots, takes the leading parts as
    directories [dir] and the last part as [stem], and tries
    [dir/stem.py], then [dir/stem/__version__.py], then
    [dir/stem/__init__.py] under the source directory, in that order.  It
    returns the first that is a file, and raises the [ValueError] that
    carries the module name (the spec's [EntryFileNotFoundError]) if and
    only if none of the three is a file.  For a module name without dots,
    and only then in general, the three paths are [{modulename}.py],
    [{modulename}/__version__.py] and [{modulename}/__init__.py]. *)
Theorem entry_file_lookup_order (os : Os) (self : Metadata.PythonPackageMetadata) :
  truthy (Metadata._filename self) = false ->
  let m := Metadata.modulename self in
  let src := Metadata.source_directory self in
  let stem := PyStr.last (PyStr.split "."%char m) in
  let dir := PyStr.join "/" (PyStr.init (PyStr.split "."%char m)) in
  let c1 := Posixpath.join src [dir; stem +:+ ".py"] in
  let c2 := Posixpath.join src [dir; Posixpath.join stem ["__version__.py"]] in
  let c3 := Posixpath.join src [dir; Posixpath.join stem ["__init__.py"]] in
  let returned := snd (Metadata.filename os self) in
  (isfile os c1 = true -> returned = Ok c1) /\
  (isfile os c1 = false -> isfile os c2 = true -> returned = Ok c2) /\
  (isfile os c1 = false -> isfile os c2 = false -> isfile os c3 = true ->
     returned = Ok c3) /\
  ((isfile os c1 = false /\ isfile os c2 = false /\ isfile os c3 = false) <->
     returned = Raise (Metadata.not_determined m)) /\
  ((exists e, returned = Raise e) <->
     (isfile os c1 = false /\ isfile os c2 = false /\ isfile os c3 = false)) /\
  (forall msg, Metadata.not_determined m = ValueError msg -> PyStr.contains msg m) /\
  (PyRepr.has_char "."%char m = false ->
     c1 = Posixpath.join src [m +:+ ".py"] /\
     c2 = Posixpath.join src [Posixpath.join m ["__version__.py"]] /\
     c3 = Posixpath.join src [Posixpath.join m ["__init__.py"]]).
Proof.
  intros Hcache m src stem dir c1 c2 c3 returned.
  assert (Hret : returned =
            if isfile os c1 then Ok c1
            else if isfile os c2 then Ok c2
            else if isfile os c3 then Ok c3
            else Raise (Metadata.not_determined m)).
  { unfold returned. rewrite (filename_uncached os self Hcache).
    unfold Metadata.lookup_filename, Metadata.choices.
    rewrite first_file_three. unfold Metadata.candidate, Metadata.prefix.
    fold m src stem dir c1 c2 c3.
    destruct (isfile os c1); [reflexivity|].
    destruct (isfile os c2); [reflexivity|].
    destruct (isfile os c3); reflexivity. }
  rewrite Hret. clear Hret.
  split; [|split; [|split; [|split; [|split; [|split]]]]].
  - destruct (isfile os c1); intros; congruence.
  - destruct (isfile os c1), (isfile os c2); intros; congruence.
  - destruct (isfile os c1), (isfile os c2), (isfile os c3); intros; congruence.
  - destruct (isfile os c1), (isfile os c2), (isfile os c3);
      (split; [intros (? & ? & ?)|intros ?; repeat split]; congruence).
  - destruct (isfile os c1), (isfile os c2), (isfile os c3);
      (split; [intros [e He]; repeat split|intros (? & ? & ?)]);
      try congruence; now eexists.
  - intros msg Hmsg. injection Hmsg as <-.
    rewrite <- append_assoc. apply contains_middle.
  - intros Hdots. unfold c1, c2, c3, dir, stem.
    rewrite (split_no_sep _ _ Hdots).
    change (PyStr.last [m]) with m.
    change (PyStr.join "/" (PyStr.init [m])) with "".
    now rewrite !join_empty_middle.
Qed.

(** The package [pkg] of [example_os] has only an [__init__.py]; the
    module [a.b] of [example_os_nested] is the package [a/b] with a
    [__version__.py]. *)
Lemma entry_file_lookup_order_witness :
  truthy (Metadata._filename (Metadata.init "pkg/src" "pkg")) = false /\
  snd (Metadata.filename example_os (Metadata.init "pkg/src" "pkg"))
    = Ok "pkg/src/pkg/__init__.py" /\
  snd (Metadata.filename example_os_nested (Metadata.init "src" "a.b"))
    = Ok "src/a/b/__version__.py".
Proof.
  split; [reflexivity|]. split.
  - destruct (entry_file_lookup_order example_os (Metadata.init "pkg/src" "pkg") eq_refl)
      as (_ & _ & Hthird & _).
    apply Hthird; reflexivity.
  - destruct (entry_file_lookup_order example_os_nested (Metadata.init "src" "a.b") eq_refl)
      as (_ & Hsecond & _).
    apply Hsecond; reflexivity.
Defined.

(** C6, as stated, fails for a module name with a dot: for the module
    [a.b] the file [src/a.b.py], which is [{modulename}.py], exists, no
    entry file is stored, and the lookup raises; it has looked for
    [src/a/b.py], [src/a/b/__version__.py] and [src/a/b/__init__.py]. *)
Lemma entry_file_dotted_counterexample :
  truthy (Metadata._filename (Metadata.init "src" "a.b")) = false /\
  isfile example_os_dotted (Posixpath.join "src" ["a.b" +:+ ".py"]) = true /\
  List.map (Metadata.candidate (Metadata.init "src" "a.b"))
    (Metadata.choices (Metadata.init "src" "a.b"))
  = ["src/a/b.py"; "src/a/b/__version__.py"; "src/a/b/__init__.py"] /\
  snd (Metadata.filename example_os_dotted (Metadata.init "src" "a.b"))
    = Raise (Metadata.not_determined "a.b").
Proof. repeat split; reflexivity. Qed.

(** C9: for a metadata object whose entry file is found, the
    [package_directory] accessor raises a [ValueError] exactly when the
    base name of the entry file is neither [__init__.py] nor
    [__version__.py], and otherwise returns the directory part of the entry
    file. *)
Theorem package_directory_module_only
    (os : Os) (self : Metadata.PythonPackageMetadata) (f : string) :
  snd (Metadata.filename os self) = Ok f ->
  let basename := snd (Posixpath.split f) in
  let returned := snd (Metadata.package_directory os self) in
  ((exists msg, returned = Raise (ValueError msg)) <->
     (basename <> "__init__.py" /\ basename <> "__version__.py")) /\
  ((exists e, returned = Raise e) <->
     (basename <> "__init__.py" /\ basename <> "__version__.py")) /\
  ((basename = "__init__.py" \/ basename = "__version__.py") ->
     returned = Ok (Posixpath.dirname f)).
Proof.
  intros Hf basename returned.
  assert (Hret : returned =
            if bool_decide (basename ∈ ["__init__.py"; "__version__.py"])
            then Ok (Posixpath.dirname f) else Raise Metadata.module_only).
  { unfold returned, Metadata.package_directory.
    destruct (Metadata.filename os self) as [self' r]. simpl in Hf. subst r. simpl.
    unfold basename, Posixpath.dirname.
    destruct (Posixpath.split f) as [d b]. simpl.
    now destruct (bool_decide (b ∈ ["__init__.py"; "__version__.py"])). }
  rewrite Hret. clear Hret.
  assert (Hin : basename ∈ ["__init__.py"; "__version__.py"] <->
                (basename = "__init__.py" \/ basename = "__version__.py")).
  { rewrite !elem_of_cons, elem_of_nil. tauto. }
  destruct (bool_decide_reflect (basename ∈ ["__init__.py"; "__version__.py"]))
    as [Hyes|Hno].
  - apply Hin in Hyes. split; [|split].
    + split; [intros [msg H]; discriminate|tauto].
    + split; [intros [e H]; discriminate|tauto].
    + reflexivity.
  - rewrite Hin in Hno. split; [|split].
    + split; [tauto|]. intros _. now eexists.
    + split; [tauto|]. intros _. now eexists.
    + tauto.
Qed.

(** The entry file [pkg/src/pkg/__init__.py] lies in the package directory
    [pkg/src/pkg]. *)
Lemma package_directory_module_only_witness :
  snd (Metadata.filename example_os (Metadata.init "pkg/src" "pkg"))
    = Ok "pkg/src/pkg/__init__.py" /\
  snd (Metadata.package_directory example_os (Metadata.init "pkg/src" "pkg"))
    = Ok "pkg/src/pkg".
Proof.
  split; [reflexivity|].
  destruct (package_directory_module_only example_os (Metadata.init "pkg/src" "pkg")
              "pkg/src/pkg/__init__.py" eq_refl) as (_ & _ & Hdir).
  apply Hdir. now left.
Defined.

(** ** [collect_installable_requirements] *)

Section InstallFacts.
Import Install.

Context {Version VersionSelector Requirement : Type}.
Variable matches : VersionSelector -> Version -> bool.
Variable str_version : Version -> string.
Variable str_selector : VersionSelector -> string.

Abbreviation package := (package Version Requirement).
Abbreviation ref := (InterdependencyRef VersionSelector).
Abbreviation entry := (entry Requirement).
Abbreviation step := (inter_dep_step matches str_version str_selector).
Abbreviation loop := (inter_dep_loop matches str_version str_selector).
Abbreviation note := (skip_note str_version str_selector).

Variable index : gmap string package.

Lemma step_matching (reqs : list entry) (stderr : list string) (r : ref) (dep : package) :
  index !! package_name r = Some dep ->
  matches (version_selector r) (version dep) = true ->
  step index (reqs, stderr) r = Ok (sibling dep :: reqs, stderr).
Proof. intros Hdep Hm. unfold inter_dep_step. now rewrite Hdep, Hm. Qed.

Lemma step_mismatching (reqs : list entry) (stderr : list string) (r : ref) (dep : package) :
  index !! package_name r = Some dep ->
  matches (version_selector r) (version dep) = false ->
  step index (reqs, stderr) r = Ok (reqs, stderr ++ [note dep r]).
Proof. intros Hdep Hm. unfold inter_dep_step. now rewrite Hdep, Hm. Qed.

Lemma step_absent (st : loop_state Requirement) (r : ref) :
  index !! package_name r = None ->
  step index st r = Raise (KeyError (package_name r)).
Proof. intros Hdep. destruct st. unfold inter_dep_step. now rewrite Hdep. Qed.

(** A round either fails, or keeps the requirements and what was
    written, adding at the front of the one or at the end of the other. *)
Lemma step_cases (reqs : list entry) (stderr : list string) (r : ref) :
  (index !! package_name r = None /\
     step index (reqs, stderr) r = Raise (KeyError (package_name r))) \/
  (exists dep, index !! package_name r = Some dep /\
     matches (version_selector r) (version dep) = true /\
     step index (reqs, stderr) r = Ok (sibling dep :: reqs, stderr)) \/
  (exists dep, index !! package_name r = Some dep /\
     matches (version_selector r) (version dep) = false /\
     step index (reqs, stderr) r = Ok (reqs, stderr ++ [note dep r])).
Proof.
  destruct (index !! package_name r) as [dep|] eqn:Hdep.
  - destruct (matches (version_selector r) (version dep)) eqn:Hm.
    + right; left. exists dep. auto using step_matching.
    + right; right. exists dep. auto using step_mismatching.
  - left. split; [reflexivity|]. now apply step_absent.
Qed.


(** The loop over two lists, one after the other. *)
Lemma loop_app (refs1 refs2 : list ref) :
  forall st : loop_state Requirement,
    loop index (refs1 ++ refs2) st =
    match loop index refs1 st with
    | (stderr, Ok reqs) => loop index refs2 (reqs, stderr)
    | (stderr, Raise e) => (stderr, Raise e)
    end.
Proof.
  induction refs1 as [|r refs1 IH]; intros [reqs stderr].
  - reflexivity.
  - cbn [inter_dep_loop app].
    destruct (step index (reqs, stderr) r) as [st'|e]; [apply IH|reflexivity].
Qed.

(** When every reference names an indexed package the loop returns,
    with sibling paths in front of the requirements it started from. *)
Lemma loop_total (refs : list ref) :
  (forall r, In r refs -> is_Some (index !! package_name r)) ->
  forall (reqs : list entry) (stderr : list string),
  exists out pre,
    loop index refs (reqs, stderr) = (out, Ok (pre ++ reqs)) /\
    (forall r dep, In r refs -> index !! package_name r = Some dep ->
       matches (version_selector r) (version dep) = true -> In (sibling dep) pre).
Proof.
  induction refs as [|r refs IH]; intros Hall reqs stderr.
  - exists stderr, []. split; [reflexivity|]. intros r dep [].
  - cbn [inter_dep_loop].
    assert (Hrest : forall r', In r' refs -> is_Some (index !! package_name r'))
      by (intros r' Hr'; apply Hall; now right).
    destruct (step_cases reqs stderr r) as [[Hn _]|[(dep & Hd & Hm & H)|(dep & Hd & Hm & H)]].
    + destruct (Hall r (or_introl eq_refl)) as [dep Hd]. congruence.
    + rewrite H. destruct (IH Hrest (sibling dep :: reqs) stderr) as (out & pre & Hl & Hin).
      exists out, (pre ++ [sibling dep]). split.
      * rewrite Hl. now rewrite <- app_assoc.
      * intros r' dep' [<-|Hr'] Hd' Hm'.
        -- rewrite Hd in Hd'. injection Hd' as <-. apply in_or_app. right. now left.
        -- apply in_or_app. left. eauto.
    + rewrite H. destruct (IH Hrest reqs (stderr ++ [note dep r])) as (out & pre & Hl & Hin).
      exists out, pre. split; [exact Hl|].
      intros r' dep' [<-|Hr'] Hd' Hm'; [congruence|eauto].
Qed.

(** The first reference that names no indexed package stops the loop. *)
Lemma loop_first_absent (refs1 refs2 : list ref) (r : ref) :
  (forall r', In r' refs1 -> is_Some (index !! package_name r')) ->
  index !! package_name r = None ->
  forall st, exists out,
    loop index (refs1 ++ r :: refs2) st = (out, Raise (KeyError (package_name r))).
Proof.
  intros Hall Hnone [reqs stderr]. rewrite loop_app.
  destruct (loop_total refs1 Hall reqs stderr) as (out & pre & Hl & _).
  rewrite Hl. cbn [inter_dep_loop]. rewrite step_absent by exact Hnone.
  now exists out.
Qed.

Lemma first_absent_split (refs : list ref) (r : ref) :
  In r refs -> index !! package_name r = None ->
  exists refs1 r' refs2,
    refs = refs1 ++ r' :: refs2 /\
    (forall x, In x refs1 -> is_Some (index !! package_name x)) /\
    index !! package_name r' = None.
Proof.
  induction refs as [|x refs IH]; intros Hin Hnone; [destruct Hin|].
  destruct (index !! package_name x) as [dep|] eqn:Hx.
  - destruct Hin as [->|Hin]; [congruence|].
    destruct (IH Hin Hnone) as (refs1 & r' & refs2 & -> & Hall & Hr').
    exists (x :: refs1), r', refs2. repeat split; [|exact Hr'].
    intros y [<-|Hy]; [now rewrite Hx|now apply Hall].
  - exists [], x, refs. repeat split; [|exact Hx]. intros y [].
Qed.

End InstallFacts.

Section InstallClaims.
Import Install.

Context {Version VersionSelector Requirement : Type}.
Variable matches : VersionSelector -> Version -> bool.
Variable str_version : Version -> string.
Variable str_selector : VersionSelector -> string.

Abbreviation collect :=
  (collect_installable_requirements matches str_version str_selector).

(** The index has a name exactly when some package of the project has
    it. *)
Lemma project_packages_lookup_None
    (ps : list (package Version Requirement)) (n : string) :
  project_packages ps !! n = None <-> ~ In n (List.map name ps).
Proof.
  unfold project_packages.
  assert (H : forall m : gmap string (package Version Requirement),
             fold_left (fun m p => <[name p := p]> m) ps m !! n = None <->
             m !! n = None /\ ~ In n (List.map name ps)).
  { induction ps as [|p ps IH]; intros m; simpl; [tauto|].
    rewrite IH, lookup_insert_None. intuition congruence. }
  rewrite H, lookup_empty. tauto.
Qed.

(** Without a monorepo, or with [inter_deps] off, no reference is looked
    up and the package's own requirements are returned. *)
Lemma collect_without_inter_deps
    (project : Project Version VersionSelector Requirement)
    (pkg : package Version Requirement) (extra : gset string) :
  collect project pkg false extra = ([], Ok (own_requirements pkg extra)).
Proof.
  unfold collect_installable_requirements. now destruct (monorepo project).
Qed.

(** C2: when a dependency reference of the package names a package that
    is absent from the name-to-package index, resolution of the
    inter-dependencies fails: the lookup of the first such reference
    raises a [KeyError] (the spec's [UnknownSiblingError]) that carries the
    name no package of the project has; no requirement list is returned. *)
Theorem unknown_sibling_reported
    (project : Project Version VersionSelector Requirement)
    (pkg : package Version Requirement) (extra : gset string)
    (get_inter_dependencies_for :
       package Version Requirement -> list (InterdependencyRef VersionSelector))
    (r : InterdependencyRef VersionSelector) :
  monorepo project = Some get_inter_dependencies_for ->
  In r (get_inter_dependencies_for pkg) ->
  project_packages (packages project) !! package_name r = None ->
  exists refs1 r' refs2 stderr,
    get_inter_dependencies_for pkg = refs1 ++ r' :: refs2 /\
    (forall x, In x refs1 ->
       is_Some (project_packages (packages project) !! package_name x)) /\
    project_packages (packages project) !! package_name r' = None /\
    ~ In (package_name r') (List.map name (packages project)) /\
    collect project pkg true extra = (stderr, Raise (KeyError (package_name r'))).
Proof.
  intros Hmono Hin Hnone.
  destruct (first_absent_split _ _ r Hin Hnone) as (refs1 & r' & refs2 & Hrefs & Hall & Hr').
  unfold collect_installable_requirements. rewrite Hmono, Hrefs.
  destruct (loop_first_absent matches str_version str_selector _ refs1 refs2 r' Hall Hr'
              (own_requirements pkg extra, [])) as [out Hout].
  exists refs1, r', refs2, out. repeat split; try assumption.
  now apply project_packages_lookup_None.
Qed.

(** C3: when the package has an inter-dependency on a sibling whose
    declared version matches the version selector of the dependency, the
    round for that dependency inserts the sibling as a path-vendored
    requirement at index 0, and the list that resolution returns has the
    sibling before every requirement the package had on its own. *)
Theorem matching_sibling_inserted_first
    (project : Project Version VersionSelector Requirement)
    (pkg : package Version Requirement) (extra : gset string)
    (get_inter_dependencies_for :
       package Version Requirement -> list (InterdependencyRef VersionSelector))
    (r : InterdependencyRef VersionSelector) (sibling : package Version Requirement) :
  monorepo project = Some get_inter_dependencies_for ->
  (forall x, In x (get_inter_dependencies_for pkg) ->
     is_Some (project_packages (packages project) !! package_name x)) ->
  In r (get_inter_dependencies_for pkg) ->
  project_packages (packages project) !! package_name r = Some sibling ->
  matches (version_selector r) (version sibling) = true ->
  (forall reqs stderr,
     inter_dep_step matches str_version str_selector
       (project_packages (packages project)) (reqs, stderr) r
     = Ok (VendoredRequirement Path (get_directory sibling) :: reqs, stderr)) /\
  exists stderr before after,
    collect project pkg true extra =
    (stderr, Ok (before ++ VendoredRequirement Path (get_directory sibling)
                   :: after ++ own_requirements pkg extra)).
Proof.
  intros Hmono Hall Hin Hdep Hm. split.
  - intros reqs stderr. now apply step_matching.
  - unfold collect_installable_requirements. rewrite Hmono.
    destruct (loop_total matches str_version str_selector _ _ Hall
                (own_requirements pkg extra) []) as (out & pre & Hl & Hpre).
    destruct (in_split _ _ (Hpre r sibling Hin Hdep Hm)) as (before & after & Hsplit).
    exists out, before, after. rewrite Hl, Hsplit.
    now rewrite <- app_assoc.
Qed.


End InstallClaims.

Example collect_example :
  Install.collect_installable_requirements prefix_selector id id
    example_project pkg_a true ∅
  = (["note: skipping inter-dependency on package " +:+ dquote +:+ "b" +:+ dquote
      +:+ " because the version selector 1. does not match the present version 2.0.0"],
     Ok [Install.VendoredRequirement Install.Path "repo/c";
         Install.VendoredRequirement Install.Path "repo/a";
         Install.VendoredRequirement Install.Git "git+https://example.org/x.git"]).
Proof. vm_compute. reflexivity. Qed.

Lemma unknown_sibling_reported_witness :
  Install.monorepo example_project_unknown = Some (fun _ => [ref_c; ref_unknown]) /\
  In ref_unknown [ref_c; ref_unknown] /\
  Install.project_packages (Install.packages example_project_unknown) !! "zzz" = None /\
  exists stderr,
    Install.collect_installable_requirements prefix_selector id id
      example_project_unknown pkg_a true ∅ = (stderr, Raise (KeyError "zzz")).
Proof.
  assert (H1 : Install.monorepo example_project_unknown = Some (fun _ => [ref_c; ref_unknown]))
    by reflexivity.
  assert (H2 : In ref_unknown [ref_c; ref_unknown]) by (simpl; tauto).
  assert (H3 : Install.project_packages (Install.packages example_project_unknown)
                 !! "zzz" = None) by (vm_compute; reflexivity).
  repeat split; try assumption.
  destruct (unknown_sibling_reported prefix_selector id id example_project_unknown
              pkg_a ∅ _ ref_unknown H1 H2 H3)
    as (refs1 & r' & refs2 & stderr & _ & _ & _ & _ & Hres).
  exists stderr. rewrite Hres. vm_compute in Hres.
  injection Hres as _ Hname. now rewrite Hname.
Defined.

Lemma matching_sibling_inserted_first_witness :
  Install.monorepo example_project = Some (fun _ => [ref_c; ref_b]) /\
  (forall x, In x [ref_c; ref_b] ->
     is_Some (Install.project_packages (Install.packages example_project)
                !! Install.package_name x)) /\
  In ref_c [ref_c; ref_b] /\
  Install.project_packages (Install.packages example_project) !! "c" = Some pkg_c /\
  prefix_selector "1." "1.2.0" = true /\
  exists stderr before after,
    Install.collect_installable_requirements prefix_selector id id
      example_project pkg_a true ∅ =
    (stderr, Ok (before ++ Install.VendoredRequirement Install.Path "repo/c"
                   :: after ++ Install.own_requirements pkg_a ∅)).
Proof.
  assert (H1 : Install.monorepo example_project = Some (fun _ => [ref_c; ref_b]))
    by reflexivity.
  assert (H2 : forall x, In x [ref_c; ref_b] ->
            is_Some (Install.project_packages (Install.packages example_project)
                       !! Install.package_name x)).
  { intros x [<-|[<-|[]]]; vm_compute; eauto. }
  assert (H3 : In ref_c [ref_c; ref_b]) by (simpl; tauto).
  assert (H4 : Install.project_packages (Install.packages example_project) !! "c"
               = Some pkg_c) by (vm_compute; reflexivity).
  assert (H5 : prefix_selector "1." "1.2.0" = true) by reflexivity.
  repeat split; try assumption.
  exact (proj2 (matching_sibling_inserted_first prefix_selector id id example_project
                  pkg_a ∅ _ ref_c pkg_c H1 H2 H3 H4 H5)).
Defined.


(** ** Writing files: [update] and [render] *)

Section DryRun.

Lemma write_file_dry (directory : string) (force : bool) (file : FileToRender)
    (fs : FileSystem) :
  Commons.write_file directory force true file fs
  = (fs, Commons.Described (Posixpath.join directory [file_name file])).
Proof. reflexivity. Qed.

(** A dry run of [write_files] describes every write and leaves the
    file system as it is. *)
Lemma write_files_dry (files : list FileToRender) (directory : string) (force : bool)
    (fs : FileSystem) :
  Commons.write_files files directory force true fs
  = (fs, List.map (fun file => Commons.Described (Posixpath.join directory [file_name file]))
                  files).
Proof.
  induction files as [|file files IH]; simpl; [reflexivity|]. now rewrite IH.
Qed.

(** [update_package] hands its [dry] to [write_files]: with the spec's
    [write_files] a dry run leaves the file system as it is. *)
Lemma update_package_dry {PackageModel : Type}
    (get_files : PackageModel -> list FileToRender)
    (get_directory : PackageModel -> string)
    (package : PackageModel) (fs : FileSystem) :
  fst (Update.update_package get_files get_directory Commons.write_files package true fs) = fs.
Proof. unfold Update.update_package. now rewrite write_files_dry. Qed.

(** [RenderCommand.execute] with [--dry] prints the names and writes
    nothing, whatever [write_to_disk] does. *)
Lemma execute_dry (write_to_disk : FileToRender -> FileSystem -> FileSystem * option exn)
    (files : list FileToRender) (fs : FileSystem) :
  Render.execute write_to_disk true files fs
  = (fs, ("Rendering " +:+ pretty (List.length files) +:+ " file(s)")
         :: List.map (fun file => "  " +:+ file_name file) files, None).
Proof.
  unfold Render.execute.
  assert (H : Render.render_files write_to_disk true files fs
              = (fs, List.map (fun file => "  " +:+ file_name file) files, None)).
  { induction files as [|file files IH]; simpl; [reflexivity|]. now rewrite IH. }
  now rewrite H.
Qed.

(** The command [update] never hands its [dry] on: whatever
    [write_files] is, it is called with [force = True] and [dry = False]. *)
Lemma update_ignores_dry {PackageModel : Type}
    (get_files : PackageModel -> list FileToRender)
    (get_directory : PackageModel -> string)
    (write_files : list FileToRender -> string -> bool -> bool -> FileSystem
                   -> FileSystem * list Commons.report)
    (dry : bool) (package : PackageModel) (fs : FileSystem) :
  Update.update get_files get_directory write_files dry package fs
  = write_files (get_files package) (get_directory package) true false fs.
Proof. reflexivity. Qed.

End DryRun.

(** C1: a dry run of the update operation must leave the file system as
    it was.  The command [update] does not: run with [dry = true] for a
    package with one generated file, on an empty file system, it writes
    that file, because it calls [update_package] without its [dry];
    [update_package] called with [dry = true] writes nothing. *)
Theorem update_dry_writes_files :
  Update.update example_files (fun _ => "pkg") Commons.write_files true tt ∅
  = ({["pkg/setup.py" := "import setuptools"]}, [Commons.Written "pkg/setup.py"]) /\
  fst (Update.update example_files (fun _ => "pkg") Commons.write_files true tt ∅) <> ∅ /\
  fst (Update.update_package example_files (fun _ => "pkg") Commons.write_files tt true ∅)
    = ∅.
Proof.
  split; [|split].
  - reflexivity.
  - intros H. apply (f_equal (fun m : FileSystem => m !! "pkg/setup.py")) in H.
    vm_compute in H. discriminate.
  - apply update_package_dry.
Qed.

(** ** The consistency checks *)

Section ReprFacts.

Lemma prefix_append (sub post : string) : String.prefix sub (sub +:+ post) = true.
Proof.
  induction sub as [|c sub IH]; [now destruct post|].
  rewrite append_cons. simpl. destruct (ascii_dec c c); [exact IH|congruence].
Qed.

Lemma contains_containsb (s sub : string) :
  PyStr.contains s sub -> containsb s sub = true.
Proof.
  intros (pre & post & ->). induction pre as [|c pre IH].
  - rewrite append_nil. pose proof (prefix_append sub post) as H.
    destruct (sub +:+ post); cbn [containsb]; now rewrite H.
  - rewrite append_cons. cbn [containsb]. rewrite IH. apply orb_true_r.
Qed.

Lemma plain_no_quote (s : string) : plain s = true -> PyRepr.has_char "'"%char s = false.
Proof.
  induction s as [|c s IH]; simpl; [reflexivity|].
  intros [Hc Hs]%andb_prop. rewrite (IH Hs).
  unfold plain_char in Hc. apply negb_true_iff in Hc.
  apply orb_false_elim in Hc as [Hc _]. apply orb_false_elim in Hc as [Hc _].
  now rewrite Hc.
Qed.

Lemma escape_char_plain (c : ascii) :
  plain_char c = true -> PyRepr.escape_char "'"%char c = String c EmptyString.
Proof.
  unfold plain_char, PyRepr.escape_char. intros Hc. apply negb_true_iff in Hc.
  apply orb_false_elim in Hc as [Hc Hprint]. apply orb_false_elim in Hc as [Hq Hb].
  rewrite Hq, Hb, Hprint. simpl.
  unfold PyRepr.nonprintable in Hprint.
  apply orb_false_elim in Hprint as [Hprint _]. apply orb_false_elim in Hprint as [Hlow _].
  apply Nat.ltb_ge in Hlow.
  destruct (Nat.eqb_spec (nat_of_ascii c) 9); [lia|].
  destruct (Nat.eqb_spec (nat_of_ascii c) 10); [lia|].
  destruct (Nat.eqb_spec (nat_of_ascii c) 13); [lia|]. reflexivity.
Qed.

Lemma escape_plain (s : string) : plain s = true -> PyRepr.escape "'"%char s = s.
Proof.
  induction s as [|c s IH]; simpl; [reflexivity|].
  intros [Hc Hs]%andb_prop. now rewrite (escape_char_plain c Hc), (IH Hs).
Qed.

(** A string of plain characters is written between single quotes,
    unchanged. *)
Lemma repr_plain (s : string) : plain s = true -> PyRepr.repr s = "'" +:+ s +:+ "'".
Proof.
  intros Hs. unfold PyRepr.repr, PyRepr.quote_for.
  rewrite (plain_no_quote s Hs). simpl. now rewrite (escape_plain s Hs).
Qed.

Lemma contains_append_l (a s sub : string) :
  PyStr.contains s sub -> PyStr.contains (a +:+ s) sub.
Proof.
  intros (pre & post & ->). exists (a +:+ pre), post. now rewrite append_assoc.
Qed.

Lemma contains_append_r (s b sub : string) :
  PyStr.contains s sub -> PyStr.contains (s +:+ b) sub.
Proof.
  intros (pre & post & ->). exists pre, (post +:+ b). now rewrite !append_assoc.
Qed.

Lemma contains_refl (s : string) : PyStr.contains s s.
Proof. exists "", "". now rewrite append_nil, append_empty_r. Qed.

Lemma repr_plain_contains (s : string) : plain s = true -> PyStr.contains (PyRepr.repr s) s.
Proof. intros Hs. rewrite (repr_plain s Hs). apply contains_middle. Qed.

End ReprFacts.

Example inconsistent_version_example :
  Render.inconsistent_version "1.0.1" "1.0.0"
  = "Inconsistent package version ('1.0.1' != '1.0.0')".
Proof. reflexivity. Qed.

(** C5, as amended: the checks yield the warning about the version
    exactly when the version found in the source differs from the declared
    one, and then once; no such warning when they are equal.  The warning
    holds the [repr] of both versions, hence both version strings as they
    are whenever these have no character that [repr] escapes. *)
Theorem version_warning_iff_differs (package : Render.Package) (data : Render.EntryFileData) :
  Render.load_entry_file_data package = Ok data ->
  let found := Render.version data in
  let declared := Render.package_version package in
  let warning := Render.inconsistent_version found declared in
  exists ws,
    Render._get_package_consistency_checks package = Ok ws /\
    (found <> declared -> List.filter is_version_warning ws = [warning]) /\
    (found = declared -> List.filter is_version_warning ws = []) /\
    (In warning ws <-> found <> declared) /\
    PyStr.contains warning (PyRepr.repr found) /\
    PyStr.contains warning (PyRepr.repr declared) /\
    (plain found = true -> PyStr.contains warning found) /\
    (plain declared = true -> PyStr.contains warning declared).
Proof.
  intros Hdata found declared warning.
  unfold Render._get_package_consistency_checks. rewrite Hdata. simpl.
  eexists. split; [reflexivity|].
  fold found declared warning.
  assert (Hauthor : forall a b, is_version_warning (Render.inconsistent_author a b) = false)
    by reflexivity.
  assert (Hversion : is_version_warning warning = true) by reflexivity.
  assert (Hne : forall a b, warning <> Render.inconsistent_author a b).
  { intros a b H. rewrite H, Hauthor in Hversion. discriminate. }
  assert (Hfound : PyStr.contains warning (PyRepr.repr found)).
  { unfold warning, Render.inconsistent_version. apply contains_middle. }
  assert (Hdeclared : PyStr.contains warning (PyRepr.repr declared)).
  { unfold warning, Render.inconsistent_version.
    exists ("Inconsistent package version (" +:+ PyRepr.repr found +:+ " != "), ")".
    now rewrite !append_assoc. }
  assert (Hplain : forall v, PyStr.contains warning (PyRepr.repr v) ->
                     plain v = true -> PyStr.contains warning v).
  { intros v (pre & post & ->) Hs.
    destruct (repr_plain_contains _ Hs) as (p & q & ->).
    exists (pre +:+ p), (q +:+ post). now rewrite !append_assoc. }
  assert (Hws : forall authors,
            (forall w, In w authors -> exists a b, w = Render.inconsistent_author a b) ->
            List.filter is_version_warning authors = [] /\ ~ In warning authors).
  { induction authors as [|w authors IH]; intros Hall; [simpl; tauto|].
    destruct (Hall w (or_introl eq_refl)) as (a & b & ->).
    destruct IH as [IH1 IH2]; [intros w Hw; apply Hall; now right|].
    cbn [List.filter]. rewrite Hauthor. split; [exact IH1|].
    intros [H|H]; [symmetry in H; now apply Hne in H|now apply IH2]. }
  set (authors := if negb (String.eqb (Render.author data) (Render.package_author package))
                  then [Render.inconsistent_author (Render.author data)
                          (Render.package_author package)]
                  else []).
  destruct (Hws authors) as [Hfilter Hnotin].
  { intros w. unfold authors. destruct (negb _); [intros [<-|[]]; eauto|intros []]. }
  rewrite List.filter_app, Hfilter. cbn [app].
  split; [|split; [|split; [|repeat split; auto]]].
  - intros Hneq. apply String.eqb_neq in Hneq. rewrite Hneq. cbn [negb List.filter].
    now rewrite Hversion.
  - intros Heq. apply String.eqb_eq in Heq. now rewrite Heq.
  - rewrite in_app_iff. destruct (String.eqb_spec found declared) as [Heq|Hneq];
      cbn [negb In]; tauto.
Qed.

Lemma version_warning_iff_differs_witness :
  Render.load_entry_file_data example_mismatch
    = Ok {| Render.author := "A"; Render.version := "1.0.1" |} /\
  exists ws,
    Render._get_package_consistency_checks example_mismatch = Ok ws /\
    List.filter is_version_warning ws
      = ["Inconsistent package version ('1.0.1' != '1.0.0')"].
Proof.
  split; [reflexivity|].
  destruct (version_warning_iff_differs example_mismatch _ eq_refl)
    as (ws & Hws & Hdiffer & _).
  exists ws. split; [exact Hws|]. apply Hdiffer. discriminate.
Defined.

(** C5, as stated, fails: the versions differ, the one warning is
    [Inconsistent package version ('1\\\\0' != '1.0')] with the backslash
    doubled by [repr], and the version string of the source does not occur
    in it. *)
Lemma version_warning_literal_counterexample :
  Render.version {| Render.author := "A"; Render.version := "1\0" |}
    <> Render.package_version example_escaped /\
  Render._get_package_consistency_checks example_escaped
    = Ok ["Inconsistent package version ('1\\0' != '1.0')"] /\
  ~ PyStr.contains "Inconsistent package version ('1\\0' != '1.0')" "1\0".
Proof.
  split; [discriminate|]. split; [reflexivity|].
  intros H. apply contains_containsb in H. vm_compute in H. discriminate.
Qed.

(** ** [_load_metadata] and [ast.literal_eval] *)

Section LiteralEvalFacts.
Import LiteralEval Metadata.

Lemma convert_num_ok (e : expr) (v : value) :
  _convert_num e = Ok v -> is_number e = true.
Proof. destruct e as [[]| | | | | | | | |]; simpl; congruence. Qed.

Lemma convert_signed_num_ok (e : expr) (v : value) :
  _convert_signed_num e = Ok v -> is_signed_number e = true.
Proof.
  destruct e as [c| | | | | | |op operand| |];
    try exact (convert_num_ok _ v).
  destruct op; try exact (convert_num_ok _ v).
  simpl. destruct (_convert_num operand) eqn:E; simpl; [|congruence].
  intros _. now apply convert_num_ok in E.
Qed.

Lemma collect_ok (f : expr -> result value) (elts : list expr) (vs : list value) :
  (forall e v, In e elts -> f e = Ok v -> only_literals e = true) ->
  collect (List.map f elts) = Ok vs -> forallb only_literals elts = true.
Proof.
  revert vs. induction elts as [|e elts IH]; intros vs Hall; simpl; [reflexivity|].
  destruct (f e) as [v|] eqn:He; simpl; [|discriminate].
  destruct (collect (List.map f elts)) as [vs'|] eqn:Hvs; simpl; [|discriminate].
  intros _. rewrite (Hall e v (or_introl eq_refl) He). simpl.
  apply (IH vs'); [|reflexivity]. intros e' v' Hin. apply Hall. now right.
Qed.

Lemma collect_set_ok (f : expr -> result value) (elts : list expr) (vs : list value) :
  (forall e v, In e elts -> f e = Ok v -> only_literals e = true) ->
  collect_set (List.map f elts) = Ok vs -> forallb only_literals elts = true.
Proof.
  revert vs. induction elts as [|e elts IH]; intros vs Hall; simpl; [reflexivity|].
  destruct (f e) as [v|] eqn:He; simpl; [|discriminate].
  destruct (unhashable_type v); [discriminate|].
  destruct (collect_set (List.map f elts)) as [vs'|] eqn:Hvs; simpl; [|discriminate].
  intros _. rewrite (Hall e v (or_introl eq_refl) He). simpl.
  apply (IH vs'); [|reflexivity]. intros e' v' Hin. apply Hall. now right.
Qed.

End LiteralEvalFacts.

Section ConvertFacts.
Import LiteralEval.

Lemma convert_tuple (elts : list expr) :
  _convert (ETuple elts) = let* vs := collect (List.map _convert elts) in Ok (VTuple vs).
Proof. reflexivity. Qed.

Lemma convert_list (elts : list expr) :
  _convert (EList elts) = let* vs := collect (List.map _convert elts) in Ok (VList vs).
Proof. reflexivity. Qed.

Lemma convert_set (elts : list expr) :
  _convert (ESet elts) = let* vs := collect_set (List.map _convert elts) in Ok (VSet vs).
Proof. reflexivity. Qed.

Lemma convert_dict (keys : list (option expr)) (values : list expr) :
  _convert (EDict keys values) =
  if negb (Nat.eqb (List.length keys) (List.length values)) then Raise malformed
  else let* kvs := collect_dict (List.map convert_key keys) (List.map _convert values) in
       Ok (VDict kvs).
Proof.
  simpl. destruct (negb _); [reflexivity|]. f_equal. f_equal.
  induction keys as [|[k|] keys IH]; simpl; congruence.
Qed.

Lemma collect_dict_ok (keys : list (option expr)) :
  forall (values : list expr) (kvs : list (value * value)),
    List.Forall (fun k => match k with
                          | Some e => forall v, _convert e = Ok v -> only_literals e = true
                          | None => True
                          end) keys ->
    List.Forall (fun e => forall v, _convert e = Ok v -> only_literals e = true) values ->
    List.length keys = List.length values ->
    collect_dict (List.map convert_key keys) (List.map _convert values) = Ok kvs ->
    forallb (fun k => match k with
                      | Some e => only_literals e
                      | None => false
                      end) keys = true
    /\ forallb only_literals values = true.
Proof.
  induction keys as [|k keys IH]; intros [|e values] kvs Hk Hv Hlen; simpl in Hlen;
    try discriminate; [now split|].
  inversion Hk as [|? ? Hk1 Hk2]; subst. inversion Hv as [|? ? Hv1 Hv2]; subst.
  simpl. destruct k as [k|]; simpl; [|discriminate].
  destruct (_convert k) as [kv|] eqn:Ek; simpl; [|discriminate].
  destruct (_convert e) as [ev|] eqn:Ee; simpl; [|discriminate].
  destruct (unhashable_type kv); [discriminate|].
  destruct (collect_dict _ _) as [kvs'|] eqn:Erest; simpl; [|discriminate].
  intros _. rewrite (Hk1 _ eq_refl), (Hv1 _ eq_refl). simpl.
  apply (IH values kvs'); auto.
Qed.

(** What [literal_eval] evaluates is made of literal structures only:
    on any other expression it raises. *)
Lemma convert_only_literals (node : expr) :
  forall v, _convert node = Ok v -> only_literals node = true.
Proof.
  induction node as [c|elts IH|elts IH|elts IH|keys values IHk IHv
                     |func args keywords _ _ _|id|op operand _|lhs op rhs _ _
                     |class children _] using expr_nested_ind; intros v.
  - reflexivity.
  - rewrite convert_tuple. destruct (collect _) as [vs|] eqn:E; simpl; [|discriminate].
    intros _. apply (collect_ok _convert elts vs); [|exact E].
    intros e v' Hin. rewrite List.Forall_forall in IH. now apply IH.
  - rewrite convert_list. destruct (collect _) as [vs|] eqn:E; simpl; [|discriminate].
    intros _. apply (collect_ok _convert elts vs); [|exact E].
    intros e v' Hin. rewrite List.Forall_forall in IH. now apply IH.
  - rewrite convert_set. destruct (collect_set _) as [vs|] eqn:E; simpl; [|discriminate].
    intros _. apply (collect_set_ok _convert elts vs); [|exact E].
    intros e v' Hin. rewrite List.Forall_forall in IH. now apply IH.
  - rewrite convert_dict.
    destruct (Nat.eqb_spec (List.length keys) (List.length values)) as [Hlen|];
      simpl; [|discriminate].
    destruct (collect_dict _ _) as [kvs|] eqn:E; simpl; [|discriminate].
    intros _. apply andb_true_intro.
    apply (collect_dict_ok keys values kvs); auto.
  - simpl. destruct (is_set_call func args keywords); [reflexivity|discriminate].
  - discriminate.
  - apply convert_signed_num_ok.
  - destruct op; try discriminate; simpl.
    + destruct (_convert_signed_num lhs) as [l|] eqn:El; simpl; [|discriminate].
      destruct (_convert_num rhs) as [r|] eqn:Er; simpl; [|discriminate].
      destruct (real_plus_complex l r); [|discriminate].
      intros _. now rewrite (convert_signed_num_ok _ _ El), (convert_num_ok _ _ Er).
    + destruct (_convert_signed_num lhs) as [l|] eqn:El; simpl; [|discriminate].
      destruct (_convert_num rhs) as [r|] eqn:Er; simpl; [|discriminate].
      destruct (real_plus_complex l r); [|discriminate].
      intros _. now rewrite (convert_signed_num_ok _ _ El), (convert_num_ok _ _ Er).
  - discriminate.
Qed.

End ConvertFacts.

Section LoadMetadataFacts.
Import LiteralEval Metadata.

(** A [ValueError] of [literal_eval] becomes the sentinel. *)
Lemma eval_member_value_error (members : gmap string expr) (key msg : string) (node : expr) :
  members !! key = Some node ->
  literal_eval node = Raise (ValueError msg) ->
  eval_member members key = Ok (Some non_literal).
Proof. intros Hkey Heval. unfold eval_member. now rewrite Hkey, Heval. Qed.

(** Whatever [eval_member] returns for a right-hand side that is not
    made of literal structures is the sentinel. *)
Lemma eval_member_non_literal (members : gmap string expr) (key : string) (node : expr)
    (r : option value) :
  members !! key = Some node ->
  only_literals node = false ->
  eval_member members key = Ok r ->
  r = Some non_literal.
Proof.
  intros Hkey Hlit. unfold eval_member. rewrite Hkey.
  destruct (literal_eval node) as [v|e] eqn:Heval.
  - apply convert_only_literals in Heval. congruence.
  - destruct e; congruence.
Qed.

(** When [_load_metadata] returns, a [__version__] that is not made of
    literal structures has become the sentinel. *)
Lemma load_metadata_non_literal_version (os : Os) (self : PythonPackageMetadata)
    (f : string) (members : gmap string expr) (node : expr) :
  snd (filename os self) = Ok f ->
  load_module_members os f = Ok members ->
  members !! "__version__" = Some node ->
  only_literals node = false ->
  snd (_load_metadata os self) = Ok tt ->
  _version (fst (_load_metadata os self)) = Some non_literal.
Proof.
  intros Hf Hmembers Hkey Hlit. unfold _load_metadata.
  destruct (filename os self) as [self' r]. simpl in Hf. subst r. simpl.
  rewrite Hmembers. simpl.
  destruct (eval_member members "__version__") as [version|e] eqn:Hv; simpl;
    [|discriminate].
  rewrite (eval_member_non_literal _ _ _ _ Hkey Hlit Hv).
  destruct (eval_member members "__author__") as [author|e]; simpl;
    [reflexivity|discriminate].
Qed.

End LoadMetadataFacts.

(** C7: for a right-hand side that is not a literal expression the
    extracted value must be the sentinel and extraction must raise nothing.
    For [__version__ = ({[]}, f())] it does raise: [literal_eval] raises a
    [TypeError] when it hashes the list, before it reaches the call, and
    [_load_metadata] catches [ValueError] only; no version is stored. *)
Theorem load_metadata_unhashable_raises :
  only_literals unhashable_then_call = false /\
  LiteralEval.literal_eval unhashable_then_call
    = Raise (TypeError "unhashable type: 'list'") /\
  snd (Metadata._load_metadata example_os_unhashable (Metadata.init "src" "pkg"))
    = Raise (TypeError "unhashable type: 'list'") /\
  Metadata._version
    (fst (Metadata._load_metadata example_os_unhashable (Metadata.init "src" "pkg")))
    = None.
Proof. repeat split; vm_compute; reflexivity. Qed.

(** * Further properties *)

(** ** More on [collect_installable_requirements] *)

Section InstallOrder.
Import Install.

Context {Version VersionSelector Requirement : Type}.
Variable matches : VersionSelector -> Version -> bool.
Variable str_version : Version -> string.
Variable str_selector : VersionSelector -> string.

Abbreviation collect' :=
  (collect_installable_requirements matches str_version str_selector).
Abbreviation loop' := (inter_dep_loop matches str_version str_selector).
Abbreviation admitted' := (admitted matches).
Abbreviation skipped' := (skipped matches str_version str_selector).

(** The loop over references that all name an indexed package: every
    admitted sibling is put in front of those before it. *)
Lemma loop_all_indexed (index : gmap string (package Version Requirement))
    (refs : list (InterdependencyRef VersionSelector)) :
  (forall r, In r refs -> is_Some (index !! package_name r)) ->
  forall reqs stderr,
    loop' index refs (reqs, stderr)
    = (stderr ++ skipped' index refs, Ok (rev (admitted' index refs) ++ reqs)).
Proof.
  induction refs as [|r refs IH]; intros Hall reqs stderr.
  - simpl. now rewrite app_nil_r.
  - assert (Hrest : forall r', In r' refs -> is_Some (index !! package_name r'))
      by (intros r' Hr'; apply Hall; now right).
    destruct (Hall r (or_introl eq_refl)) as [dep Hdep].
    cbn [inter_dep_loop admitted skipped]. unfold inter_dep_step. rewrite Hdep.
    destruct (matches (version_selector r) (version dep)); simpl.
    + rewrite (IH Hrest). unfold sibling. now rewrite <- app_assoc.
    + rewrite (IH Hrest). now rewrite <- app_assoc.
Qed.

(** X1: when every inter-dependency of the package names a package of
    the project, [collect_installable_requirements] returns the admitted
    siblings in the reverse order of their references (the last admitted
    reference comes first), followed by the package's own requirements, and
    writes one note for each reference that is not admitted, in the order
    of the references. *)
Theorem collect_reverses_siblings
    (project : Project Version VersionSelector Requirement)
    (pkg : package Version Requirement) (extra : gset string)
    (deps : package Version Requirement -> list (InterdependencyRef VersionSelector)) :
  monorepo project = Some deps ->
  (forall r, In r (deps pkg) ->
     is_Some (project_packages (packages project) !! package_name r)) ->
  collect' project pkg true extra
  = (skipped' (project_packages (packages project)) (deps pkg),
     Ok (rev (admitted' (project_packages (packages project)) (deps pkg))
         ++ own_requirements pkg extra)).
Proof.
  intros Hmono Hall. unfold collect_installable_requirements. rewrite Hmono.
  now rewrite (loop_all_indexed _ _ Hall).
Qed.

(** X2: when a reference names no package of the project, the notes for
    the references before it have been written when the [KeyError] is
    raised, and nothing for the references after it. *)
Theorem collect_unknown_keeps_notes
    (project : Project Version VersionSelector Requirement)
    (pkg : package Version Requirement) (extra : gset string)
    (deps : package Version Requirement -> list (InterdependencyRef VersionSelector))
    (refs1 refs2 : list (InterdependencyRef VersionSelector))
    (r : InterdependencyRef VersionSelector) :
  monorepo project = Some deps ->
  deps pkg = refs1 ++ r :: refs2 ->
  (forall x, In x refs1 ->
     is_Some (project_packages (packages project) !! package_name x)) ->
  project_packages (packages project) !! package_name r = None ->
  collect' project pkg true extra
  = (skipped' (project_packages (packages project)) refs1,
     Raise (KeyError (package_name r))).
Proof.
  intros Hmono Hdeps Hall Hnone. unfold collect_installable_requirements.
  rewrite Hmono, Hdeps, loop_app, (loop_all_indexed _ _ Hall).
  cbn [inter_dep_loop]. unfold inter_dep_step. now rewrite Hnone.
Qed.

(** Whatever the loop returns starts with path requirements and ends
    with the requirements it started from. *)
Lemma loop_ok_prefix (index : gmap string (package Version Requirement))
    (refs : list (InterdependencyRef VersionSelector)) :
  forall reqs stderr out res,
    loop' index refs (reqs, stderr) = (out, Ok res) ->
    exists pre, res = pre ++ reqs /\ forallb is_path pre = true.
Proof.
  induction refs as [|r refs IH]; intros reqs stderr out res.
  - simpl. intros H. injection H as _ <-. now exists [].
  - cbn [inter_dep_loop]. unfold inter_dep_step.
    destruct (index !! package_name r) as [dep|]; [|discriminate].
    destruct (matches (version_selector r) (version dep)); simpl; intros H.
    + destruct (IH _ _ _ _ H) as (pre & -> & Hpre).
      exists (pre ++ [VendoredRequirement Path (get_directory dep)]). split.
      * now rewrite <- app_assoc.
      * rewrite forallb_app, Hpre. reflexivity.
    + exact (IH _ _ _ _ H).
Qed.

(** X3: whenever [collect_installable_requirements] returns a list, the
    package's own directory is in it as a path requirement, the list ends
    with the package's own requirements, and everything before them is a
    path requirement. *)
Theorem collect_keeps_own_requirements
    (project : Project Version VersionSelector Requirement)
    (pkg : package Version Requirement) (inter_deps : bool) (extra : gset string)
    (stderr : list string) (reqs : list (entry Requirement)) :
  collect' project pkg inter_deps extra = (stderr, Ok reqs) ->
  In (VendoredRequirement Path (get_directory pkg)) reqs /\
  exists siblings,
    reqs = siblings ++ own_requirements pkg extra /\
    forallb is_path siblings = true.
Proof.
  intros H.
  assert (Hshape : exists siblings,
            reqs = siblings ++ own_requirements pkg extra /\
            forallb is_path siblings = true).
  { unfold collect_installable_requirements in H.
    destruct (monorepo project) as [deps|]; [destruct inter_deps|].
    - exact (loop_ok_prefix _ _ _ _ _ _ H).
    - injection H as _ <-. now exists [].
    - injection H as _ <-. now exists []. }
  split; [|exact Hshape].
  destruct Hshape as (siblings & -> & _).
  apply in_or_app. right. unfold own_requirements.
  apply in_or_app. right. now left.
Qed.

(** X4: of two packages of the project with the same name, the index
    holds the later one, so that is the one references resolve to. *)
Theorem project_packages_last_wins
    (ps1 ps2 : list (package Version Requirement)) (p : package Version Requirement) :
  ~ In (name p) (List.map name ps2) ->
  project_packages (ps1 ++ p :: ps2) !! name p = Some p.
Proof.
  intros Hlater. unfold project_packages.
  rewrite fold_left_app. cbn [fold_left].
  set (m := <[name p := p]> _).
  assert (Hm : m !! name p = Some p) by apply lookup_insert_eq.
  clearbody m. revert m Hm.
  induction ps2 as [|q ps2 IH]; intros m Hm; [exact Hm|].
  cbn [fold_left]. apply IH.
  - intros Hin. apply Hlater. now right.
  - rewrite lookup_insert_ne; [exact Hm|].
    intros Heq. apply Hlater. left. exact Heq.
Qed.

End InstallOrder.

Lemma collect_reverses_siblings_witness :
  Install.monorepo example_project_twice = Some (fun _ => [ref_b; ref_c; ref_c_exact]) /\
  (forall r, In r [ref_b; ref_c; ref_c_exact] ->
     is_Some (Install.project_packages (Install.packages example_project_twice)
                !! Install.package_name r)) /\
  Install.collect_installable_requirements prefix_selector id id
    example_project_twice pkg_a true ∅
  = ([Install.skip_note id id pkg_b ref_b],
     Ok [Install.VendoredRequirement Install.Path "repo/c";
         Install.VendoredRequirement Install.Path "repo/c";
         Install.VendoredRequirement Install.Path "repo/a";
         Install.VendoredRequirement Install.Git "git+https://example.org/x.git"]).
Proof.
  assert (H1 : Install.monorepo example_project_twice
               = Some (fun _ => [ref_b; ref_c; ref_c_exact])) by reflexivity.
  assert (H2 : forall r, In r [ref_b; ref_c; ref_c_exact] ->
            is_Some (Install.project_packages (Install.packages example_project_twice)
                       !! Install.package_name r)).
  { intros r [<-|[<-|[<-|[]]]]; vm_compute; eauto. }
  split; [exact H1|split; [exact H2|]].
  rewrite (collect_reverses_siblings prefix_selector id id example_project_twice
             pkg_a ∅ _ H1 H2).
  vm_compute. reflexivity.
Defined.

Lemma collect_unknown_keeps_notes_witness :
  Install.monorepo example_project_unknown_middle
  = Some (fun _ => [ref_b; ref_unknown; ref_c]) /\
  Install.collect_installable_requirements prefix_selector id id
    example_project_unknown_middle pkg_a true ∅
  = ([Install.skip_note id id pkg_b ref_b], Raise (KeyError "zzz")).
Proof.
  split; [reflexivity|].
  rewrite (collect_unknown_keeps_notes prefix_selector id id
             example_project_unknown_middle pkg_a ∅
             (fun _ => [ref_b; ref_unknown; ref_c]) [ref_b] [ref_c] ref_unknown
             eq_refl eq_refl).
  - vm_compute. reflexivity.
  - intros x [<-|[]]. vm_compute. eauto.
  - vm_compute. reflexivity.
Defined.

Lemma collect_keeps_own_requirements_witness :
  Install.collect_installable_requirements prefix_selector id id
    example_project pkg_a true {["test"]}
  = ([Install.skip_note id id pkg_b ref_b],
     Ok [Install.VendoredRequirement Install.Path "repo/c";
         Install.Registry "pytest";
         Install.VendoredRequirement Install.Path "repo/a";
         Install.VendoredRequirement Install.Git "git+https://example.org/x.git"]) /\
  In (Install.VendoredRequirement Install.Path "repo/a")
     [Install.VendoredRequirement Install.Path "repo/c";
      Install.Registry "pytest";
      Install.VendoredRequirement Install.Path "repo/a";
      Install.VendoredRequirement (Requirement := string) Install.Git
        "git+https://example.org/x.git"].
Proof.
  assert (H : Install.collect_installable_requirements prefix_selector id id
                example_project pkg_a true {["test"]}
              = ([Install.skip_note id id pkg_b ref_b],
                 Ok [Install.VendoredRequirement Install.Path "repo/c";
                     Install.Registry "pytest";
                     Install.VendoredRequirement Install.Path "repo/a";
                     Install.VendoredRequirement Install.Git
                       "git+https://example.org/x.git"]))
    by (vm_compute; reflexivity).
  split; [exact H|].
  exact (proj1 (collect_keeps_own_requirements prefix_selector id id _ _ _ _ _ _ H)).
Defined.

Lemma project_packages_last_wins_witness :
  ~ In "c" (List.map Install.name [pkg_b]) /\
  Install.project_packages [pkg_c_old; pkg_a; pkg_c; pkg_b] !! "c" = Some pkg_c.
Proof.
  assert (H : ~ In (Install.name pkg_c) (List.map Install.name [pkg_b])).
  { simpl. intros [H|[]]. discriminate. }
  split; [exact H|].
  exact (project_packages_last_wins [pkg_c_old; pkg_a] [pkg_b] pkg_c H).
Defined.

(** ** More on the package model and its source metadata *)

Section ModuleNameFacts.
Import Package.

Lemma replace_dash_no_dash (s : string) : PyRepr.has_char "-"%char (replace_dash s) = false.
Proof.
  induction s as [|c s IH]; [reflexivity|].
  cbn [replace_dash PyRepr.has_char]. rewrite IH.
  destruct (Ascii.eqb_spec c "-"%char) as [->|Hc]; [reflexivity|].
  apply Ascii.eqb_neq in Hc. now rewrite Hc.
Qed.

Lemma replace_dash_length (s : string) : String.length (replace_dash s) = String.length s.
Proof. induction s as [|c s IH]; simpl; congruence. Qed.

(** X5: a module name that [get_modulename] derives from the package
    name has no hyphen and the length of the name; a configured, non-empty
    module name is returned as it is, so a hyphen in the result can only
    come from the configuration. *)
Theorem get_modulename_hyphen (d : PackageData) :
  (truthy (modulename d) = false ->
     PyRepr.has_char "-"%char (get_modulename d) = false /\
     String.length (get_modulename d) = String.length (name d)) /\
  (truthy (modulename d) = true -> modulename d = Some (get_modulename d)) /\
  (PyRepr.has_char "-"%char (get_modulename d) = true ->
     modulename d = Some (get_modulename d)).
Proof.
  unfold get_modulename, truthy.
  destruct (modulename d) as [m|]; [destruct (String.eqb m "")|]; simpl;
    rewrite ?replace_dash_no_dash, ?replace_dash_length;
    repeat split; congruence.
Qed.

End ModuleNameFacts.

Section EntryFileFacts.
Import Metadata.

Lemma append_nonempty_r (a b : string) : b <> "" -> a +:+ b <> "".
Proof. destruct a; [now rewrite append_nil|discriminate]. Qed.

Lemma join_step_nonempty (path b : string) : b <> "" -> Posixpath.join_step path b <> "".
Proof.
  intros Hb. unfold Posixpath.join_step.
  destruct (PyStr.startswith b "/"); [exact Hb|].
  destruct (_ || _)%bool; repeat apply append_nonempty_r; exact Hb.
Qed.

(** Every path the lookup tries is non-empty. *)
Lemma candidate_nonempty (self : PythonPackageMetadata) (c : string) :
  In c (choices self) -> candidate self c <> "".
Proof.
  intros Hc. unfold candidate, Posixpath.join. cbn [fold_left].
  apply join_step_nonempty.
  unfold choices in Hc. cbn [In] in Hc.
  destruct Hc as [<-|[<-|[<-|[]]]].
  - now apply append_nonempty_r.
  - now apply join_step_nonempty.
  - now apply join_step_nonempty.
Qed.

Lemma first_file_some (os : Os) (self : PythonPackageMetadata) (cs : list string) (f : string) :
  first_file os self cs = Some f ->
  isfile os f = true /\ exists c, In c cs /\ f = candidate self c.
Proof.
  induction cs as [|c cs IH]; simpl; [discriminate|].
  destruct (isfile os (candidate self c)) eqn:Hc.
  - intros H. injection H as <-. split; [exact Hc|]. exists c. auto.
  - intros H. destruct (IH H) as (Hf & c' & Hin & ->). split; [exact Hf|]. eauto.
Qed.

(** What [filename] stores and returns is true as a condition. *)
Lemma filename_ok_truthy (os : Os) (self self' : PythonPackageMetadata) (f : string) :
  filename os self = (self', Ok f) ->
  _filename self' = Some f /\ truthy (Some f) = true.
Proof.
  unfold filename.
  assert (Hlookup : lookup_filename os self = (self', Ok f) ->
                    _filename self' = Some f /\ truthy (Some f) = true).
  { unfold lookup_filename.
    destruct (first_file os self (choices self)) as [g|] eqn:Hg; [|discriminate].
    intros H. injection H as <- <-. split; [reflexivity|].
    destruct (first_file_some _ _ _ _ Hg) as (_ & c & Hin & ->).
    pose proof (candidate_nonempty self c Hin) as Hne.
    simpl. now destruct (String.eqb_spec (candidate self c) ""). }
  destruct (_filename self) as [g|] eqn:Hg; [|exact Hlookup].
  destruct (truthy (Some g)) eqn:Ht; [|exact Hlookup].
  intros H. injection H as <- <-. auto.
Qed.

(** X6: for the metadata object of a package model, whatever
    [filename] returns is a regular file at the time of the call and one of
    the three paths built from the module name. *)
Theorem package_entry_file_is_file (os : Os) (model : Package.PackageModel) (f : string) :
  snd (filename os (MetadataAccess.get_python_package_metadata model)) = Ok f ->
  isfile os f = true /\
  exists c,
    In c (choices (MetadataAccess.get_python_package_metadata model)) /\
    f = Posixpath.join
          (Posixpath.join (Posixpath.dirname (Package.filename model))
             [Package.source_directory (Package.data model)])
          [prefix (MetadataAccess.get_python_package_metadata model); c].
Proof.
  set (self := MetadataAccess.get_python_package_metadata model).
  rewrite (filename_uncached os self eq_refl). unfold lookup_filename.
  destruct (first_file os self (choices self)) as [g|] eqn:Hg; [|discriminate].
  simpl. intros H. injection H as <-.
  exact (first_file_some _ _ _ _ Hg).
Qed.

(** X7: once [filename] has returned a path, every later call on the
    object returns that path and leaves the object as it is, whatever the
    file system has become; a call that raises leaves the object as it
    was, so the next call looks again. *)
Theorem filename_is_cached (os : Os) (self self' : PythonPackageMetadata)
    (r : result string) :
  filename os self = (self', r) ->
  match r with
  | Ok f => forall os', filename os' self' = (self', Ok f)
  | Raise _ => self' = self
  end.
Proof.
  intros H. destruct r as [f|e].
  - intros os'. destruct (filename_ok_truthy _ _ _ _ H) as [Hf Ht].
    now apply filename_cached.
  - unfold filename in H.
    assert (Hlookup : lookup_filename os self = (self', Raise e) -> self' = self).
    { unfold lookup_filename. destruct (first_file os self (choices self)); [discriminate|].
      intros H'. now injection H' as <- _. }
    destruct (_filename self) as [g|]; [|exact (Hlookup H)].
    destruct (truthy (Some g)); [discriminate|exact (Hlookup H)].
Qed.

(** X8: [package_directory] raises nothing but the two [ValueError]s,
    the one of the lookup that names the module and the one for a
    module-only package, and it leaves the object as [filename] does. *)
Theorem package_directory_errors (os : Os) (self : PythonPackageMetadata) :
  fst (package_directory os self) = fst (filename os self) /\
  (forall e, snd (package_directory os self) = Raise e ->
     (e = not_determined (modulename self) /\ snd (filename os self) = Raise e)
     \/ (e = module_only /\ exists f, snd (filename os self) = Ok f)).
Proof.
  unfold package_directory.
  destruct (filename os self) as [self' r] eqn:Hf. split; [reflexivity|].
  intros e. cbn [snd]. destruct r as [f|e']; simpl.
  - destruct (Posixpath.split f) as [d b].
    destruct (negb _); [|discriminate]. intros H. injection H as <-.
    right. eauto.
  - intros H. injection H as <-. left. split; [|reflexivity].
    unfold filename in Hf.
    assert (Hlookup : lookup_filename os self = (self', Raise e') ->
                      e' = not_determined (modulename self)).
    { unfold lookup_filename. destruct (first_file os self (choices self)); [discriminate|].
      intros H'. now injection H' as _ <-. }
    destruct (_filename self) as [g|]; [|exact (Hlookup Hf)].
    destruct (truthy (Some g)); [discriminate|exact (Hlookup Hf)].
Qed.

End EntryFileFacts.

Lemma package_entry_file_is_file_witness :
  snd (Metadata.filename example_os_module
         (MetadataAccess.get_python_package_metadata example_model))
    = Ok "pkg/src/my_pkg.py" /\
  isfile example_os_module "pkg/src/my_pkg.py" = true.
Proof.
  split; [reflexivity|].
  exact (proj1 (package_entry_file_is_file example_os_module example_model
                  "pkg/src/my_pkg.py" eq_refl)).
Defined.

Lemma filename_is_cached_witness :
  Metadata.filename example_os_module
    (MetadataAccess.get_python_package_metadata example_model)
  = (Metadata.set_filename (MetadataAccess.get_python_package_metadata example_model)
       "pkg/src/my_pkg.py", Ok "pkg/src/my_pkg.py") /\
  Metadata.filename example_os_empty
    (Metadata.set_filename (MetadataAccess.get_python_package_metadata example_model)
       "pkg/src/my_pkg.py")
  = (Metadata.set_filename (MetadataAccess.get_python_package_metadata example_model)
       "pkg/src/my_pkg.py", Ok "pkg/src/my_pkg.py").
Proof.
  split; [reflexivity|].
  exact (filename_is_cached example_os_module
           (MetadataAccess.get_python_package_metadata example_model) _ _ eq_refl
           example_os_empty).
Defined.

Section LoadMetadataMore.
Import LiteralEval Metadata.

(** [filename] touches the stored file name only. *)
Lemma filename_keeps_fields (os : Os) (self self' : PythonPackageMetadata) (r : result string) :
  filename os self = (self', r) ->
  _author self' = _author self /\ _version self' = _version self /\
  modulename self' = modulename self /\ source_directory self' = source_directory self.
Proof.
  unfold filename.
  assert (Hlookup : lookup_filename os self = (self', r) ->
            _author self' = _author self /\ _version self' = _version self /\
            modulename self' = modulename self /\
            source_directory self' = source_directory self).
  { unfold lookup_filename. destruct (first_file os self (choices self));
      intros H; injection H as <- _; auto. }
  destruct (_filename self) as [g|]; [|exact Hlookup].
  destruct (truthy (Some g)); [|exact Hlookup].
  intros H. injection H as <- _. auto.
Qed.

(** [_load_metadata], step by step. *)
Lemma load_metadata_steps (os : Os) (self self1 : PythonPackageMetadata) (r : result string) :
  filename os self = (self1, r) ->
  _load_metadata os self =
  match r with
  | Raise e => (self1, Raise e)
  | Ok f =>
      match load_module_members os f with
      | Raise e => (self1, Raise e)
      | Ok members =>
          match eval_member members "__version__" with
          | Raise e => (self1, Raise e)
          | Ok version =>
              match eval_member members "__author__" with
              | Raise e => (self1, Raise e)
              | Ok author => (set_metadata self1 author version, Ok tt)
              end
          end
      end
  end.
Proof.
  intros Hf. unfold _load_metadata. rewrite Hf.
  destruct r as [f|e]; simpl; [|reflexivity].
  destruct (load_module_members os f) as [members|e]; simpl; [|reflexivity].
  destruct (eval_member members "__version__") as [version|e]; simpl; [|reflexivity].
  destruct (eval_member members "__author__") as [author|e]; reflexivity.
Qed.

(** X9: when [_load_metadata] raises, the stored author and version are
    what they were: a version that was evaluated is not stored when the
    author makes [literal_eval] raise. *)
Theorem load_metadata_failure_keeps_fields (os : Os) (self : PythonPackageMetadata) (e : exn) :
  snd (_load_metadata os self) = Raise e ->
  _author (fst (_load_metadata os self)) = _author self /\
  _version (fst (_load_metadata os self)) = _version self.
Proof.
  destruct (filename os self) as [self1 r] eqn:Hf.
  rewrite (load_metadata_steps _ _ _ _ Hf).
  destruct (filename_keeps_fields _ _ _ _ Hf) as (Ha & Hv & _).
  destruct r as [f|e1]; [|intros _; now split].
  destruct (load_module_members os f) as [members|e1]; [|intros _; now split].
  destruct (eval_member members "__version__") as [version|e1]; [|intros _; now split].
  destruct (eval_member members "__author__") as [author|e1]; [discriminate|].
  intros _. now split.
Qed.

(** X10: when [_load_metadata] returns, an [__author__] or a
    [__version__] whose right-hand side is not made of literal structures
    only is stored as the sentinel ['<Non-literal expression>']. *)
Theorem load_metadata_non_literal_fields (os : Os) (self : PythonPackageMetadata)
    (f : string) (members : gmap string expr) :
  snd (filename os self) = Ok f ->
  load_module_members os f = Ok members ->
  snd (_load_metadata os self) = Ok tt ->
  (forall node, members !! "__version__" = Some node -> only_literals node = false ->
     _version (fst (_load_metadata os self)) = Some non_literal) /\
  (forall node, members !! "__author__" = Some node -> only_literals node = false ->
     _author (fst (_load_metadata os self)) = Some non_literal).
Proof.
  destruct (filename os self) as [self1 r] eqn:Hf. cbn [snd]. intros -> Hmembers.
  rewrite (load_metadata_steps _ _ _ _ Hf), Hmembers.
  destruct (eval_member members "__version__") as [version|e] eqn:Hv; [|discriminate].
  destruct (eval_member members "__author__") as [author|e] eqn:Ha; [|discriminate].
  intros _. cbn [fst set_metadata _version _author]. split; intros node Hnode Hlit.
  - exact (eval_member_non_literal _ _ _ _ Hnode Hlit Hv).
  - exact (eval_member_non_literal _ _ _ _ Hnode Hlit Ha).
Qed.

Lemma eval_member_constant (members : gmap string expr) (key : string) (c : option constant) :
  members !! key = EConstant <$> c ->
  eval_member members key = Ok (VConst <$> c).
Proof. intros H. unfold eval_member. rewrite H. now destruct c. Qed.

(** X11: when the entry file is found and read, and each of
    [__version__] and [__author__] is assigned a constant or is not
    assigned at all, [_load_metadata] returns and stores exactly these
    constants, [None] for what is not assigned. *)
Theorem load_metadata_constants (os : Os) (self : PythonPackageMetadata)
    (f : string) (members : gmap string expr) (version author : option constant) :
  snd (filename os self) = Ok f ->
  load_module_members os f = Ok members ->
  members !! "__version__" = EConstant <$> version ->
  members !! "__author__" = EConstant <$> author ->
  _load_metadata os self
  = (set_metadata (fst (filename os self)) (VConst <$> author) (VConst <$> version), Ok tt).
Proof.
  destruct (filename os self) as [self1 r] eqn:Hf. cbn [snd fst]. intros -> Hmembers Hv Ha.
  rewrite (load_metadata_steps _ _ _ _ Hf), Hmembers.
  now rewrite (eval_member_constant _ _ _ Hv), (eval_member_constant _ _ _ Ha).
Qed.

End LoadMetadataMore.

Lemma load_metadata_failure_keeps_fields_witness :
  snd (Metadata._load_metadata example_os_bad_author
         (MetadataAccess.get_python_package_metadata example_model))
    = Raise (TypeError "unhashable type: 'list'") /\
  Metadata._version
    (fst (Metadata._load_metadata example_os_bad_author
            (MetadataAccess.get_python_package_metadata example_model)))
    = None.
Proof.
  assert (H : snd (Metadata._load_metadata example_os_bad_author
                     (MetadataAccess.get_python_package_metadata example_model))
              = Raise (TypeError "unhashable type: 'list'"))
    by (vm_compute; reflexivity).
  split; [exact H|].
  exact (proj2 (load_metadata_failure_keeps_fields _ _ _ H)).
Defined.

Lemma load_metadata_non_literal_fields_witness :
  snd (Metadata.filename example_os_computed
         (MetadataAccess.get_python_package_metadata example_model))
    = Ok "pkg/src/my_pkg.py" /\
  snd (Metadata._load_metadata example_os_computed
         (MetadataAccess.get_python_package_metadata example_model)) = Ok tt /\
  Metadata._version
    (fst (Metadata._load_metadata example_os_computed
            (MetadataAccess.get_python_package_metadata example_model)))
    = Some (LiteralEval.VConst (CStr "<Non-literal expression>")).
Proof.
  assert (H1 : snd (Metadata.filename example_os_computed
                      (MetadataAccess.get_python_package_metadata example_model))
               = Ok "pkg/src/my_pkg.py") by reflexivity.
  assert (H2 : snd (Metadata._load_metadata example_os_computed
                      (MetadataAccess.get_python_package_metadata example_model)) = Ok tt)
    by (vm_compute; reflexivity).
  split; [exact H1|split; [exact H2|]].
  refine (proj1 (load_metadata_non_literal_fields example_os_computed _ _ _ H1 eq_refl H2)
            (EBinOp (EName "base") Add (EConstant (CStr ".dev"))) _ eq_refl).
  vm_compute. reflexivity.
Defined.

Lemma load_metadata_constants_witness :
  snd (Metadata.filename example_os_literal
         (MetadataAccess.get_python_package_metadata example_model))
    = Ok "pkg/src/my_pkg.py" /\
  Metadata._version
    (fst (Metadata._load_metadata example_os_literal
            (MetadataAccess.get_python_package_metadata example_model)))
    = Some (LiteralEval.VConst (CStr "1.0.1")) /\
  Metadata._author
    (fst (Metadata._load_metadata example_os_literal
            (MetadataAccess.get_python_package_metadata example_model)))
    = Some (LiteralEval.VConst (CStr "Ada")).
Proof.
  assert (H1 : snd (Metadata.filename example_os_literal
                      (MetadataAccess.get_python_package_metadata example_model))
               = Ok "pkg/src/my_pkg.py") by reflexivity.
  split; [exact H1|].
  rewrite (load_metadata_constants example_os_literal _ "pkg/src/my_pkg.py"
             {["__version__" := EConstant (CStr "1.0.1");
               "__author__" := EConstant (CStr "Ada")]}
             (Some (CStr "1.0.1")) (Some (CStr "Ada")) H1 eq_refl).
  - split; reflexivity.
  - vm_compute. reflexivity.
  - vm_compute. reflexivity.
Defined.

Section PropertyCache.
Import LiteralEval Metadata MetadataAccess.

Variable nonzero : value -> bool.




(** X13: a version that the entry file does not assign is not
    remembered.  When the entry file is found and read, assigns no
    [__version__], and its [__author__] does not make the call raise, the
    property [version] returns [None] and the object stores no version;
    the next access reads the same file again and returns the constant that
    is assigned then, whatever the author is then, as long as it does not
    make the call raise. *)
Theorem version_absent_is_read_again (os os' : Os) (self : PythonPackageMetadata)
    (f : string) (members members' : gmap string expr)
    (author author' : option value) (c : constant) :
  truthy_field nonzero (_version self) = false ->
  snd (filename os self) = Ok f ->
  load_module_members os f = Ok members ->
  members !! "__version__" = None ->
  eval_member members "__author__" = Ok author ->
  snd (version nonzero os self) = Ok None /\
  _version (fst (version nonzero os self)) = None /\
  (load_module_members os' f = Ok members' ->
   members' !! "__version__" = Some (EConstant c) ->
   eval_member members' "__author__" = Ok author' ->
   snd (version nonzero os' (fst (version nonzero os self))) = Ok (Some (VConst c))).
Proof.
  intros Hfalse Hf Hmembers Hv Ha.
  destruct (filename os self) as [self1 r] eqn:Hfile. cbn [snd] in Hf. subst r.
  assert (Hfirst : version nonzero os self = (set_metadata self1 author None, Ok None)).
  { unfold version. rewrite Hfalse. cbn [negb].
    rewrite (load_metadata_steps _ _ _ _ Hfile), Hmembers.
    unfold eval_member at 1. rewrite Hv, Ha. reflexivity. }
  rewrite Hfirst. cbn [fst snd].
  split; [reflexivity|split; [reflexivity|]].
  intros Hmembers' Hv' Ha'.
  destruct (filename_ok_truthy _ _ _ _ Hfile) as [Hstored Htruthy].
  assert (Hagain : filename os' (set_metadata self1 author None)
                   = (set_metadata self1 author None, Ok f))
    by (apply filename_cached; [exact Hstored|exact Htruthy]).
  unfold version. cbn [_version set_metadata truthy_field negb].
  rewrite (load_metadata_steps _ _ _ _ Hagain), Hmembers'.
  rewrite (eval_member_constant _ _ (Some c) Hv'), Ha'. reflexivity.
Qed.

End PropertyCache.


Lemma version_absent_is_read_again_witness :
  snd (MetadataAccess.version (fun _ => true) example_os_no_version
         (Metadata.init "pkg/src" "my_pkg")) = Ok None /\
  snd (MetadataAccess.version (fun _ => true) example_os_literal
         (fst (MetadataAccess.version (fun _ => true) example_os_no_version
                 (Metadata.init "pkg/src" "my_pkg"))))
    = Ok (Some (LiteralEval.VConst (CStr "1.0.1"))).
Proof.
  destruct (version_absent_is_read_again (fun _ => true) example_os_no_version
              example_os_literal (Metadata.init "pkg/src" "my_pkg") "pkg/src/my_pkg.py"
              {["__author__" := EConstant (CStr "Ada")]}
              {["__version__" := EConstant (CStr "1.0.1");
                "__author__" := EConstant (CStr "Ada")]}
              (Some (LiteralEval.VConst (CStr "Ada")))
              (Some (LiteralEval.VConst (CStr "Ada"))) (CStr "1.0.1")
              eq_refl eq_refl eq_refl eq_refl eq_refl)
    as (Hnone & _ & Hagain).
  split; [exact Hnone|].
  apply Hagain; reflexivity.
Defined.

(** ** More on [pliz.commands.render] *)

Section WarningFacts.
Import RenderMore.

Variable bold : string -> string.

(** X14: [_get_package_warnings] yields nothing and ends without an
    exception exactly when the author, the license and the url of the
    package are set, the entry file data can be loaded, and the author and
    the version found there are the declared ones. *)
Theorem no_warnings_iff_complete_and_consistent (package : WarnedPackage) :
  _get_package_warnings bold package = ([], None) <->
  (has_author package = true /\ has_license package = true /\ has_url package = true /\
   exists data,
     Render.load_entry_file_data (checked package) = Ok data /\
     Render.author data = Render.package_author (checked package) /\
     Render.version data = Render.package_version (checked package)).
Proof.
  unfold _get_package_warnings, Render._get_package_consistency_checks, missing_fields.
  destruct (Render.load_entry_file_data (checked package)) as [data|e]; simpl.
  - destruct (has_author package), (has_license package), (has_url package); simpl;
      try (split; [discriminate|intros (? & ? & ? & _); discriminate]).
    destruct (String.eqb_spec (Render.author data) (Render.package_author (checked package)))
      as [Ha|Ha];
    destruct (String.eqb_spec (Render.version data) (Render.package_version (checked package)))
      as [Hv|Hv]; simpl.
    + split; [intros _|reflexivity]. repeat split. now exists data.
    + split; [discriminate|]. intros (_ & _ & _ & d & Hd & _ & Hv').
      injection Hd as <-. contradiction.
    + split; [discriminate|]. intros (_ & _ & _ & d & Hd & Ha' & _).
      injection Hd as <-. contradiction.
    + split; [discriminate|]. intros (_ & _ & _ & d & Hd & Ha' & _).
      injection Hd as <-. contradiction.
  - split; [intros H; now injection H|].
    intros (_ & _ & _ & d & Hd & _). discriminate.
Qed.

End WarningFacts.

Section ExecuteFacts.

Variable write_to_disk : FileToRender -> FileSystem -> FileSystem * option exn.

Lemma all_written_cons (file : FileToRender) (rest : list FileToRender) (fs : FileSystem) :
  all_written write_to_disk (file :: rest) fs ->
  snd (write_to_disk file fs) = None /\
  all_written write_to_disk rest (fst (write_to_disk file fs)).
Proof.
  intros H. split.
  - exact (H [] file rest eq_refl).
  - intros before f after ->. exact (H (file :: before) f after eq_refl).
Qed.

Lemma render_files_all_written (files : list FileToRender) :
  forall fs, all_written write_to_disk files fs ->
    Render.render_files write_to_disk false files fs
    = (written write_to_disk files fs,
       List.map (fun file => "  " +:+ file_name file) files, None).
Proof.
  induction files as [|file rest IH]; intros fs Hall; [reflexivity|].
  destruct (all_written_cons _ _ _ Hall) as [Hfile Hrest].
  cbn [Render.render_files negb]. destruct (write_to_disk file fs) as [fs1 e] eqn:Hw.
  cbn [snd fst] in Hfile, Hrest. subst e.
  rewrite (IH fs1 Hrest). unfold written. cbn [fold_left]. now rewrite Hw.
Qed.

Lemma render_files_raise (before : list FileToRender) :
  forall (file : FileToRender) (after : list FileToRender) (fs fs1 : FileSystem) (e : exn),
    all_written write_to_disk before fs ->
    write_to_disk file (written write_to_disk before fs) = (fs1, Some e) ->
    Render.render_files write_to_disk false (before ++ file :: after) fs
    = (fs1, List.map (fun file => "  " +:+ file_name file) (before ++ [file]), Some e).
Proof.
  induction before as [|b before IH]; intros file after fs fs1 e Hall Hw.
  - cbn [app Render.render_files negb]. unfold written in Hw. cbn [fold_left] in Hw.
    now rewrite Hw.
  - destruct (all_written_cons _ _ _ Hall) as [Hb Hrest].
    cbn [app Render.render_files negb].
    destruct (write_to_disk b fs) as [fs0 e0] eqn:Hwb.
    cbn [snd fst] in Hb, Hrest. subst e0.
    unfold written in Hw. cbn [fold_left] in Hw. rewrite Hwb in Hw. cbn [fst] in Hw.
    now rewrite (IH file after fs0 fs1 e Hrest Hw).
Qed.

(** X15: [RenderCommand.execute] prints the name of a file before it
    writes it.  With [--dry] it writes nothing, raises nothing and prints
    the count line and every name.  Without [--dry], when no write raises,
    it prints the same lines and leaves the files written in order; when
    the write of a file raises after the writes before it have returned,
    the exception leaves [execute], the file system is the one that write
    has left, and the lines printed are the count line, which counts every
    file, and the names up to that file: no later file is printed or
    written. *)
Theorem execute_prints_and_writes (files : list FileToRender) (fs : FileSystem) :
  let count := "Rendering " +:+ pretty (List.length files) +:+ " file(s)" in
  let line := fun file => "  " +:+ file_name file in
  Render.execute write_to_disk true files fs = (fs, count :: List.map line files, None) /\
  (all_written write_to_disk files fs ->
     Render.execute write_to_disk false files fs
     = (written write_to_disk files fs, count :: List.map line files, None)) /\
  (forall before file after fs1 e,
     files = before ++ file :: after ->
     all_written write_to_disk before fs ->
     write_to_disk file (written write_to_disk before fs) = (fs1, Some e) ->
     Render.execute write_to_disk false files fs
     = (fs1, count :: List.map line (before ++ [file]), Some e)).
Proof.
  intros count line. split; [|split].
  - apply execute_dry.
  - intros Hall. unfold Render.execute.
    now rewrite (render_files_all_written files fs Hall).
  - intros before file after fs1 e Hfiles Hall Hw. unfold Render.execute.
    unfold count. rewrite Hfiles.
    now rewrite (render_files_raise before file after fs fs1 e Hall Hw).
Qed.

End ExecuteFacts.

Section OptionFacts.
Import RenderMore.

Context {Default : Type}.
Variable coerce : string -> coerced.
Variable plugin_options_len : nat.

Abbreviation cfg_t := (gmap string (optvalue Default)).

(** The queue holds at most the one argument that an option without a
    value has looked at; with enough rounds the loop reads the queue and
    the arguments left as the direct reading does. *)
Lemma loop_parse_direct (fuel : nat) :
  forall st : state Default,
    List.length (queue st) <= 1 ->
    2 * List.length (it st) + List.length (queue st) < fuel ->
    loop coerce fuel st
    = Some (final_state (parse_direct coerce (queue st ++ it st) (config st) (pos_args st))).
Proof.
  induction fuel as [|fuel IH]; intros [q i c p] Hq Hfuel; cbn [queue it config pos_args] in *;
    [lia|].
  assert (Hcase : exists item rest,
            (q = [] /\ i = item :: rest) \/ (q = [item] /\ i = rest) \/ (q = [] /\ i = [])).
  { destruct q as [|q0 [|q1 q]]; [destruct i as [|item rest]| |simpl in Hq; lia].
    - exists "", []. auto.
    - exists item, rest. auto.
    - exists q0, i. auto. }
  destruct Hcase as (item & rest & [[-> ->]|[[-> ->]|[-> ->]]]); [| |reflexivity].
  - cbn [loop app]. unfold step, next_item. cbn [queue it config pos_args parse_direct].
    destruct (negb (PyStr.startswith item "--")).
    { destruct (bool_decide (c = ∅)); [|reflexivity].
      rewrite IH; cbn [queue it config pos_args length] in *; [reflexivity|lia|lia]. }
    destruct (PyRepr.has_char "="%char item).
    { destruct (PyStrMore.partition "="%char (PyStrMore.drop 2 item)) as [k v].
      destruct (convert coerce v); [|reflexivity|reflexivity].
      rewrite IH; cbn [queue it config pos_args length] in *; [reflexivity|lia|lia]. }
    destruct rest as [|x xs].
    { destruct (convert coerce "true"); [|reflexivity|reflexivity].
      rewrite IH; cbn [queue it config pos_args length] in *; [reflexivity|lia|lia]. }
    destruct (PyStr.startswith x "--").
    + destruct (convert coerce "true"); [|reflexivity|reflexivity].
      rewrite IH; cbn [queue it config pos_args length app] in *; [reflexivity|lia|lia].
    + destruct (convert coerce x); [|reflexivity|reflexivity].
      rewrite IH; cbn [queue it config pos_args length] in *; [reflexivity|lia|lia].
  - cbn [loop app]. unfold step, next_item. cbn [queue it config pos_args parse_direct].
    destruct (negb (PyStr.startswith item "--")).
    { destruct (bool_decide (c = ∅)); [|reflexivity].
      rewrite IH; cbn [queue it config pos_args length] in *; [reflexivity|lia|lia]. }
    destruct (PyRepr.has_char "="%char item).
    { destruct (PyStrMore.partition "="%char (PyStrMore.drop 2 item)) as [k v].
      destruct (convert coerce v); [|reflexivity|reflexivity].
      rewrite IH; cbn [queue it config pos_args length] in *; [reflexivity|lia|lia]. }
    destruct rest as [|x xs].
    { destruct (convert coerce "true"); [|reflexivity|reflexivity].
      rewrite IH; cbn [queue it config pos_args length] in *; [reflexivity|lia|lia]. }
    destruct (PyStr.startswith x "--").
    + destruct (convert coerce "true"); [|reflexivity|reflexivity].
      rewrite IH; cbn [queue it config pos_args length app] in *; [reflexivity|lia|lia].
    + destruct (convert coerce x); [|reflexivity|reflexivity].
      rewrite IH; cbn [queue it config pos_args length] in *; [reflexivity|lia|lia].
Qed.

(** X16: the loop of [handle_unknown_args] ends within [2 * len(argv) + 1]
    rounds, and what it computes is the reading of the arguments from left
    to right in which an option without [=] takes the next argument as its
    value unless that argument starts with [--]: the queue only hands that
    argument back. *)
Theorem handle_unknown_args_reads_left_to_right
    (options : list (PluginOption Default)) (argv : list string) :
  handle_unknown_args coerce plugin_options_len options argv
  = Some match parse_direct coerce argv (defaults options) [] with
         | Done (cfg, pos) =>
             finish plugin_options_len options
               {| queue := []; it := []; config := cfg; pos_args := pos |}
         | ParserError msg => ParserError msg
         | Overflow => Overflow
         end.
Proof.
  unfold handle_unknown_args.
  rewrite loop_parse_direct; cbn [queue it config pos_args length app]; [|lia|lia].
  now destruct (parse_direct coerce argv (defaults options) []) as [[cfg pos]| |].
Qed.

End OptionFacts.

Section StringMoreFacts.

Lemma has_char_append (c : ascii) (a b : string) :
  PyRepr.has_char c (a +:+ b) = (PyRepr.has_char c a || PyRepr.has_char c b)%bool.
Proof.
  induction a as [|x a IH]; [reflexivity|].
  rewrite append_cons. cbn [PyRepr.has_char]. rewrite IH. now rewrite orb_assoc.
Qed.

Lemma partition_first (sep : ascii) (k v : string) :
  PyRepr.has_char sep k = false ->
  PyStrMore.partition sep (k +:+ String sep v) = (k, v).
Proof.
  induction k as [|x k IH]; intros Hk.
  - rewrite append_nil. cbn [PyStrMore.partition]. now rewrite Ascii.eqb_refl.
  - cbn [PyRepr.has_char] in Hk. apply orb_false_elim in Hk as [Hx Hk].
    rewrite append_cons. cbn [PyStrMore.partition]. rewrite Hx. now rewrite (IH Hk).
Qed.

Lemma partition_none (sep : ascii) (k : string) :
  PyRepr.has_char sep k = false -> PyStrMore.partition sep k = (k, "").
Proof.
  induction k as [|x k IH]; intros Hk; [reflexivity|].
  cbn [PyRepr.has_char] in Hk. apply orb_false_elim in Hk as [Hx Hk].
  cbn [PyStrMore.partition]. rewrite Hx. now rewrite (IH Hk).
Qed.

Lemma option_arg_is_option (kv : string * string) :
  PyStr.startswith (option_arg kv) "--" = true.
Proof. apply prefix_append. Qed.

Lemma option_arg_has_equals (kv : string * string) :
  PyRepr.has_char "="%char (option_arg kv) = true.
Proof.
  unfold option_arg. rewrite !has_char_append. cbn [PyRepr.has_char].
  rewrite Ascii.eqb_refl. now rewrite !orb_true_r.
Qed.

Lemma option_arg_partition (k v : string) :
  PyRepr.has_char "="%char k = false ->
  PyStrMore.partition "="%char (PyStrMore.drop 2 (option_arg (k, v))) = (k, v).
Proof.
  intros Hk. unfold option_arg.
  change (PyStrMore.drop 2 ("--" +:+ fst (k, v) +:+ "=" +:+ snd (k, v)))
    with (k +:+ String "="%char v).
  now apply partition_first.
Qed.

Lemma bare_option_is_option (k : string) : PyStr.startswith ("--" +:+ k) "--" = true.
Proof. apply prefix_append. Qed.

Lemma bare_option_drop (k : string) : PyStrMore.drop 2 ("--" +:+ k) = k.
Proof. reflexivity. Qed.

Lemma bare_option_no_equals (k : string) :
  PyRepr.has_char "="%char k = false -> PyRepr.has_char "="%char ("--" +:+ k) = false.
Proof. intros Hk. rewrite has_char_append, Hk. reflexivity. Qed.

End StringMoreFacts.

Section OptionForms.
Import RenderMore.

Context {Default : Type}.
Variable coerce : string -> coerced.
Variable plugin_options_len : nat.

Abbreviation handle := (handle_unknown_args (Default := Default) coerce plugin_options_len).

Lemma convert_true : convert (Default := Default) coerce "true" = Done (OBool true).
Proof. reflexivity. Qed.

Lemma parse_direct_option_arg (k v : string) (rest : list string)
    (cfg : gmap string (optvalue Default)) (pos : list string) :
  PyRepr.has_char "="%char k = false ->
  parse_direct coerce (option_arg (k, v) :: rest) cfg pos
  = match convert coerce v with
    | Done value => parse_direct coerce rest (<[k := value]> cfg) pos
    | ParserError msg => ParserError msg
    | Overflow => Overflow
    end.
Proof.
  intros Hk. cbn [parse_direct].
  rewrite option_arg_is_option, option_arg_has_equals. cbn [negb].
  now rewrite (option_arg_partition k v Hk).
Qed.

Lemma parse_direct_options (kvs : list (string * string)) :
  (forall kv, In kv kvs -> PyRepr.has_char "="%char (fst kv) = false) ->
  forall cfg pos,
    parse_direct coerce (List.map option_arg kvs) cfg pos
    = match set_options coerce kvs cfg
            return outcome (gmap string (optvalue Default) * list string) with
      | Done cfg' => Done (cfg', pos)
      | ParserError msg => ParserError msg
      | Overflow => Overflow
      end.
Proof.
  induction kvs as [|[k v] kvs IH]; intros Hall cfg pos; [reflexivity|].
  cbn [List.map set_options].
  rewrite parse_direct_option_arg by exact (Hall (k, v) (or_introl eq_refl)).
  destruct (convert coerce v); [|reflexivity|reflexivity].
  apply IH. intros kv Hkv. apply Hall. now right.
Qed.

Lemma finish_no_positional (options : list (PluginOption Default))
    (cfg : gmap string (optvalue Default)) :
  finish plugin_options_len options
    {| queue := []; it := []; config := cfg; pos_args := [] |} = Done cfg.
Proof.
  unfold finish. cbn [pos_args config length]. now destruct options.
Qed.

(** X17: a command line of options written [--k=v], with no [=] in the
    names, is read as the defaults of the optional options with each
    option set in turn to its converted value, a later one over an earlier
    one of the same name; it ends with the first conversion that raises. *)
Theorem options_with_equals_are_set_in_turn
    (options : list (PluginOption Default)) (kvs : list (string * string)) :
  (forall kv, In kv kvs -> PyRepr.has_char "="%char (fst kv) = false) ->
  handle options (List.map option_arg kvs)
  = Some (set_options coerce kvs (defaults options)).
Proof.
  intros Hall. rewrite handle_unknown_args_reads_left_to_right.
  rewrite (parse_direct_options kvs Hall).
  destruct (set_options coerce kvs (defaults options)); [|reflexivity|reflexivity].
  now rewrite finish_no_positional.
Qed.

(** Replacing the arguments from some point on by arguments that are
    read the same way, and that start with an option as well, does not
    change how the whole is read. *)
Lemma parse_direct_congruence (a b : list string) :
  (forall (cfg : gmap string (optvalue Default)) pos,
     parse_direct coerce a cfg pos = parse_direct coerce b cfg pos) ->
  (exists x xs, a = x :: xs /\ PyStr.startswith x "--" = true) ->
  (exists y ys, b = y :: ys /\ PyStr.startswith y "--" = true) ->
  forall n pre, List.length pre <= n ->
    forall (cfg : gmap string (optvalue Default)) pos,
      parse_direct coerce (pre ++ a) cfg pos = parse_direct coerce (pre ++ b) cfg pos.
Proof.
  intros Hab (x & xs & -> & Hx) (y & ys & -> & Hy).
  induction n as [|n IH]; intros pre Hlen cfg pos.
  - destruct pre; [apply Hab|simpl in Hlen; lia].
  - destruct pre as [|item rest]; [apply Hab|].
    simpl in Hlen. cbn [app parse_direct].
    destruct (negb (PyStr.startswith item "--")).
    { destruct (bool_decide (cfg = ∅)); [|reflexivity]. apply IH. lia. }
    destruct (PyRepr.has_char "="%char item).
    { destruct (PyStrMore.partition "="%char (PyStrMore.drop 2 item)) as [k v].
      destruct (convert coerce v); [|reflexivity|reflexivity]. apply IH. lia. }
    destruct rest as [|z zs].
    + cbn [app]. rewrite Hx, Hy.
      destruct (convert coerce "true"); [|reflexivity|reflexivity].
      apply (IH []). simpl. lia.
    + cbn [app]. destruct (PyStr.startswith z "--").
      * destruct (convert coerce "true"); [|reflexivity|reflexivity].
        apply (IH (z :: zs)). simpl in *. lia.
      * destruct (convert coerce z); [|reflexivity|reflexivity].
        apply (IH zs). simpl in *. lia.
Qed.

(** X18: anywhere on the command line, an option written [--k]
    followed by a value that does not start with [--] is read as
    [--k=value]; followed by an argument that starts with [--], or by
    nothing, it is read as [--k=true], and the argument after it is read
    on its own. *)
Theorem option_forms_agree (options : list (PluginOption Default))
    (pre rest : list string) (k x : string) :
  PyRepr.has_char "="%char k = false ->
  (PyStr.startswith x "--" = false ->
     handle options (pre ++ ("--" +:+ k) :: x :: rest)
     = handle options (pre ++ option_arg (k, x) :: rest)) /\
  (PyStr.startswith x "--" = true ->
     handle options (pre ++ ("--" +:+ k) :: x :: rest)
     = handle options (pre ++ option_arg (k, "true") :: x :: rest)) /\
  handle options (pre ++ ["--" +:+ k]) = handle options (pre ++ [option_arg (k, "true")]).
Proof.
  intros Hk.
  assert (Hbare : forall tail (cfg : gmap string (optvalue Default)) pos,
            parse_direct coerce (("--" +:+ k) :: tail) cfg pos
            = match tail with
              | y :: ys =>
                  if PyStr.startswith y "--" then
                    parse_direct coerce tail (<[k := OBool true]> cfg) pos
                  else
                    match convert coerce y with
                    | Done value => parse_direct coerce ys (<[k := value]> cfg) pos
                    | ParserError msg => ParserError msg
                    | Overflow => Overflow
                    end
              | [] => Done (<[k := OBool true]> cfg, pos)
              end).
  { intros tail cfg pos. cbn [parse_direct].
    rewrite bare_option_is_option, (bare_option_no_equals k Hk). cbn [negb].
    rewrite bare_option_drop, convert_true. reflexivity. }
  assert (Hsame : forall a b,
            (forall (cfg : gmap string (optvalue Default)) pos,
               parse_direct coerce a cfg pos = parse_direct coerce b cfg pos) ->
            (exists y ys, a = y :: ys /\ PyStr.startswith y "--" = true) ->
            (exists y ys, b = y :: ys /\ PyStr.startswith y "--" = true) ->
            handle options (pre ++ a) = handle options (pre ++ b)).
  { intros a b Hab Ha Hb. rewrite !handle_unknown_args_reads_left_to_right.
    now rewrite (parse_direct_congruence a b Hab Ha Hb (List.length pre) pre (le_n _)). }
  split; [|split].
  - intros Hx. apply Hsame.
    + intros cfg pos. rewrite Hbare, Hx. now rewrite parse_direct_option_arg.
    + exists ("--" +:+ k), (x :: rest). split; [reflexivity|apply bare_option_is_option].
    + exists (option_arg (k, x)), rest. split; [reflexivity|apply option_arg_is_option].
  - intros Hx. apply Hsame.
    + intros cfg pos. rewrite Hbare, Hx. rewrite parse_direct_option_arg by exact Hk.
      now rewrite convert_true.
    + exists ("--" +:+ k), (x :: rest). split; [reflexivity|apply bare_option_is_option].
    + exists (option_arg (k, "true")), (x :: rest).
      split; [reflexivity|apply option_arg_is_option].
  - apply Hsame.
    + intros cfg pos. rewrite Hbare. rewrite parse_direct_option_arg by exact Hk.
      now rewrite convert_true.
    + exists ("--" +:+ k), []. split; [reflexivity|apply bare_option_is_option].
    + exists (option_arg (k, "true")), []. split; [reflexivity|apply option_arg_is_option].
Qed.

End OptionForms.

Lemma options_with_equals_are_set_in_turn_witness :
  (forall kv, In kv [("name", "demo"); ("debug", " YES"); ("name", "7")] ->
     PyRepr.has_char "="%char (fst kv) = false) /\
  RenderMore.handle_unknown_args example_coerce 2 example_options
    ["--name=demo"; "--debug= YES"; "--name=7"]
  = Some (RenderMore.Done
            (<["name" := RenderMore.OInt 7]>
               (<["debug" := RenderMore.OBool true]>
                  (<["name" := RenderMore.OStr "demo"]>
                     {["debug" := RenderMore.ODefault "off"]})))).
Proof.
  assert (H : forall kv, In kv [("name", "demo"); ("debug", " YES"); ("name", "7")] ->
                PyRepr.has_char "="%char (fst kv) = false).
  { intros kv [<-|[<-|[<-|[]]]]; reflexivity. }
  split; [exact H|].
  exact (options_with_equals_are_set_in_turn example_coerce 2 example_options _ H).
Defined.

Lemma option_forms_agree_witness :
  PyRepr.has_char "="%char "name" = false /\
  PyStr.startswith "demo" "--" = false /\
  RenderMore.handle_unknown_args example_coerce 2 example_options
    ["--debug"; "--name"; "demo"]
  = RenderMore.handle_unknown_args example_coerce 2 example_options
      ["--debug"; "--name=demo"].
Proof.
  split; [reflexivity|]. split; [reflexivity|].
  exact (proj1 (option_forms_agree example_coerce 2 example_options
                  ["--debug"] [] "name" "demo" eq_refl) eq_refl).
Defined.

Section PositionalArguments.
Import RenderMore.

Context {Default : Type}.
Variable coerce : string -> coerced.
Variable plugin_options_len : nat.

Abbreviation handle' := (handle_unknown_args (Default := Default) coerce plugin_options_len).

Lemma defaults_fold_nonempty (options : list (PluginOption Default)) :
  forall m : gmap string (optvalue Default),
    m <> ∅ ->
    fold_left (fun m o => if negb (required o)
                          then <[name o := ODefault (get_default o)]> m else m)
      options m <> ∅.
Proof.
  induction options as [|o options IH]; intros m Hm; [exact Hm|].
  cbn [fold_left]. apply IH. destruct (negb (required o)); [apply insert_non_empty|exact Hm].
Qed.

(** The configuration starts empty exactly when every option is
    required. *)
Lemma defaults_empty_iff (options : list (PluginOption Default)) :
  defaults options = ∅ <-> forall o, In o options -> required o = true.
Proof.
  unfold defaults.
  assert (H : forall m : gmap string (optvalue Default),
            fold_left (fun m o => if negb (required o)
                                  then <[name o := ODefault (get_default o)]> m else m)
              options m = ∅
            <-> m = ∅ /\ forall o, In o options -> required o = true).
  { induction options as [|o options IH]; intros m; cbn [fold_left].
    - split; [intros ->; split; [reflexivity|intros o []]|now intros [-> _]].
    - rewrite IH. destruct (required o) eqn:Hreq; cbn [negb].
      + split; intros [Hm Hall]; (split; [exact Hm|]).
        * intros o' [<-|Hin]; [exact Hreq|now apply Hall].
        * intros o' Hin. apply Hall. now right.
      + split.
        * intros [Hm _]. now apply insert_non_empty in Hm.
        * intros [_ Hall]. specialize (Hall o (or_introl eq_refl)). congruence. }
  rewrite H. tauto.
Qed.

(** X19: an argument that does not start with [--] and is not the value
    of an option is refused with [unexpected argument] as soon as the
    configuration holds anything: at the front of the command line when
    some option is optional, since its default is in the configuration
    from the start, and after an option in every case. *)
Theorem positional_argument_refused (options : list (PluginOption Default))
    (item : string) (rest : list string) :
  PyStr.startswith item "--" = false ->
  ((exists o, In o options /\ required o = false) ->
     handle' options (item :: rest)
     = Some (ParserError ("unexpected argument " +:+ PyRepr.repr item))) /\
  (forall k v (value : optvalue Default),
     PyRepr.has_char "="%char k = false ->
     convert coerce v = Done value ->
     handle' options (option_arg (k, v) :: item :: rest)
     = Some (ParserError ("unexpected argument " +:+ PyRepr.repr item))).
Proof.
  intros Hitem. split.
  - intros (o & Hin & Hreq). rewrite handle_unknown_args_reads_left_to_right.
    cbn [parse_direct]. rewrite Hitem. cbn [negb].
    rewrite bool_decide_eq_false_2; [reflexivity|].
    intros Hempty.
    pose proof (proj1 (defaults_empty_iff options) Hempty o Hin). congruence.
  - intros k v value Hk Hv. rewrite handle_unknown_args_reads_left_to_right.
    rewrite (parse_direct_option_arg coerce k v _ _ _ Hk), Hv.
    cbn [parse_direct]. rewrite Hitem. cbn [negb].
    rewrite bool_decide_eq_false_2; [reflexivity|apply insert_non_empty].
Qed.

Lemma parse_direct_plain (argv : list string) :
  (forall a, In a argv -> PyStr.startswith a "--" = false) ->
  forall pos,
    parse_direct (Default := Default) coerce argv ∅ pos = Done (∅, pos ++ argv).
Proof.
  induction argv as [|a argv IH]; intros Hall pos.
  - cbn [parse_direct]. now rewrite app_nil_r.
  - cbn [parse_direct]. rewrite (Hall a (or_introl eq_refl)). cbn [negb].
    rewrite bool_decide_eq_true_2 by reflexivity.
    rewrite IH by (intros b Hb; apply Hall; now right).
    now rewrite <- app_assoc.
Qed.

Lemma assign_positional_distinct (options : list (PluginOption Default)) :
  List.NoDup (List.map name options) ->
  forall (values : list string) (cfg : gmap string (optvalue Default)),
    (forall o, In o options -> cfg !! name o = None) ->
    exists cfg',
      assign_positional options values cfg = Done cfg' /\
      (forall i o a, options !! i = Some o -> values !! i = Some a ->
         cfg' !! name o = Some (OStr a)) /\
      (forall i o, options !! i = Some o -> List.length values <= i ->
         cfg' !! name o = None).
Proof.
  induction options as [|o options IH]; intros Hnodup values cfg Hfree.
  - exists cfg. split; [reflexivity|].
    split; [intros i o' a Ho|intros i o' Ho]; rewrite lookup_nil in Ho; discriminate.
  - inversion Hnodup as [|? ? Hnotin Hnodup']; subst.
    destruct values as [|a values].
    + exists cfg. split; [reflexivity|]. split.
      * intros i o' b _ Hb. rewrite lookup_nil in Hb. discriminate.
      * intros i o' Ho _. apply Hfree. eapply list_elem_of_In, list_elem_of_lookup_2, Ho.
    + cbn [assign_positional]. rewrite (Hfree o (or_introl eq_refl)).
      destruct (IH Hnodup' values (<[name o := OStr a]> cfg)) as (cfg' & Hres & Hset & Hunset).
      { intros o' Hin. rewrite lookup_insert_ne; [apply Hfree; now right|].
        intros Heq. apply Hnotin. rewrite Heq. now apply in_map. }
      assert (Hkeep : cfg' !! name o = Some (OStr a)).
      { clear Hset Hunset. revert Hres.
        assert (Hgen : forall opts vals (c c' : gmap string (optvalue Default)),
                  ~ In (name o) (List.map name opts) ->
                  c !! name o = Some (OStr a) ->
                  assign_positional opts vals c = Done c' ->
                  c' !! name o = Some (OStr a)).
        { induction opts as [|p opts IHo]; intros vals c c' Hno Hc.
          - cbn [assign_positional]. intros H. now injection H as <-.
          - destruct vals as [|b vals]; cbn [assign_positional].
            + intros H. now injection H as <-.
            + destruct (c !! name p); [discriminate|].
              apply IHo.
              * intros Hin. apply Hno. now right.
              * rewrite lookup_insert_ne; [exact Hc|].
                intros Heq. apply Hno. left. exact Heq. }
        apply Hgen; [exact Hnotin|apply lookup_insert_eq]. }
      exists cfg'. split; [exact Hres|]. split.
      * intros [|i] o' b Ho Hb; cbn in Ho, Hb.
        -- injection Ho as <-. injection Hb as <-. exact Hkeep.
        -- eapply Hset; eassumption.
      * intros [|i] o' Ho Hlen; cbn in Ho, Hlen; [lia|].
        eapply Hunset; [eassumption|lia].
Qed.

(** X20: when every option is required and the option names differ, a
    command line of arguments that do not start with [--], no more of them
    than options, gives the options their values by position, as the
    strings they are, without conversion; an option beyond the arguments
    is not set. *)
Theorem positional_arguments_by_position (options : list (PluginOption Default))
    (argv : list string) :
  (forall o, In o options -> required o = true) ->
  List.NoDup (List.map name options) ->
  (forall a, In a argv -> PyStr.startswith a "--" = false) ->
  List.length argv <= List.length options ->
  exists cfg,
    handle' options argv = Some (Done cfg) /\
    (forall i o a, options !! i = Some o -> argv !! i = Some a ->
       cfg !! name o = Some (OStr a)) /\
    (forall i o, options !! i = Some o -> List.length argv <= i ->
       cfg !! name o = None).
Proof.
  intros Hreq Hnodup Hplain Hlen.
  rewrite handle_unknown_args_reads_left_to_right.
  rewrite (proj2 (defaults_empty_iff options) Hreq).
  rewrite (parse_direct_plain argv Hplain []). cbn [app].
  unfold finish. cbn [pos_args config].
  destruct (Nat.ltb_spec (List.length options) (List.length argv)) as [Hlt|_]; [lia|].
  destruct (assign_positional_distinct options Hnodup argv ∅) as (cfg & Hres & Hset & Hunset).
  { intros o _. apply lookup_empty. }
  exists cfg. rewrite Hres. auto.
Qed.

(** X21: when every option is required, a command line of more
    arguments that do not start with [--] than there are options is
    refused, with the number of arguments in the message. *)
Theorem too_many_positional_arguments (options : list (PluginOption Default))
    (argv : list string) :
  (forall o, In o options -> required o = true) ->
  (forall a, In a argv -> PyStr.startswith a "--" = false) ->
  List.length options < List.length argv ->
  handle' options argv
  = Some (ParserError ("expected at max " +:+ pretty plugin_options_len
                       +:+ " positional arguments, got " +:+ pretty (List.length argv))).
Proof.
  intros Hreq Hplain Hlen.
  rewrite handle_unknown_args_reads_left_to_right.
  rewrite (proj2 (defaults_empty_iff options) Hreq).
  rewrite (parse_direct_plain argv Hplain []). cbn [app].
  unfold finish. cbn [pos_args config].
  destruct (Nat.ltb_spec (List.length options) (List.length argv)) as [_|Hge]; [reflexivity|lia].
Qed.

End PositionalArguments.

Lemma positional_argument_refused_witness :
  PyStr.startswith "demo" "--" = false /\
  RenderMore.handle_unknown_args example_coerce 2 example_options ["demo"]
  = Some (RenderMore.ParserError "unexpected argument 'demo'").
Proof.
  split; [reflexivity|].
  refine (proj1 (positional_argument_refused example_coerce 2 example_options
                   "demo" [] eq_refl) _).
  exists (RenderMore.Build_PluginOption "debug" false "off").
  split; [now left|reflexivity].
Defined.

Lemma positional_arguments_by_position_witness :
  (forall o, In o example_required_options -> RenderMore.required o = true) /\
  List.NoDup (List.map RenderMore.name example_required_options) /\
  (forall a, In a ["7"] -> PyStr.startswith a "--" = false) /\
  List.length ["7"] <= List.length example_required_options /\
  exists cfg,
    RenderMore.handle_unknown_args example_coerce 2 example_required_options ["7"]
    = Some (RenderMore.Done cfg) /\
    cfg !! "name" = Some (RenderMore.OStr "7") /\
    cfg !! "license" = None.
Proof.
  assert (H1 : forall o, In o example_required_options -> RenderMore.required o = true).
  { intros o [<-|[<-|[]]]; reflexivity. }
  assert (H2 : List.NoDup (List.map RenderMore.name example_required_options)).
  { repeat constructor; simpl; intuition discriminate. }
  assert (H3 : forall a, In a ["7"] -> PyStr.startswith a "--" = false).
  { intros a [<-|[]]. reflexivity. }
  assert (H4 : List.length ["7"] <= List.length example_required_options)
    by (simpl; lia).
  split; [exact H1|split; [exact H2|split; [exact H3|split; [exact H4|]]]].
  destruct (positional_arguments_by_position example_coerce 2 example_required_options
              ["7"] H1 H2 H3 H4) as (cfg & Hres & Hset & Hunset).
  exists cfg. split; [exact Hres|]. split.
  - exact (Hset 0 (RenderMore.Build_PluginOption "name" true "") "7" eq_refl eq_refl).
  - apply (Hunset 1 (RenderMore.Build_PluginOption "license" true "") eq_refl).
    simpl. lia.
Defined.

Lemma too_many_positional_arguments_witness :
  (forall o, In o example_required_options -> RenderMore.required o = true) /\
  (forall a, In a ["a"; "b"; "c"] -> PyStr.startswith a "--" = false) /\
  List.length example_required_options < List.length ["a"; "b"; "c"] /\
  RenderMore.handle_unknown_args example_coerce 2 example_required_options ["a"; "b"; "c"]
  = Some (RenderMore.ParserError "expected at max 2 positional arguments, got 3").
Proof.
  assert (H1 : forall o, In o example_required_options -> RenderMore.required o = true).
  { intros o [<-|[<-|[]]]; reflexivity. }
  assert (H2 : forall a, In a ["a"; "b"; "c"] -> PyStr.startswith a "--" = false).
  { intros a [<-|[<-|[<-|[]]]]; reflexivity. }
  assert (H3 : List.length example_required_options < List.length ["a"; "b"; "c"])
    by (simpl; lia).
  split; [exact H1|split; [exact H2|split; [exact H3|]]].
  exact (too_many_positional_arguments example_coerce 2 example_required_options
           ["a"; "b"; "c"] H1 H2 H3).
Defined.

(** ** More on [_get_file_in_directory] *)

Section GetFileMore.
Import Package.

(** X22: [_get_file_in_directory] raises exactly when the directory
    cannot be listed.  Otherwise it returns [None] exactly when no entry
    of the directory is in the preferred list or starts with the prefix,
    and a path it returns comes from an entry of the directory: a preferred
    one, joined to the directory, or one with the prefix, as it is. *)
Theorem get_file_in_directory_none_iff
    (os : Os) (directory prefix : string) (preferred : list string) :
  (forall e, _get_file_in_directory directory prefix preferred os = Raise e
             <-> listdir os directory = Raise e) /\
  (forall listing, listdir os directory = Ok listing ->
     (_get_file_in_directory directory prefix preferred os = Ok None <->
        forall n, In n listing -> ~ In n preferred /\ PyStr.startswith n prefix = false) /\
     (forall p, _get_file_in_directory directory prefix preferred os = Ok (Some p) ->
        exists n, In n listing /\
          ((In n preferred /\ p = Posixpath.join directory [n]) \/
           (PyStr.startswith n prefix = true /\ p = n)))).
Proof.
  unfold _get_file_in_directory. split.
  - intros e. destruct (listdir os directory) as [names|e']; simpl.
    + split; discriminate.
    + split; intros H; injection H as <-; reflexivity.
  - intros listing ->. simpl. rewrite scan_find. cbn [app]. rewrite head_filter_find.
    destruct (List.find (is_preferred preferred) (PyStr.sorted listing)) as [n|] eqn:Hpref.
    + apply List.find_some in Hpref as [Hin Hp].
      apply (proj1 (sorted_In _ _)) in Hin. apply (proj1 (is_preferred_In _ _)) in Hp. split.
      * split; [discriminate|]. intros Hall. destruct (Hall n Hin) as [Hno _]. contradiction.
      * intros p H. injection H as <-. exists n. auto.
    + pose proof (List.find_none _ _ Hpref) as Hnone.
      destruct (List.find (has_prefix prefix) (PyStr.sorted listing)) as [n|] eqn:Hfix.
      * apply List.find_some in Hfix as [Hin Hp]. apply (proj1 (sorted_In _ _)) in Hin. split.
        -- split; [discriminate|]. intros Hall. destruct (Hall n Hin) as [_ Hno].
           unfold has_prefix in Hp. congruence.
        -- intros p H. injection H as <-. exists n. auto.
      * pose proof (List.find_none _ _ Hfix) as Hnofix. split.
        -- split; [|reflexivity]. intros _ n Hin. apply (proj2 (sorted_In _ _)) in Hin. split.
           ++ apply is_preferred_not_In. now apply Hnone.
           ++ now apply Hnofix.
        -- discriminate.
Qed.

End GetFileMore.


(** ** The files of [shore new] *)

Lemma length_split (sep : ascii) (s : string) :
  List.length (PyStr.split sep s) = S (count_char sep s).
Proof.
  induction s as [|c rest IH]; simpl; [reflexivity|].
  destruct (Ascii.eqb c sep); simpl; [now rewrite IH|].
  destruct (PyStr.split sep rest) as [|w ws]; simpl in *; lia.
Qed.

Lemma length_init_split (sep : ascii) (s : string) :
  List.length (PyStr.init (PyStr.split sep s)) = count_char sep s.
Proof.
  unfold PyStr.init. rewrite removelast_firstn_len, length_take, length_split. lia.
Qed.

Lemma take_init_split (sep : ascii) (s : string) (k : nat) :
  k < count_char sep s ->
  take (S k) (PyStr.init (PyStr.split sep s)) = take (S k) (PyStr.split sep s).
Proof.
  intros Hk. unfold PyStr.init.
  rewrite removelast_firstn_len, take_take, length_split.
  rewrite Nat.min_l by (simpl; lia). reflexivity.
Qed.

Lemma namespace_loop_length (directory : string) (items : list string) :
  forall parts, List.length (ShoreNew.namespace_loop directory items parts) = List.length items.
Proof.
  induction items as [|item rest IH]; intros parts; simpl; [reflexivity|].
  now rewrite IH.
Qed.

Lemma namespace_loop_lookup (directory : string) (items : list string) :
  forall parts k, k < List.length items ->
    ShoreNew.namespace_loop directory items parts !! k
    = Some {| file_name :=
                ShoreNew.normpath
                  (Posixpath.join directory
                     ("src" :: (parts ++ take (S k) items) ++ ["__init__.py"]));
              file_content := ShoreNew.namespace_source |}.
Proof.
  induction items as [|item rest IH]; intros parts k Hk; simpl in Hk; [lia|].
  destruct k as [|k].
  - reflexivity.
  - change (ShoreNew.namespace_loop directory (item :: rest) parts !! S k)
      with (ShoreNew.namespace_loop directory rest (parts ++ [item]) !! k).
    rewrite IH by lia.
    replace ((parts ++ [item]) ++ take (S k) rest)
      with (parts ++ take (S (S k)) (item :: rest))
      by (rewrite <- app_assoc; reflexivity).
    reflexivity.
Qed.

Section NewFiles.
Variable templates : list string.
Variable render_name : string -> string -> string.
Variable render_file : string -> string.
Variable write_to_disk : FileToRender -> FileSystem -> FileSystem * option exn.

Lemma new_loop_all_written (files : list FileToRender) :
  forall fs, all_written write_to_disk files fs ->
    ShoreNew.new_loop write_to_disk files fs
    = (written write_to_disk files fs, List.map file_name files, None).
Proof.
  induction files as [|file rest IH]; intros fs Hall; [reflexivity|].
  assert (Hfile : snd (write_to_disk file fs) = None) by exact (Hall [] file rest eq_refl).
  assert (Hrest : all_written write_to_disk rest (fst (write_to_disk file fs))).
  { intros before f after ->. exact (Hall (file :: before) f after eq_refl). }
  cbn [ShoreNew.new_loop]. destruct (write_to_disk file fs) as [fs1 e] eqn:Hw.
  cbn [snd fst] in Hfile, Hrest. subst e.
  rewrite (IH fs1 Hrest). unfold written. cbn [fold_left]. now rewrite Hw.
Qed.

Lemma new_loop_raise (before : list FileToRender) :
  forall (file : FileToRender) (after : list FileToRender) (fs fs1 : FileSystem) (e : exn),
    all_written write_to_disk before fs ->
    write_to_disk file (written write_to_disk before fs) = (fs1, Some e) ->
    ShoreNew.new_loop write_to_disk (before ++ file :: after) fs
    = (fs1, List.map file_name (before ++ [file]), Some e).
Proof.
  induction before as [|b before IH]; intros file after fs fs1 e Hall Hw.
  - cbn [app ShoreNew.new_loop]. unfold written in Hw. cbn [fold_left] in Hw.
    now rewrite Hw.
  - assert (Hb : snd (write_to_disk b fs) = None) by exact (Hall [] b before eq_refl).
    assert (Hrest : all_written write_to_disk before (fst (write_to_disk b fs))).
    { intros l f r ->. exact (Hall (b :: l) f r eq_refl). }
    cbn [app ShoreNew.new_loop].
    destruct (write_to_disk b fs) as [fs0 e0] eqn:Hwb.
    cbn [snd fst] in Hb, Hrest. subst e0.
    unfold written in Hw. cbn [fold_left] in Hw. rewrite Hwb in Hw. cbn [fst] in Hw.
    now rewrite (IH file after fs0 fs1 e Hrest Hw).
Qed.

(** X23: [shore new] prints the name of a file before it writes it.
    When no write raises, it prints the names of all its files in order,
    one for each template and one more for each dot of the package name, and
    leaves them written in that order.  When the write of a file raises
    after the writes before it have returned, the exception leaves [_new],
    the file system is the one that write has left, and the names printed
    are those up to that file: no later file is printed or written. *)
Theorem new_prints_before_it_writes (directory : option string) (name : string)
    (fs : FileSystem) :
  let files := ShoreNew._get_files templates render_name render_file
                 (ShoreNew.directory_of directory name) name in
  let new := ShoreNew._new templates render_name render_file write_to_disk
               directory name fs in
  (all_written write_to_disk files fs ->
     new = (written write_to_disk files fs, List.map file_name files, None) /\
     List.length (snd (fst new)) = List.length templates + count_char "."%char name) /\
  (forall before file after fs1 e,
     files = before ++ file :: after ->
     all_written write_to_disk before fs ->
     write_to_disk file (written write_to_disk before fs) = (fs1, Some e) ->
     new = (fs1, List.map file_name (before ++ [file]), Some e)).
Proof.
  intros files new. unfold new, ShoreNew._new. fold files. split.
  - intros Hall. rewrite (new_loop_all_written files fs Hall). split; [reflexivity|].
    cbn [fst snd]. unfold files, ShoreNew._get_files.
    rewrite length_map, length_app, length_map, namespace_loop_length, length_init_split.
    reflexivity.
  - intros before file after fs1 e Hfiles Hall Hw. rewrite Hfiles.
    exact (new_loop_raise before file after fs fs1 e Hall Hw).
Qed.

(** X24: for a package name with dots, the file after the templates at
    place k is the [__init__.py] of the namespace package made of the first
    k + 1 parts of the name, under [src] in the target directory, and it holds
    the [pkgutil] line. *)
Theorem new_namespace_file (directory name : string) (k : nat) :
  k < count_char "."%char name ->
  ShoreNew._get_files templates render_name render_file directory name
    !! (List.length templates + k)
  = Some {| file_name :=
              ShoreNew.normpath
                (Posixpath.join directory
                   ("src" :: take (S k) (PyStr.split "."%char name) ++ ["__init__.py"]));
            file_content := ShoreNew.namespace_source |}.
Proof.
  intros Hk. unfold ShoreNew._get_files.
  rewrite lookup_app_r by (rewrite length_map; lia).
  rewrite length_map.
  replace (List.length templates + k - List.length templates) with k by lia.
  rewrite namespace_loop_lookup by (rewrite length_init_split; exact Hk).
  rewrite take_init_split by exact Hk. reflexivity.
Qed.

End NewFiles.

Lemma new_namespace_file_witness :
  1 < count_char "."%char "a.b.c"
  /\ ShoreNew._get_files example_templates example_render_name (fun f => f) "pkg" "a.b.c"
       !! 3
     = Some {| file_name := "pkg/src/a/b/__init__.py";
               file_content := ShoreNew.namespace_source |}.
Proof.
  split; [vm_compute; lia|].
  exact (new_namespace_file example_templates example_render_name (fun f => f)
           "pkg" "a.b.c" 1 ltac:(vm_compute; lia)).
Defined.
